(** * BWGA Nexus: investment scoring and region/entity matching

    A shallow embedding of the decision logic of

    - [investment_algorithm.py]          (class AdvancedRegionalInvestmentAlgorithm),
    - [enhanced_investment_algorithm.py] (class EnhancedInvestmentAlgorithm),
    - [revolutionary_system.py]          (class RevolutionarySystem),
    - [revolutionary_regional_system.py] (class RevolutionaryRegionalSystem),
    - [BWGA_NEXUS_COMPLETE.py]           (function advanced_investment_algorithm),
    - [real_time_data.py]                (the two text helpers of
                                          class RealTimeDataCollector),

    followed by the properties stated about them.

    Conventions of the embedding.
    - A Python [float] is an exact rational ([Q]); equality of floats is
      [Qeq].  Overflow, NaN and the binary representation error of
      decimal literals are outside the model.
    - A Python [int] is a [Z], a [str] is a [string], a [list] is a [list],
      a [dict] whose iteration order is observed is an association list in
      insertion order.
    - An operation that can raise returns a [Py.result]; the exception is a
      value. *)

From Stdlib Require Import ZArith QArith Qround Qminmax Lqa Lia.
From Stdlib Require Import String Ascii List Bool DecimalString.
From Stdlib Require Import Sorted Permutation.
Import ListNotations.

Open Scope string_scope.
Open Scope Q_scope.

(* ================================================================== *)
(** * Python primitives used by the modules *)
(* ================================================================== *)

Module Py.

(** Exceptions the modelled code can raise. *)
Inductive exn : Type :=
| ZeroDivisionError
| KeyError (key : string)
| AttributeError (name : string).

Inductive result (A : Type) : Type :=
| Ok (a : A)
| Raise (e : exn).
Arguments Ok {A} a.
Arguments Raise {A} e.

Definition bind {A B} (m : result A) (k : A -> result B) : result B :=
  match m with
  | Ok a => k a
  | Raise e => Raise e
  end.

Definition is_ok {A} (m : result A) : bool :=
  match m with Ok _ => true | Raise _ => false end.

(** [for x in xs: ys.append(f(x))] where [f] may raise. *)
Fixpoint mapM {A B} (f : A -> result B) (xs : list A) : result (list B) :=
  match xs with
  | [] => Ok []
  | x :: xs' =>
      bind (f x) (fun y => bind (mapM f xs') (fun ys => Ok (y :: ys)))
  end.

(** Comparisons of floats. *)
Definition ltb (a b : Q) : bool := negb (Qle_bool b a).
Definition gtb (a b : Q) : bool := ltb b a.
Definition leb (a b : Q) : bool := Qle_bool a b.
Definition geb (a b : Q) : bool := Qle_bool b a.

(** [max(a, b)] returns [b] exactly when [b > a]; [min(a, b)] returns
    [b] exactly when [b < a]. *)
Definition max (a b : Q) : Q := if gtb b a then b else a.
Definition min (a b : Q) : Q := if ltb b a then b else a.

(** [a / b] on floats. *)
Definition truediv (a b : Q) : result Q :=
  if Qeq_bool b 0 then Raise ZeroDivisionError else Ok (a / b).

(** [int(x)]: truncation towards zero. *)
Definition int (x : Q) : Z := Z.quot (Qnum x) (Zpos (Qden x)).

(** Nearest integer, ties to the even one. *)
Definition round_half_even (q : Q) : Z :=
  let f := Qfloor q in
  match Qcompare (q - inject_Z f) (1 # 2) with
  | Lt => f
  | Gt => (f + 1)%Z
  | Eq => if Z.even f then f else (f + 1)%Z
  end.

(** [round(x, ndigits)]. *)
Definition round (x : Q) (ndigits : nat) : Q :=
  let p := inject_Z (10 ^ Z.of_nat ndigits) in
  inject_Z (round_half_even (x * p)) / p.

(** [str(n)] for an [int]. *)
Definition str (n : Z) : string := NilZero.string_of_int (Z.to_int n).

(** [s.lower()], on the ASCII letters. *)
Definition lower_ascii (c : ascii) : ascii :=
  let n := nat_of_ascii c in
  if (65 <=? n)%nat && (n <=? 90)%nat then ascii_of_nat (n + 32) else c.

Fixpoint lower (s : string) : string :=
  match s with
  | EmptyString => EmptyString
  | String c s' => String (lower_ascii c) (lower s')
  end.

(** [d.get(k)] and [k in d] on a dict kept as an association list. *)
Fixpoint get {V} (d : list (string * V)) (k : string) : option V :=
  match d with
  | [] => None
  | (k', v) :: d' => if String.eqb k k' then Some v else get d' k
  end.

Definition contains {V} (d : list (string * V)) (k : string) : bool :=
  match get d k with Some _ => true | None => false end.

(** [d[k]]. *)
Definition getitem {V} (d : list (string * V)) (k : string) : result V :=
  match get d k with
  | Some v => Ok v
  | None => Raise (KeyError k)
  end.

(** [d[k] = f(d[k])] for a key already present: the position is kept. *)
Fixpoint update {V} (d : list (string * V)) (k : string) (f : V -> V)
  : list (string * V) :=
  match d with
  | [] => []
  | (k', v) :: d' =>
      if String.eqb k k' then (k', f v) :: d' else (k', v) :: update d' k f
  end.

(** [x in xs] for a list of strings. *)
Definition mem (x : string) (xs : list string) : bool :=
  existsb (String.eqb x) xs.

(** [xs.append(x)]. *)
Definition append {A} (xs : list A) (x : A) : list A := (xs ++ [x])%list.

(** [needle in hay] for two strings. *)
Fixpoint str_in (needle hay : string) : bool :=
  if String.prefix needle hay then true
  else match hay with
       | EmptyString => false
       | String _ hay' => str_in needle hay'
       end.

(** [xs[:n]] for an [int] [n]: a negative [n] counts from the end. *)
Definition slice_to {A} (xs : list A) (n : Z) : list A :=
  if (0 <=? n)%Z then firstn (Z.to_nat n) xs
  else firstn (length xs - Z.to_nat (- n)) xs.

(** [xs.sort(key=key, reverse=True)]: the sort is stable, and with
    [reverse=True] elements with equal keys keep their original order.
    The list is rebuilt from its end: an element goes in front of the
    first element whose key is at most its own, hence in front of the
    later elements with the same key. *)
Fixpoint insert_desc {A} (key : A -> Q) (x : A) (xs : list A) : list A :=
  match xs with
  | [] => [x]
  | y :: ys =>
      if gtb (key y) (key x) then y :: insert_desc key x ys
      else x :: y :: ys
  end.

Definition sort_reverse {A} (key : A -> Q) (xs : list A) : list A :=
  fold_right (insert_desc key) [] xs.

(** [hay.count(needle)]: the occurrences of [needle] in [hay] that do not
    overlap, found from the left; the empty needle occurs [len(hay) + 1]
    times.  [skip] characters are still covered by the last occurrence. *)
Fixpoint count_from (needle hay : string) (skip : nat) : nat :=
  match hay with
  | EmptyString => 0
  | String _ hay' =>
      match skip with
      | S k => count_from needle hay' k
      | O =>
          if String.prefix needle hay
          then S (count_from needle hay' (String.length needle - 1))
          else count_from needle hay' 0
      end
  end.

Definition count (hay needle : string) : Z :=
  match needle with
  | EmptyString => Z.of_nat (S (String.length hay))
  | String _ _ => Z.of_nat (count_from needle hay 0)
  end.

End Py.

Notation "x <- m ;; k" := (Py.bind m (fun x => k))
  (at level 61, m at next level, right associativity).

Declare Scope py_scope.
Delimit Scope py_scope with py.
Infix "<?" := Py.ltb (at level 70, no associativity) : py_scope.
Infix ">?" := Py.gtb (at level 70, no associativity) : py_scope.
Infix "<=?" := Py.leb (at level 70, no associativity) : py_scope.
Infix ">=?" := Py.geb (at level 70, no associativity) : py_scope.
Infix "=?" := String.eqb (at level 70, no associativity) : py_scope.
Open Scope py_scope.

(* ================================================================== *)
(** * Data shared by the two scoring engines *)
(* ================================================================== *)

(** [class InvestmentTier(Enum)], identical in both scoring files. *)
Inductive InvestmentTier : Type := TIER_1 | TIER_2 | TIER_3.

Definition InvestmentTier_value (t : InvestmentTier) : string :=
  match t with
  | TIER_1 => "Tier 1 - Premium Investment"
  | TIER_2 => "Tier 2 - Strategic Investment"
  | TIER_3 => "Tier 3 - Emerging Opportunity"
  end.

Definition InvestmentTier_name (t : InvestmentTier) : string :=
  match t with
  | TIER_1 => "TIER_1"
  | TIER_2 => "TIER_2"
  | TIER_3 => "TIER_3"
  end.

(** [class RiskLevel(Enum)], identical in both scoring files, in
    declaration order. *)
Inductive RiskLevel : Type := LOW | MEDIUM | HIGH | CRITICAL.

Definition RiskLevel_value (l : RiskLevel) : string :=
  match l with
  | LOW => "Low Risk"
  | MEDIUM => "Medium Risk"
  | HIGH => "High Risk"
  | CRITICAL => "Critical Risk"
  end.

(** [@dataclass RegionalMetrics]: the same fields in both scoring files
    (the enhanced file gives the last six a default value, which only
    matters to the constructor call). *)
Record RegionalMetrics : Type := {
  city : string;
  country : string;
  region : string;
  population : Z;
  gdp_per_capita : Q;
  infrastructure_score : Q;
  talent_availability : Q;
  cost_of_living : Q;
  tax_rate : Q;
  regulatory_ease : Q;
  market_access : Q;
  political_stability : Q;
  growth_rate : Q;
  inflation_rate : Q;
  currency_stability : Q;
  digital_infrastructure : Q;
  supply_chain_efficiency : Q;
  innovation_index : Q;
  sustainability_score : Q;
  geopolitical_risk : Q;
  market_volatility : Q
}.

(** [dataclasses.replace(r, infrastructure_score=x)]. *)
Definition with_infrastructure_score (r : RegionalMetrics) (x : Q)
  : RegionalMetrics :=
  {| city := city r; country := country r; region := region r;
     population := population r; gdp_per_capita := gdp_per_capita r;
     infrastructure_score := x;
     talent_availability := talent_availability r;
     cost_of_living := cost_of_living r; tax_rate := tax_rate r;
     regulatory_ease := regulatory_ease r; market_access := market_access r;
     political_stability := political_stability r;
     growth_rate := growth_rate r; inflation_rate := inflation_rate r;
     currency_stability := currency_stability r;
     digital_infrastructure := digital_infrastructure r;
     supply_chain_efficiency := supply_chain_efficiency r;
     innovation_index := innovation_index r;
     sustainability_score := sustainability_score r;
     geopolitical_risk := geopolitical_risk r;
     market_volatility := market_volatility r |}.

(** [dataclasses.replace(r, gdp_per_capita=x)]. *)
Definition with_gdp_per_capita (r : RegionalMetrics) (x : Q)
  : RegionalMetrics :=
  {| city := city r; country := country r; region := region r;
     population := population r; gdp_per_capita := x;
     infrastructure_score := infrastructure_score r;
     talent_availability := talent_availability r;
     cost_of_living := cost_of_living r; tax_rate := tax_rate r;
     regulatory_ease := regulatory_ease r; market_access := market_access r;
     political_stability := political_stability r;
     growth_rate := growth_rate r; inflation_rate := inflation_rate r;
     currency_stability := currency_stability r;
     digital_infrastructure := digital_infrastructure r;
     supply_chain_efficiency := supply_chain_efficiency r;
     innovation_index := innovation_index r;
     sustainability_score := sustainability_score r;
     geopolitical_risk := geopolitical_risk r;
     market_volatility := market_volatility r |}.

(** The invariant of the data model: every normalized indicator lies in
    [[0,1]]. *)
Definition unit_interval (x : Q) : Prop := 0 <= x /\ x <= 1.

Definition valid_metrics (r : RegionalMetrics) : Prop :=
  unit_interval (infrastructure_score r) /\
  unit_interval (talent_availability r) /\
  unit_interval (cost_of_living r) /\
  unit_interval (tax_rate r) /\
  unit_interval (regulatory_ease r) /\
  unit_interval (market_access r) /\
  unit_interval (political_stability r) /\
  unit_interval (growth_rate r) /\
  unit_interval (inflation_rate r) /\
  unit_interval (currency_stability r) /\
  unit_interval (digital_infrastructure r) /\
  unit_interval (supply_chain_efficiency r) /\
  unit_interval (innovation_index r) /\
  unit_interval (sustainability_score r) /\
  unit_interval (geopolitical_risk r) /\
  unit_interval (market_volatility r).

(** The fixed weight table, the same literal in both scoring files. *)
Definition weights : list (string * Q) :=
  [ ("infrastructure", 0.12);
    ("talent", 0.10);
    ("cost_efficiency", 0.15);
    ("market_access", 0.12);
    ("regulatory", 0.08);
    ("political_stability", 0.07);
    ("growth_potential", 0.10);
    ("risk_factors", 0.08);
    ("digital_readiness", 0.06);
    ("sustainability", 0.05);
    ("innovation", 0.04);
    ("supply_chain", 0.03) ].

(** [self.tier_thresholds], the same literal in both scoring files. *)
Definition tier_thresholds (t : InvestmentTier) : Q :=
  match t with
  | TIER_1 => 85.0
  | TIER_2 => 70.0
  | TIER_3 => 55.0
  end.

(** [sum(score * self.weights[component]
         for component, score in component_scores.items())]:
    [sum] starts from [0] and adds the terms in iteration order. *)
Fixpoint weighted_sum_from (acc : Q) (component_scores : list (string * Q))
  : Py.result Q :=
  match component_scores with
  | [] => Py.Ok acc
  | (component, score) :: rest =>
      w <- Py.getitem weights component ;;
      weighted_sum_from (acc + score * w) rest
  end.

Definition weighted_sum (component_scores : list (string * Q)) : Py.result Q :=
  weighted_sum_from 0 component_scores.

(** [{k: round(v, 2) for k, v in component_scores.items()}]. *)
Definition round_scores (component_scores : list (string * Q))
  : list (string * Q) :=
  map (fun kv => (fst kv, Py.round (snd kv) 2)) component_scores.

(** [_determine_investment_tier], the same body in both scoring files. *)
Definition _determine_investment_tier (composite_score : Q) : InvestmentTier :=
  if composite_score >=? tier_thresholds TIER_1 then TIER_1
  else if composite_score >=? tier_thresholds TIER_2 then TIER_2
  else TIER_3.

(* ================================================================== *)
(** * investment_algorithm.py *)
(* ================================================================== *)

Module InvestmentAlgorithm.

Inductive IndustryType : Type :=
| MANUFACTURING | TECHNOLOGY | LOGISTICS | FINANCE
| HEALTHCARE | ENERGY | RETAIL | REAL_ESTATE.

Record CompanyProfile : Type := {
  company_type : string;
  investment_size : string;
  preferred_region : string;
  industry_focus : string;
  risk_tolerance : string;
  timeline : string;
  technology_requirements : list string;
  supply_chain_needs : list string;
  sustainability_goals : list string;
  digital_transformation_needs : list string;
  market_expansion_targets : list string;
  competitive_advantages : list string
}.

(** [self.industry_multipliers]: four of the eight industries have an
    entry. *)
Definition industry_multipliers (t : IndustryType)
  : option (list (string * Q)) :=
  match t with
  | TECHNOLOGY =>
      Some [ ("talent", 1.3); ("digital_readiness", 1.4);
             ("innovation", 1.5); ("cost_efficiency", 0.9) ]
  | MANUFACTURING =>
      Some [ ("infrastructure", 1.2); ("supply_chain", 1.3);
             ("cost_efficiency", 1.1); ("talent", 0.9) ]
  | LOGISTICS =>
      Some [ ("infrastructure", 1.4); ("market_access", 1.3);
             ("supply_chain", 1.2); ("cost_efficiency", 1.1) ]
  | FINANCE =>
      Some [ ("regulatory", 1.3); ("political_stability", 1.2);
             ("talent", 1.1); ("market_access", 1.1) ]
  | HEALTHCARE | ENERGY | RETAIL | REAL_ESTATE => None
  end.

Definition industry_mapping : list (string * IndustryType) :=
  [ ("manufacturing", MANUFACTURING);
    ("tech", TECHNOLOGY);
    ("technology", TECHNOLOGY);
    ("logistics", LOGISTICS);
    ("finance", FINANCE);
    ("healthcare", HEALTHCARE);
    ("energy", ENERGY);
    ("retail", RETAIL);
    ("real_estate", REAL_ESTATE) ].

(** [industry_mapping.get(industry_focus.lower(),
                          IndustryType.MANUFACTURING)]. *)
Definition _get_industry_type (industry_focus : string) : IndustryType :=
  match Py.get industry_mapping (Py.lower industry_focus) with
  | Some t => t
  | None => MANUFACTURING
  end.

Definition _apply_industry_multiplier
    (base_score : Q) (component : string) (industry_type : IndustryType) : Q :=
  match industry_multipliers industry_type with
  | Some table =>
      match Py.get table component with
      | Some m => base_score * m
      | None => base_score
      end
  | None => base_score
  end.

Definition _calculate_infrastructure_score
    (regional_data : RegionalMetrics) (industry_type : IndustryType) : Q :=
  let base_score :=
    _apply_industry_multiplier (infrastructure_score regional_data * 100)
      "infrastructure" industry_type in
  let base_score :=
    if infrastructure_score regional_data >? 0.8 then base_score + 10
    else base_score in
  let base_score :=
    if infrastructure_score regional_data <? 0.4 then base_score - 20
    else base_score in
  Py.max 0 (Py.min 100 base_score).

Definition _calculate_talent_score
    (regional_data : RegionalMetrics) (company_profile : CompanyProfile)
    (industry_type : IndustryType) : Q :=
  let base_score :=
    _apply_industry_multiplier (talent_availability regional_data * 100)
      "talent" industry_type in
  let base_score :=
    if company_type company_profile =? "tech" then base_score * 1.2
    else if company_type company_profile =? "manufacturing"
         then base_score * 0.9
    else base_score in
  let base_score :=
    if (population regional_data >? 1000000)%Z then base_score + 5
    else if (population regional_data <? 100000)%Z then base_score - 10
    else base_score in
  Py.max 0 (Py.min 100 base_score).

Definition _calculate_cost_efficiency
    (regional_data : RegionalMetrics) (company_profile : CompanyProfile)
    (industry_type : IndustryType) : Q :=
  let cost_efficiency :=
    _apply_industry_multiplier ((1 - cost_of_living regional_data) * 100)
      "cost_efficiency" industry_type in
  let tax_efficiency :=
    _apply_industry_multiplier ((1 - tax_rate regional_data) * 100)
      "regulatory" industry_type in
  let cost_efficiency :=
    if investment_size company_profile =? "large" then cost_efficiency * 1.1
    else if investment_size company_profile =? "small"
         then cost_efficiency * 0.9
    else cost_efficiency in
  let cost_efficiency :=
    if cost_of_living regional_data <? 0.3 then cost_efficiency + 15
    else if cost_of_living regional_data >? 0.7 then cost_efficiency - 10
    else cost_efficiency in
  Py.max 0 (Py.min 100 ((cost_efficiency + tax_efficiency) / 2)).

Definition _calculate_market_access
    (regional_data : RegionalMetrics) (industry_type : IndustryType) : Q :=
  let base_score :=
    _apply_industry_multiplier (market_access regional_data * 100)
      "market_access" industry_type in
  let base_score :=
    if region regional_data =? "asia-pacific" then base_score + 10
    else if region regional_data =? "europe" then base_score + 8
    else if region regional_data =? "americas" then base_score + 6
    else base_score in
  Py.max 0 (Py.min 100 base_score).

Definition _calculate_regulatory_score
    (regional_data : RegionalMetrics) (industry_type : IndustryType) : Q :=
  let base_score :=
    _apply_industry_multiplier (regulatory_ease regional_data * 100)
      "regulatory" industry_type in
  let base_score :=
    if regulatory_ease regional_data >? 0.7 then base_score + 10
    else if regulatory_ease regional_data <? 0.3 then base_score - 15
    else base_score in
  Py.max 0 (Py.min 100 base_score).

Definition _calculate_political_stability (regional_data : RegionalMetrics)
  : Q :=
  let base_score := political_stability regional_data * 100 in
  let base_score :=
    if political_stability regional_data >? 0.8 then base_score + 10
    else if political_stability regional_data <? 0.4 then base_score - 20
    else base_score in
  Py.max 0 (Py.min 100 base_score).

Definition _calculate_growth_potential
    (regional_data : RegionalMetrics) (company_profile : CompanyProfile) : Q :=
  let growth_score := growth_rate regional_data * 100 in
  let growth_score :=
    if gdp_per_capita regional_data >? 50000 then growth_score * 0.8
    else if gdp_per_capita regional_data <? 10000 then growth_score * 1.3
    else growth_score in
  let growth_score :=
    if (population regional_data >? 5000000)%Z then growth_score + 5
    else growth_score in
  Py.max 0 (Py.min 100 growth_score).

Definition _calculate_risk_factors
    (regional_data : RegionalMetrics) (company_profile : CompanyProfile) : Q :=
  let risk_score := 100 in
  let risk_score :=
    if currency_stability regional_data <? 0.5 then risk_score - 20
    else risk_score in
  let risk_score :=
    if inflation_rate regional_data >? 0.1 then risk_score - 15
    else risk_score in
  let risk_score :=
    if political_stability regional_data <? 0.5 then risk_score - 25
    else risk_score in
  let risk_score :=
    if risk_tolerance company_profile =? "low" then risk_score * 1.2
    else if risk_tolerance company_profile =? "high" then risk_score * 0.8
    else risk_score in
  Py.max 0 (Py.min 100 risk_score).

(** The four placeholders of this file. *)
Definition _calculate_digital_readiness
    (regional_data : RegionalMetrics) (company_profile : CompanyProfile) : Q
  := 50.
Definition _calculate_sustainability_score
    (regional_data : RegionalMetrics) (company_profile : CompanyProfile) : Q
  := 50.
Definition _calculate_innovation_score
    (regional_data : RegionalMetrics) (company_profile : CompanyProfile) : Q
  := 50.
Definition _calculate_supply_chain_score
    (regional_data : RegionalMetrics) (company_profile : CompanyProfile) : Q
  := 50.

(** The [component_scores] dict literal of [calculate_investment_score]. *)
Definition component_scores
    (regional_data : RegionalMetrics) (company_profile : CompanyProfile)
  : list (string * Q) :=
  let industry_type := _get_industry_type (industry_focus company_profile) in
  [ ("infrastructure",
      _calculate_infrastructure_score regional_data industry_type);
    ("talent",
      _calculate_talent_score regional_data company_profile industry_type);
    ("cost_efficiency",
      _calculate_cost_efficiency regional_data company_profile industry_type);
    ("market_access", _calculate_market_access regional_data industry_type);
    ("regulatory", _calculate_regulatory_score regional_data industry_type);
    ("political_stability", _calculate_political_stability regional_data);
    ("growth_potential",
      _calculate_growth_potential regional_data company_profile);
    ("risk_factors", _calculate_risk_factors regional_data company_profile);
    ("digital_readiness",
      _calculate_digital_readiness regional_data company_profile);
    ("sustainability",
      _calculate_sustainability_score regional_data company_profile);
    ("innovation", _calculate_innovation_score regional_data company_profile);
    ("supply_chain",
      _calculate_supply_chain_score regional_data company_profile) ].

Definition _calculate_break_even_time
    (roi : Q) (company_profile : CompanyProfile) : string :=
  if roi >? 20 then "2-3 years"
  else if roi >? 15 then "3-4 years"
  else if roi >? 10 then "4-5 years"
  else "5+ years".

Record RoiFactors : Type := {
  regional_growth : Q;
  roi_market_access : Q;
  roi_cost_efficiency : Q
}.

(** [confidence_interval] is the f-string
    ["{round(base_roi - 3, 1)}% - {round(base_roi + 3, 1)}%"]; the model
    keeps its two numbers. *)
Record RoiProjection : Type := {
  projected_roi : Q;
  confidence_interval : Q * Q;
  time_to_break_even : string;
  roi_factors : RoiFactors
}.

Definition _calculate_roi_projection
    (composite_score : Q) (regional_data : RegionalMetrics)
    (company_profile : CompanyProfile) : RoiProjection :=
  let base_roi := 12.0 in
  let base_roi :=
    if composite_score >? 85 then base_roi + 8
    else if composite_score >? 70 then base_roi + 4
    else if composite_score <? 55 then base_roi - 6
    else base_roi in
  let base_roi := base_roi + growth_rate regional_data * 100 in
  let base_roi :=
    if investment_size company_profile =? "large" then base_roi + 2
    else if investment_size company_profile =? "small" then base_roi - 1
    else base_roi in
  let base_roi :=
    if timeline company_profile =? "long-term" then base_roi + 3
    else base_roi in
  {| projected_roi := Py.round base_roi 2;
     confidence_interval :=
       (Py.round (base_roi - 3) 1, Py.round (base_roi + 3) 1);
     time_to_break_even := _calculate_break_even_time base_roi company_profile;
     roi_factors :=
       {| regional_growth := growth_rate regional_data * 100;
          roi_market_access := market_access regional_data * 10;
          roi_cost_efficiency := (1 - cost_of_living regional_data) * 15 |}
  |}.

Record SavingsBreakdown : Type := {
  operational_savings : Q;
  tax_savings : Q;
  labor_savings : Q
}.

Record CostSavings : Type := {
  annual_savings_millions : Q;
  savings_percentage : Q;
  breakdown : SavingsBreakdown;
  five_year_savings : Q
}.

Definition _calculate_cost_savings
    (regional_data : RegionalMetrics) (company_profile : CompanyProfile)
  : CostSavings :=
  let operational_savings := (1 - cost_of_living regional_data) * 40 in
  let tax_savings := tax_rate regional_data * 25 in
  let labor_savings := (1 - talent_availability regional_data) * 30 in
  let total_savings_percent :=
    operational_savings + tax_savings + labor_savings in
  let multiplier :=
    if investment_size company_profile =? "enterprise" then 1000
    else if investment_size company_profile =? "large" then 100
    else if investment_size company_profile =? "medium" then 10
    else 1 in
  let annual_savings := total_savings_percent * multiplier in
  {| annual_savings_millions := Py.round annual_savings 1;
     savings_percentage := Py.round total_savings_percent 1;
     breakdown :=
       {| operational_savings := Py.round operational_savings 1;
          tax_savings := Py.round tax_savings 1;
          labor_savings := Py.round labor_savings 1 |};
     five_year_savings := Py.round (annual_savings * 5) 1 |}.

Fixpoint _generate_mitigation_strategies (risk_factors : list string)
  : list string :=
  match risk_factors with
  | [] => []
  | risk :: rest =>
      let tail := _generate_mitigation_strategies rest in
      if Py.str_in "currency" (Py.lower risk)
      then "Implement currency hedging strategies" :: tail
      else if Py.str_in "political" (Py.lower risk)
      then "Establish local partnerships and government relations" :: tail
      else if Py.str_in "regulatory" (Py.lower risk)
      then "Engage local legal and compliance experts" :: tail
      else if Py.str_in "market access" (Py.lower risk)
      then "Develop alternative market entry strategies" :: tail
      else if Py.str_in "inflation" (Py.lower risk)
      then "Implement cost escalation clauses in contracts" :: tail
      else tail
  end.

Definition _generate_insurance_recommendations (risk_level : RiskLevel)
  : list string :=
  match risk_level with
  | LOW => ["Standard business insurance"; "Property insurance"]
  | MEDIUM => ["Political risk insurance"; "Currency risk insurance";
               "Enhanced liability coverage"]
  | HIGH => ["Comprehensive political risk insurance";
             "War and terrorism coverage"; "Expropriation insurance"]
  | CRITICAL => ["Specialized high-risk insurance package";
                 "Government-backed insurance programs"]
  end.

(** One threshold check of [_generate_risk_assessment]: its condition,
    the factor it appends and the level it assigns. *)
Record Check : Type := {
  triggers : RegionalMetrics -> bool;
  factor : string;
  severity : RiskLevel
}.

(** The five [if] statements of [_generate_risk_assessment], in order. *)
Definition checks : list Check :=
  [ {| triggers := fun r => currency_stability r <? 0.5;
       factor := "Currency volatility risk"; severity := MEDIUM |};
    {| triggers := fun r => political_stability r <? 0.6;
       factor := "Political instability risk"; severity := HIGH |};
    {| triggers := fun r => regulatory_ease r <? 0.4;
       factor := "Regulatory complexity risk"; severity := MEDIUM |};
    {| triggers := fun r => market_access r <? 0.5;
       factor := "Limited market access risk"; severity := MEDIUM |};
    {| triggers := fun r => inflation_rate r >? 0.08;
       factor := "High inflation risk"; severity := HIGH |} ].

Record RiskAssessment : Type := {
  risk_level : string;
  risk_score : Q;
  risk_factors : list string;
  mitigation_strategies : list string;
  insurance_recommendations : list string
}.

(** The body of [_generate_risk_assessment] up to the [return]: the two
    locals [risk_factors] and [risk_level] after the five [if]s and the
    sentinel. *)
Definition risk_state (regional_data : RegionalMetrics)
  : list string * RiskLevel :=
  let risk_factors := [] in
  let risk_level := LOW in
  let '(risk_factors, risk_level) :=
    if currency_stability regional_data <? 0.5
    then (Py.append risk_factors "Currency volatility risk", MEDIUM)
    else (risk_factors, risk_level) in
  let '(risk_factors, risk_level) :=
    if political_stability regional_data <? 0.6
    then (Py.append risk_factors "Political instability risk", HIGH)
    else (risk_factors, risk_level) in
  let '(risk_factors, risk_level) :=
    if regulatory_ease regional_data <? 0.4
    then (Py.append risk_factors "Regulatory complexity risk", MEDIUM)
    else (risk_factors, risk_level) in
  let '(risk_factors, risk_level) :=
    if market_access regional_data <? 0.5
    then (Py.append risk_factors "Limited market access risk", MEDIUM)
    else (risk_factors, risk_level) in
  let '(risk_factors, risk_level) :=
    if inflation_rate regional_data >? 0.08
    then (Py.append risk_factors "High inflation risk", HIGH)
    else (risk_factors, risk_level) in
  let risk_factors :=
    match risk_factors with
    | [] => Py.append risk_factors "Minimal risk factors identified"
    | _ :: _ => risk_factors
    end in
  (risk_factors, risk_level).

Definition _generate_risk_assessment
    (regional_data : RegionalMetrics) (company_profile : CompanyProfile)
  : RiskAssessment :=
  let '(risk_factors, risk_level) := risk_state regional_data in
  {| risk_level := RiskLevel_value risk_level;
     risk_score := Py.round (political_stability regional_data * 100) 1;
     risk_factors := risk_factors;
     mitigation_strategies := _generate_mitigation_strategies risk_factors;
     insurance_recommendations :=
       _generate_insurance_recommendations risk_level |}.

Definition _calculate_confidence_level (composite_score : Q) : string :=
  if composite_score >? 85 then "Very High (95%)"
  else if composite_score >? 70 then "High (85%)"
  else if composite_score >? 55 then "Medium (75%)"
  else "Low (65%)".

(** [self.name(...)] for a name that is no attribute of the object: the
    lookup raises [AttributeError] before any argument is used. *)
Definition undefined_method {A : Type} (name : string) : Py.result A :=
  Py.Raise (Py.AttributeError name).

(** [calculate_investment_score] calls [self._generate_recommendations],
    [self._generate_market_insights] and
    [self._generate_competitive_analysis].  The class in
    [investment_algorithm.py] defines no method of these names, has no
    base class and no [__getattr__], and nothing assigns such an
    attribute: the three calls are calls of an undefined method.
    [Insights] is the type of the values of the two dicts that would be
    stored, and [now] the string that [datetime.now().isoformat()] would
    read from the clock. *)
Section Engine.

Variable Insights : Type.
Variable now : string.

Record AlgorithmResult : Type := {
  composite_score : Q;
  investment_tier : string;
  tier_level : string;
  roi_projection : RoiProjection;
  cost_savings : CostSavings;
  risk_assessment : RiskAssessment;
  result_component_scores : list (string * Q);
  confidence_level : string;
  analysis_timestamp : string;
  recommendations : list string;
  market_insights : Insights;
  competitive_analysis : Insights
}.

Definition calculate_investment_score
    (regional_data : RegionalMetrics) (company_profile : CompanyProfile)
  : Py.result AlgorithmResult :=
  let component_scores := component_scores regional_data company_profile in
  composite_score <- weighted_sum component_scores ;;
  let investment_tier := _determine_investment_tier composite_score in
  let roi_projection :=
    _calculate_roi_projection composite_score regional_data
      company_profile in
  let cost_savings := _calculate_cost_savings regional_data company_profile in
  let risk_assessment :=
    _generate_risk_assessment regional_data company_profile in
  recommendations <- undefined_method "_generate_recommendations" ;;
  market_insights <- undefined_method "_generate_market_insights" ;;
  competitive_analysis <-
    undefined_method "_generate_competitive_analysis" ;;
  Py.Ok
    {| composite_score := Py.round composite_score 2;
       investment_tier := InvestmentTier_value investment_tier;
       tier_level := InvestmentTier_name investment_tier;
       roi_projection := roi_projection;
       cost_savings := cost_savings;
       risk_assessment := risk_assessment;
       result_component_scores := round_scores component_scores;
       confidence_level := _calculate_confidence_level composite_score;
       analysis_timestamp := now;
       recommendations := recommendations;
       market_insights := market_insights;
       competitive_analysis := competitive_analysis |}.

End Engine.

Arguments composite_score {Insights} _.
Arguments investment_tier {Insights} _.
Arguments tier_level {Insights} _.
Arguments roi_projection {Insights} _.
Arguments cost_savings {Insights} _.
Arguments risk_assessment {Insights} _.
Arguments result_component_scores {Insights} _.
Arguments confidence_level {Insights} _.
Arguments analysis_timestamp {Insights} _.
Arguments recommendations {Insights} _.
Arguments market_insights {Insights} _.
Arguments competitive_analysis {Insights} _.

End InvestmentAlgorithm.

(* ================================================================== *)
(** * enhanced_investment_algorithm.py *)
(* ================================================================== *)

Module EnhancedInvestmentAlgorithm.

(** The last three fields default to [None]. *)
Record CompanyProfile : Type := {
  company_type : string;
  investment_size : string;
  preferred_region : string;
  industry_focus : string;
  risk_tolerance : string;
  timeline : string;
  technology_requirements : list string;
  supply_chain_needs : list string;
  sustainability_goals : option (list string);
  digital_transformation_needs : option (list string);
  market_expansion_targets : option (list string)
}.

(** [self.industry_multipliers], keyed by the lower-cased industry. *)
Definition industry_multipliers : list (string * list (string * Q)) :=
  [ ("technology",
      [ ("talent", 1.3); ("digital_readiness", 1.4);
        ("innovation", 1.5); ("cost_efficiency", 0.9) ]);
    ("manufacturing",
      [ ("infrastructure", 1.2); ("supply_chain", 1.3);
        ("cost_efficiency", 1.1); ("talent", 0.9) ]);
    ("logistics",
      [ ("infrastructure", 1.4); ("market_access", 1.3);
        ("supply_chain", 1.2); ("cost_efficiency", 1.1) ]);
    ("finance",
      [ ("regulatory", 1.3); ("political_stability", 1.2);
        ("talent", 1.1); ("market_access", 1.1) ]) ].

Definition _calculate_infrastructure_score (regional_data : RegionalMetrics)
  : Q :=
  let base_score := infrastructure_score regional_data * 100 in
  let base_score :=
    if infrastructure_score regional_data >? 0.8 then base_score + 10
    else base_score in
  let base_score :=
    if infrastructure_score regional_data <? 0.4 then base_score - 20
    else base_score in
  Py.max 0 (Py.min 100 base_score).

Definition _calculate_talent_score
    (regional_data : RegionalMetrics) (company_profile : CompanyProfile) : Q :=
  let base_score := talent_availability regional_data * 100 in
  let base_score :=
    if company_type company_profile =? "tech" then base_score * 1.2
    else if company_type company_profile =? "manufacturing"
         then base_score * 0.9
    else base_score in
  let base_score :=
    if (population regional_data >? 1000000)%Z then base_score + 5
    else if (population regional_data <? 100000)%Z then base_score - 10
    else base_score in
  Py.max 0 (Py.min 100 base_score).

Definition _calculate_cost_efficiency
    (regional_data : RegionalMetrics) (company_profile : CompanyProfile) : Q :=
  let cost_efficiency := (1 - cost_of_living regional_data) * 100 in
  let tax_efficiency := (1 - tax_rate regional_data) * 100 in
  let cost_efficiency :=
    if investment_size company_profile =? "large" then cost_efficiency * 1.1
    else if investment_size company_profile =? "small"
         then cost_efficiency * 0.9
    else cost_efficiency in
  let cost_efficiency :=
    if cost_of_living regional_data <? 0.3 then cost_efficiency + 15
    else if cost_of_living regional_data >? 0.8 then cost_efficiency - 20
    else cost_efficiency in
  Py.max 0 (Py.min 100 ((cost_efficiency + tax_efficiency) / 2)).

Definition _calculate_market_access (regional_data : RegionalMetrics) : Q :=
  let base_score := market_access regional_data * 100 in
  let base_score :=
    if (population regional_data >? 5000000)%Z then base_score + 15
    else if (population regional_data >? 1000000)%Z then base_score + 10
    else base_score in
  Py.max 0 (Py.min 100 base_score).

Definition _calculate_regulatory_score (regional_data : RegionalMetrics) : Q :=
  let base_score := regulatory_ease regional_data * 100 in
  let base_score :=
    if tax_rate regional_data <? 0.2 then base_score + 10
    else if tax_rate regional_data >? 0.4 then base_score - 15
    else base_score in
  Py.max 0 (Py.min 100 base_score).

Definition _calculate_political_stability (regional_data : RegionalMetrics)
  : Q :=
  let base_score := political_stability regional_data * 100 in
  let base_score :=
    if geopolitical_risk regional_data <? 0.2 then base_score + 10
    else if geopolitical_risk regional_data >? 0.6 then base_score - 20
    else base_score in
  Py.max 0 (Py.min 100 base_score).

Definition _calculate_growth_potential
    (regional_data : RegionalMetrics) (company_profile : CompanyProfile) : Q :=
  let base_score := growth_rate regional_data * 100 in
  let base_score :=
    if gdp_per_capita regional_data >? 50000 then base_score * 1.1
    else if gdp_per_capita regional_data <? 10000 then base_score * 0.9
    else base_score in
  let base_score :=
    if Py.mem (industry_focus company_profile) ["technology"; "healthcare"]
    then base_score * 1.2
    else base_score in
  Py.max 0 (Py.min 100 base_score).

Definition _calculate_risk_factors
    (regional_data : RegionalMetrics) (company_profile : CompanyProfile) : Q :=
  let risk_score := 100 in
  let risk_score :=
    if inflation_rate regional_data >? 0.1 then risk_score - 20
    else if inflation_rate regional_data <? 0.02 then risk_score + 10
    else risk_score in
  let risk_score :=
    if currency_stability regional_data <? 0.5 then risk_score - 15
    else risk_score in
  let risk_score :=
    if market_volatility regional_data >? 0.7 then risk_score - 10
    else risk_score in
  let risk_score :=
    if risk_tolerance company_profile =? "low" then risk_score * 1.1
    else if risk_tolerance company_profile =? "high" then risk_score * 0.9
    else risk_score in
  Py.max 0 (Py.min 100 risk_score).

Definition _calculate_digital_readiness
    (regional_data : RegionalMetrics) (company_profile : CompanyProfile) : Q :=
  let base_score := digital_infrastructure regional_data * 100 in
  let base_score :=
    if company_type company_profile =? "tech" then base_score * 1.3
    else base_score in
  Py.max 0 (Py.min 100 base_score).

(** [if company_profile.sustainability_goals:] holds for a non-empty
    list; [None] and [[]] are false. *)
Definition truthy (goals : option (list string)) : bool :=
  match goals with
  | Some (_ :: _) => true
  | Some [] | None => false
  end.

Definition _calculate_sustainability_score
    (regional_data : RegionalMetrics) (company_profile : CompanyProfile) : Q :=
  let base_score := sustainability_score regional_data * 100 in
  let base_score :=
    if truthy (sustainability_goals company_profile) then base_score + 10
    else base_score in
  Py.max 0 (Py.min 100 base_score).

Definition _calculate_innovation_score
    (regional_data : RegionalMetrics) (company_profile : CompanyProfile) : Q :=
  let base_score := innovation_index regional_data * 100 in
  let base_score :=
    if industry_focus company_profile =? "technology" then base_score * 1.4
    else base_score in
  Py.max 0 (Py.min 100 base_score).

Definition _calculate_supply_chain_score
    (regional_data : RegionalMetrics) (company_profile : CompanyProfile) : Q :=
  let base_score := supply_chain_efficiency regional_data * 100 in
  let base_score :=
    if industry_focus company_profile =? "manufacturing"
    then base_score * 1.2
    else base_score in
  Py.max 0 (Py.min 100 base_score).

(** The [component_scores] dict literal of [calculate_investment_score],
    before the industry adjustment. *)
Definition base_component_scores
    (regional_data : RegionalMetrics) (company_profile : CompanyProfile)
  : list (string * Q) :=
  [ ("infrastructure", _calculate_infrastructure_score regional_data);
    ("talent", _calculate_talent_score regional_data company_profile);
    ("cost_efficiency",
      _calculate_cost_efficiency regional_data company_profile);
    ("market_access", _calculate_market_access regional_data);
    ("regulatory", _calculate_regulatory_score regional_data);
    ("political_stability", _calculate_political_stability regional_data);
    ("growth_potential",
      _calculate_growth_potential regional_data company_profile);
    ("risk_factors", _calculate_risk_factors regional_data company_profile);
    ("digital_readiness",
      _calculate_digital_readiness regional_data company_profile);
    ("sustainability",
      _calculate_sustainability_score regional_data company_profile);
    ("innovation", _calculate_innovation_score regional_data company_profile);
    ("supply_chain",
      _calculate_supply_chain_score regional_data company_profile) ].

(** [for component, multiplier in table.items():
       if component in component_scores:
           component_scores[component] *= multiplier]. *)
Definition apply_multipliers
    (table : list (string * Q)) (component_scores : list (string * Q))
  : list (string * Q) :=
  fold_left
    (fun scores cm =>
       if Py.contains scores (fst cm)
       then Py.update scores (fst cm) (fun v => v * snd cm)
       else scores)
    table component_scores.

(** The "Apply industry-specific adjustments" block. *)
Definition apply_industry_adjustments
    (company_profile : CompanyProfile) (component_scores : list (string * Q))
  : list (string * Q) :=
  let industry_type := Py.lower (industry_focus company_profile) in
  match Py.get industry_multipliers industry_type with
  | Some table => apply_multipliers table component_scores
  | None => component_scores
  end.

Definition component_scores
    (regional_data : RegionalMetrics) (company_profile : CompanyProfile)
  : list (string * Q) :=
  apply_industry_adjustments company_profile
    (base_component_scores regional_data company_profile).

Definition _calculate_confidence_level (composite_score : Q) : string :=
  if composite_score >=? 90 then "Very High (95%)"
  else if composite_score >=? 80 then "High (85%)"
  else if composite_score >=? 70 then "Medium (75%)"
  else if composite_score >=? 60 then "Moderate (65%)"
  else "Low (55%)".

(** [months = int(12 / (roi / 100))], reached only when [roi > 0]. *)
Definition _calculate_break_even_time
    (roi : Q) (company_profile : CompanyProfile) : Py.result string :=
  if roi <=? 0 then Py.Ok "N/A"
  else
    q <- Py.truediv 12 (roi / 100) ;;
    let months := Py.int q in
    Py.Ok (Py.str months ++ " months").

Record RoiProjection : Type := {
  projected_roi : Q;
  roi_confidence_level : string;
  time_horizon : string;
  break_even_months : string;
  risk_adjusted_roi : Q
}.

(** The local [adjusted_roi] of [_calculate_roi_projection]. *)
Definition adjusted_roi
    (composite_score : Q) (company_profile : CompanyProfile) : Q :=
  let base_roi := 8.0 in
  let score_multiplier := composite_score / 100 in
  let adjusted_roi := base_roi * score_multiplier * 1.5 in
  let adjusted_roi :=
    if industry_focus company_profile =? "technology"
    then adjusted_roi * 1.3
    else if industry_focus company_profile =? "manufacturing"
    then adjusted_roi * 1.1
    else adjusted_roi in
  if investment_size company_profile =? "large" then adjusted_roi * 1.2
  else if investment_size company_profile =? "small" then adjusted_roi * 0.9
  else adjusted_roi.

Definition _calculate_roi_projection
    (composite_score : Q) (regional_data : RegionalMetrics)
    (company_profile : CompanyProfile) : Py.result RoiProjection :=
  let adjusted_roi := adjusted_roi composite_score company_profile in
  break_even <- _calculate_break_even_time adjusted_roi company_profile ;;
  Py.Ok
    {| projected_roi := Py.round adjusted_roi 2;
       roi_confidence_level := _calculate_confidence_level composite_score;
       time_horizon := "5 years";
       break_even_months := break_even;
       risk_adjusted_roi := Py.round (adjusted_roi * 0.8) 2 |}.

Record CostSavings : Type := {
  annual_savings : Q;
  cost_efficiency_score : Q;
  tax_advantage : Q;
  operational_efficiency : Q
}.

Definition size_multipliers : list (string * Q) :=
  [ ("small", 0.5); ("medium", 1.0); ("large", 2.0); ("enterprise", 5.0) ].

Definition _calculate_cost_savings
    (regional_data : RegionalMetrics) (company_profile : CompanyProfile)
  : CostSavings :=
  let base_savings := 1000000 in
  let cost_savings_multiplier := (1 - cost_of_living regional_data) * 2 in
  let tax_savings_multiplier := (1 - tax_rate regional_data) * 1.5 in
  let size_multiplier :=
    match Py.get size_multipliers (investment_size company_profile) with
    | Some m => m
    | None => 1.0
    end in
  let total_savings :=
    base_savings * cost_savings_multiplier * tax_savings_multiplier
    * size_multiplier in
  {| annual_savings := Py.round total_savings 0;
     cost_efficiency_score :=
       Py.round ((1 - cost_of_living regional_data) * 100) 1;
     tax_advantage := Py.round ((1 - tax_rate regional_data) * 100) 1;
     operational_efficiency :=
       Py.round (infrastructure_score regional_data * 100) 1 |}.

(** One threshold check of [_generate_risk_assessment]. *)
Record Check : Type := {
  triggers : RegionalMetrics -> bool;
  factor : string;
  severity : RiskLevel
}.

(** The four [if] statements of [_generate_risk_assessment], in order. *)
Definition checks : list Check :=
  [ {| triggers := fun r => inflation_rate r >? 0.1;
       factor := "High inflation rate"; severity := MEDIUM |};
    {| triggers := fun r => currency_stability r <? 0.5;
       factor := "Currency volatility"; severity := HIGH |};
    {| triggers := fun r => political_stability r <? 0.6;
       factor := "Political instability"; severity := HIGH |};
    {| triggers := fun r => geopolitical_risk r >? 0.6;
       factor := "Geopolitical risks"; severity := CRITICAL |} ].

(** The locals [risk_factors] and [risk_level] of
    [_generate_risk_assessment] at its [return]. *)
Definition risk_state (regional_data : RegionalMetrics)
  : list string * RiskLevel :=
  let risk_factors := [] in
  let risk_level := LOW in
  let '(risk_factors, risk_level) :=
    if inflation_rate regional_data >? 0.1
    then (Py.append risk_factors "High inflation rate", MEDIUM)
    else (risk_factors, risk_level) in
  let '(risk_factors, risk_level) :=
    if currency_stability regional_data <? 0.5
    then (Py.append risk_factors "Currency volatility", HIGH)
    else (risk_factors, risk_level) in
  let '(risk_factors, risk_level) :=
    if political_stability regional_data <? 0.6
    then (Py.append risk_factors "Political instability", HIGH)
    else (risk_factors, risk_level) in
  let '(risk_factors, risk_level) :=
    if geopolitical_risk regional_data >? 0.6
    then (Py.append risk_factors "Geopolitical risks", CRITICAL)
    else (risk_factors, risk_level) in
  let risk_factors :=
    match risk_factors with
    | [] => Py.append risk_factors "Low risk environment"
    | _ :: _ => risk_factors
    end in
  (risk_factors, risk_level).

Fixpoint _generate_mitigation_strategies (risk_factors : list string)
  : list string :=
  match risk_factors with
  | [] => []
  | factor :: rest =>
      let tail := _generate_mitigation_strategies rest in
      if Py.str_in "inflation" (Py.lower factor)
      then "Implement inflation-linked contracts" :: tail
      else if Py.str_in "currency" (Py.lower factor)
      then "Use currency hedging strategies" :: tail
      else if Py.str_in "political" (Py.lower factor)
      then "Diversify across multiple regions" :: tail
      else if Py.str_in "geopolitical" (Py.lower factor)
      then "Establish local partnerships" :: tail
      else tail
  end.

Definition _generate_insurance_recommendations (risk_level : RiskLevel)
  : list string :=
  match risk_level with
  | LOW => ["Standard business insurance"; "Property insurance"]
  | MEDIUM => ["Enhanced business insurance"; "Political risk insurance";
               "Currency insurance"]
  | HIGH => ["Comprehensive risk insurance"; "Political risk insurance";
             "Currency insurance"; "Supply chain insurance"]
  | CRITICAL => ["Full risk coverage"; "Political risk insurance";
                 "Currency insurance"; "Supply chain insurance";
                 "Force majeure coverage"]
  end.

Record RiskAssessment : Type := {
  risk_level : string;
  risk_factors : list string;
  mitigation_strategies : list string;
  insurance_recommendations : list string
}.

Definition _generate_risk_assessment
    (regional_data : RegionalMetrics) (company_profile : CompanyProfile)
  : RiskAssessment :=
  let '(risk_factors, risk_level) := risk_state regional_data in
  {| risk_level := RiskLevel_value risk_level;
     risk_factors := risk_factors;
     mitigation_strategies := _generate_mitigation_strategies risk_factors;
     insurance_recommendations :=
       _generate_insurance_recommendations risk_level |}.

Definition _generate_recommendations
    (component_scores : list (string * Q)) (company_profile : CompanyProfile)
  : Py.result (list string) :=
  let recommendations := [] in
  infrastructure <- Py.getitem component_scores "infrastructure" ;;
  let recommendations :=
    if infrastructure <? 70
    then Py.append recommendations
           "Consider infrastructure development partnerships"
    else recommendations in
  talent <- Py.getitem component_scores "talent" ;;
  let recommendations :=
    if talent <? 70
    then Py.append recommendations "Implement talent development programs"
    else recommendations in
  cost_efficiency <- Py.getitem component_scores "cost_efficiency" ;;
  let recommendations :=
    if cost_efficiency >? 80
    then Py.append recommendations
           "Leverage cost advantages for competitive pricing"
    else recommendations in
  digital_readiness <- Py.getitem component_scores "digital_readiness" ;;
  let recommendations :=
    if digital_readiness <? 60
    then Py.append recommendations
           "Invest in digital infrastructure development"
    else recommendations in
  sustainability <- Py.getitem component_scores "sustainability" ;;
  let recommendations :=
    if sustainability <? 60
    then Py.append recommendations "Develop sustainability initiatives"
    else recommendations in
  Py.Ok recommendations.

(** [_generate_market_insights] formats its numbers into f-strings; the
    model keeps the numbers and the two fixed or chosen strings. *)
Record MarketInsights : Type := {
  market_size : Z;
  growth_trend : Q;
  competitive_landscape : string;
  market_maturity : string;
  key_advantages : Q * Q * Q
}.

Definition _generate_market_insights
    (regional_data : RegionalMetrics) (company_profile : CompanyProfile)
  : MarketInsights :=
  {| market_size := population regional_data;
     growth_trend := growth_rate regional_data * 100;
     competitive_landscape := "Moderate competition";
     market_maturity :=
       if gdp_per_capita regional_data <? 20000 then "Developing market"
       else "Mature market";
     key_advantages :=
       ((1 - cost_of_living regional_data) * 100,
        talent_availability regional_data * 100,
        infrastructure_score regional_data * 100) |}.

Record AlgorithmResult : Type := {
  composite_score : Q;
  investment_tier : string;
  tier_level : string;
  roi_projection : RoiProjection;
  cost_savings : CostSavings;
  risk_assessment : RiskAssessment;
  result_component_scores : list (string * Q);
  confidence_level : string;
  analysis_timestamp : string;
  recommendations : list string;
  market_insights : MarketInsights
}.

(** [now] is the string [datetime.now().isoformat()] reads from the
    clock. *)
Definition calculate_investment_score
    (now : string)
    (regional_data : RegionalMetrics) (company_profile : CompanyProfile)
  : Py.result AlgorithmResult :=
  let component_scores := component_scores regional_data company_profile in
  composite_score <- weighted_sum component_scores ;;
  let investment_tier := _determine_investment_tier composite_score in
  roi_projection <-
    _calculate_roi_projection composite_score regional_data company_profile ;;
  let cost_savings := _calculate_cost_savings regional_data company_profile in
  let risk_assessment :=
    _generate_risk_assessment regional_data company_profile in
  recommendations <-
    _generate_recommendations component_scores company_profile ;;
  let market_insights :=
    _generate_market_insights regional_data company_profile in
  Py.Ok
    {| composite_score := Py.round composite_score 2;
       investment_tier := InvestmentTier_value investment_tier;
       tier_level := InvestmentTier_name investment_tier;
       roi_projection := roi_projection;
       cost_savings := cost_savings;
       risk_assessment := risk_assessment;
       result_component_scores := round_scores component_scores;
       confidence_level := _calculate_confidence_level composite_score;
       analysis_timestamp := now;
       recommendations := recommendations;
       market_insights := market_insights |}.

(** [create_sample_data()]. *)
Definition sample_regional_data : RegionalMetrics :=
  {| city := "Austin"; country := "USA"; region := "Texas";
     population := 950000; gdp_per_capita := 65000;
     infrastructure_score := 0.85; talent_availability := 0.80;
     cost_of_living := 0.65; tax_rate := 0.25; regulatory_ease := 0.75;
     market_access := 0.80; political_stability := 0.85;
     growth_rate := 0.08; inflation_rate := 0.03;
     currency_stability := 0.95; digital_infrastructure := 0.90;
     supply_chain_efficiency := 0.75; innovation_index := 0.85;
     sustainability_score := 0.70; geopolitical_risk := 0.20;
     market_volatility := 0.35 |}.

Definition sample_company_profile : CompanyProfile :=
  {| company_type := "tech"; investment_size := "large";
     preferred_region := "North America"; industry_focus := "technology";
     risk_tolerance := "medium"; timeline := "3-5 years";
     technology_requirements :=
       ["AI/ML"; "Cloud Infrastructure"; "Cybersecurity"];
     supply_chain_needs := ["Semiconductor suppliers"; "Cloud services"];
     sustainability_goals := Some ["Carbon neutral"; "Renewable energy"];
     digital_transformation_needs := Some ["Automation"; "Data analytics"];
     market_expansion_targets := Some ["Enterprise"; "SMB"] |}.

End EnhancedInvestmentAlgorithm.

(* ================================================================== *)
(** * revolutionary_system.py *)
(* ================================================================== *)

Module RevolutionarySystem.

Inductive EntityType : Type := GOVERNMENT | COMPANY | INVESTOR.

Inductive DevelopmentTier : Type := EMERGING | GROWING | ESTABLISHED | PREMIUM.

Definition DevelopmentTier_value (t : DevelopmentTier) : string :=
  match t with
  | EMERGING => "Emerging"
  | GROWING => "Growing"
  | ESTABLISHED => "Established"
  | PREMIUM => "Premium"
  end.

(** A value of [self.regions]: a dict with these six keys. *)
Record Region : Type := {
  name : string;
  tier : DevelopmentTier;
  population : Z;
  growth_rate : Q;
  projects : list string;
  region_match_score : Q
}.

(** A value of [self.entities]: a dict with these four keys. *)
Record Entity : Type := {
  entity_name : string;
  type : EntityType;
  capabilities : list string;
  interests : list string
}.

(** The object state: two dicts, in insertion order. *)
Record System : Type := {
  regions : list (string * Region);
  entities : list (string * Entity)
}.

(** [__init__]. *)
Definition init : System :=
  {| regions :=
       [ ("TX-AUS",
           {| name := "Austin Metro"; tier := PREMIUM;
              population := 2500000; growth_rate := 8.5;
              projects := ["Technology"; "Smart City"; "Education"];
              region_match_score := 0.0 |});
         ("NC-RAL",
           {| name := "Raleigh-Durham"; tier := ESTABLISHED;
              population := 1800000; growth_rate := 7.2;
              projects := ["Technology"; "Healthcare"; "Education"];
              region_match_score := 0.0 |});
         ("TN-NAS",
           {| name := "Nashville Metro"; tier := GROWING;
              population := 2100000; growth_rate := 6.8;
              projects := ["Manufacturing"; "Logistics"; "Healthcare"];
              region_match_score := 0.0 |}) ];
     entities :=
       [ ("GOV-TX",
           {| entity_name := "Texas Economic Development";
              type := GOVERNMENT;
              capabilities := ["Tax Incentives"; "Infrastructure"];
              interests := ["Technology"; "Manufacturing"] |});
         ("COMP-TECH",
           {| entity_name := "InnovateTech Solutions";
              type := COMPANY;
              capabilities := ["AI Development"; "Automation"];
              interests := ["Technology"; "Smart City"] |});
         ("INV-GROWTH",
           {| entity_name := "Regional Growth Capital";
              type := INVESTOR;
              capabilities := ["Project Financing"; "Strategic Planning"];
              interests := ["Infrastructure"; "Renewable Energy"] |}) ] |}.

(** [len(set(xs) & set(ys))]: the number of distinct strings in both. *)
Definition common_count (xs ys : list string) : Z :=
  Z.of_nat
    (length (nodup string_dec (filter (fun x => Py.mem x ys) xs))).

Definition tier_multiplier (t : DevelopmentTier) : Q :=
  match t with
  | PREMIUM => 1.2
  | ESTABLISHED => 1.0
  | GROWING => 0.9
  | EMERGING => 0.8
  end.

(** [self.entities.get(entity_id, {})] and [self.regions.get(region_id,
    {})] are falsy exactly when the id is absent: a registered dict has
    keys. *)
Definition calculate_match (self : System) (entity_id region_id : string)
  : Q :=
  match Py.get (entities self) entity_id, Py.get (regions self) region_id with
  | Some entity, Some region =>
      let common_interests :=
        common_count (interests entity) (projects region) in
      let base_score :=
        inject_Z common_interests
        / inject_Z (Z.max (Z.of_nat (length (interests entity))) 1) in
      let growth_bonus := growth_rate region / 10 in
      let tier_multiplier := tier_multiplier (tier region) in
      let final_score := (base_score + growth_bonus) * tier_multiplier in
      Py.min 1.0 final_score
  | _, _ => 0.0
  end.

Record Match : Type := {
  region_id : string;
  region_name : string;
  match_score : Q;
  match_tier : string;
  match_projects : list string;
  roi_projection : Q;
  risk_level : string
}.

(** The [for] loop of [find_matches] over the regions that remain. *)
Fixpoint collect_matches
    (self : System) (entity_id : string) (rest : list (string * Region))
  : list Match :=
  match rest with
  | [] => []
  | (region_id, region) :: rest' =>
      let score := calculate_match self entity_id region_id in
      if score >? 0.3
      then {| region_id := region_id;
              region_name := name region;
              match_score := Py.round score 3;
              match_tier := DevelopmentTier_value (tier region);
              match_projects := projects region;
              roi_projection := Py.round (score * 25) 1;
              risk_level :=
                if score >? 0.7 then "Low"
                else if score >? 0.5 then "Medium" else "High" |}
           :: collect_matches self entity_id rest'
      else collect_matches self entity_id rest'
  end.

(** [limit] defaults to [3]. *)
Definition find_matches (self : System) (entity_id : string) (limit : Z)
  : list Match :=
  let matches := collect_matches self entity_id (regions self) in
  let matches := Py.sort_reverse match_score matches in
  Py.slice_to matches limit.

End RevolutionarySystem.

(* ================================================================== *)
(** * revolutionary_regional_system.py *)
(* ================================================================== *)

Module RevolutionaryRegionalSystem.

Inductive EntityType : Type := GOVERNMENT | COMPANY | INVESTOR | NONPROFIT.

Inductive DevelopmentTier : Type := EMERGING | GROWING | ESTABLISHED | PREMIUM.

Definition DevelopmentTier_value (t : DevelopmentTier) : string :=
  match t with
  | EMERGING => "Emerging Region"
  | GROWING => "Growing Region"
  | ESTABLISHED => "Established Region"
  | PREMIUM => "Premium Region"
  end.

Inductive ProjectType : Type :=
| INFRASTRUCTURE | TECHNOLOGY | MANUFACTURING | LOGISTICS
| HEALTHCARE | EDUCATION | RENEWABLE_ENERGY | SMART_CITY.

Definition ProjectType_value (p : ProjectType) : string :=
  match p with
  | INFRASTRUCTURE => "Infrastructure Development"
  | TECHNOLOGY => "Technology Hub"
  | MANUFACTURING => "Manufacturing Center"
  | LOGISTICS => "Logistics Hub"
  | HEALTHCARE => "Healthcare Facility"
  | EDUCATION => "Education Center"
  | RENEWABLE_ENERGY => "Renewable Energy"
  | SMART_CITY => "Smart City Initiative"
  end.

Definition ProjectType_eq_dec (p q : ProjectType) : {p = q} + {p <> q}.
Proof. decide equality. Defined.

Definition ProjectType_eqb (p q : ProjectType) : bool :=
  if ProjectType_eq_dec p q then true else false.

Record RegionalProfile : Type := {
  region_id : string;
  name : string;
  state : string;
  country : string;
  population : Z;
  gdp_per_capita : Q;
  unemployment_rate : Q;
  growth_rate : Q;
  infrastructure_score : Q;
  talent_availability : Q;
  cost_of_living : Q;
  tax_incentives : Q;
  regulatory_ease : Q;
  market_access : Q;
  political_stability : Q;
  development_tier : DevelopmentTier;
  project_opportunities : list ProjectType;
  current_projects : list string;
  partner_matches : list string;
  last_updated : string
}.

Record EntityProfile : Type := {
  entity_id : string;
  entity_name : string;
  entity_type : EntityType;
  description : string;
  capabilities : list string;
  investment_capacity : Q;
  preferred_regions : list string;
  project_interests : list ProjectType;
  success_history : list string;
  contact_info : list (string * string);
  matching_score : Q;
  entity_last_updated : string
}.

(** The object state read by the matching functions. *)
Record System : Type := {
  regions : list (string * RegionalProfile);
  entities : list (string * EntityProfile)
}.

(** The local [score] of [calculate_development_tier]. *)
Definition development_score (region : RegionalProfile) : Q :=
  growth_rate region * 0.25 +
  infrastructure_score region * 0.20 +
  talent_availability region * 0.15 +
  gdp_per_capita region / 100000 * 0.15 +
  political_stability region * 0.15 +
  (1 - unemployment_rate region / 10) * 0.10.

Definition calculate_development_tier (region : RegionalProfile)
  : DevelopmentTier :=
  let score := development_score region in
  if score >=? 0.85 then PREMIUM
  else if score >=? 0.70 then ESTABLISHED
  else if score >=? 0.55 then GROWING
  else EMERGING.

(** [set(entity.project_interests) & set(region.project_opportunities)],
    listed in the order of the entity's interests (Python leaves the
    iteration order of a set open). *)
Definition common_projects (entity : EntityProfile) (region : RegionalProfile)
  : list ProjectType :=
  nodup ProjectType_eq_dec
    (filter (fun p => existsb (ProjectType_eqb p) (project_opportunities region))
       (project_interests entity)).

(** The local [match_score] of [calculate_match_score] before
    [round(match_score, 3)]. *)
Definition raw_match_score (entity : EntityProfile) (region : RegionalProfile)
  : Q :=
  let region_preference :=
    if Py.mem (region_id region) (preferred_regions entity) then 1.0
    else 0.5 in
  let project_alignment :=
    inject_Z (Z.of_nat (length (common_projects entity region)))
    / inject_Z (Z.max (Z.of_nat (length (project_interests entity))) 1) in
  let economic_compatibility :=
    (growth_rate region / 10) * 0.3 +
    infrastructure_score region * 0.25 +
    talent_availability region * 0.25 +
    (1 - cost_of_living region) * 0.2 in
  let risk_score :=
    political_stability region * 0.4 +
    regulatory_ease region * 0.3 +
    (1 - unemployment_rate region / 10) * 0.3 in
  region_preference * 0.25 +
  project_alignment * 0.30 +
  economic_compatibility * 0.25 +
  risk_score * 0.20.

Definition calculate_match_score
    (entity : EntityProfile) (region : RegionalProfile) : Q :=
  Py.round (raw_match_score entity region) 3.

Record MatchRisk : Type := {
  overall_risk : string;
  political_risk : string;
  economic_risk : string;
  infrastructure_risk : string;
  mitigation_strategies : list string
}.

Record MatchRoi : Type := {
  projected_roi : Q;
  time_horizon : string;
  break_even_months : Z;
  roi_confidence_level : string
}.

Record MatchResult : Type := {
  match_id : string;
  result_entity_id : string;
  result_region_id : string;
  match_score : Q;
  compatibility_factors : list string;
  project_recommendations : list string;
  risk_assessment : MatchRisk;
  roi_projection : MatchRoi;
  timeline : string;
  next_steps : list string;
  created_at : string
}.

Fixpoint recommend_projects (common : list ProjectType) : list string :=
  match common with
  | [] => []
  | project :: rest =>
      let tail := recommend_projects rest in
      match project with
      | TECHNOLOGY => "Establish technology innovation hub" :: tail
      | MANUFACTURING => "Develop advanced manufacturing facility" :: tail
      | INFRASTRUCTURE =>
          "Invest in critical infrastructure projects" :: tail
      | SMART_CITY => "Implement smart city technologies" :: tail
      | _ => tail
      end
  end.

(** [stamp] is [datetime.now().strftime('%Y%m%d%H%M%S')] and [now] is
    [datetime.now().isoformat()]. *)
Definition generate_match_recommendations
    (stamp now : string) (entity : EntityProfile) (region : RegionalProfile)
  : Py.result MatchResult :=
  let match_score := calculate_match_score entity region in
  let compatibility_factors := [] in
  let compatibility_factors :=
    if Py.mem (region_id region) (preferred_regions entity)
    then Py.append compatibility_factors "Region in preferred locations"
    else compatibility_factors in
  let common_projects := common_projects entity region in
  let compatibility_factors :=
    match common_projects with
    | _ :: _ =>
        Py.append compatibility_factors
          ("Shared project interests: "
           ++ String.concat ", " (map ProjectType_value common_projects))
    | [] => compatibility_factors
    end in
  let compatibility_factors :=
    if growth_rate region >? 5
    then Py.append compatibility_factors "High growth potential"
    else compatibility_factors in
  let compatibility_factors :=
    if infrastructure_score region >? 0.8
    then Py.append compatibility_factors "Strong infrastructure"
    else compatibility_factors in
  let project_recommendations := recommend_projects common_projects in
  let risk_assessment :=
    {| overall_risk :=
         if match_score >? 0.7 then "Low"
         else if match_score >? 0.5 then "Medium" else "High";
       political_risk :=
         if political_stability region >? 0.8 then "Low" else "Medium";
       economic_risk := if growth_rate region >? 5 then "Low" else "Medium";
       infrastructure_risk :=
         if infrastructure_score region >? 0.8 then "Low" else "Medium";
       mitigation_strategies :=
         [ "Establish local partnerships";
           "Conduct thorough due diligence";
           "Develop contingency plans" ] |} in
  let base_roi := match_score * 25 in
  q <- Py.truediv 24 (base_roi / 100) ;;
  let roi_projection :=
    {| projected_roi := Py.round base_roi 1;
       time_horizon := "3-5 years";
       break_even_months := Py.int q;
       roi_confidence_level :=
         if match_score >? 0.7 then "High" else "Medium" |} in
  let timeline :=
    "6-12 months for initial setup, 2-3 years for full implementation" in
  let next_steps :=
    [ "Schedule initial meeting with regional representatives";
      "Conduct site visit and feasibility study";
      "Develop detailed project proposal";
      "Negotiate terms and incentives";
      "Begin implementation planning" ] in
  let match_id :=
    "MATCH-" ++ entity_id entity ++ "-" ++ region_id region ++ "-" ++ stamp in
  Py.Ok
    {| match_id := match_id;
       result_entity_id := entity_id entity;
       result_region_id := region_id region;
       match_score := match_score;
       compatibility_factors := compatibility_factors;
       project_recommendations := project_recommendations;
       risk_assessment := risk_assessment;
       roi_projection := roi_projection;
       timeline := timeline;
       next_steps := next_steps;
       created_at := now |}.

(** [limit] defaults to [5]. *)
Definition find_best_matches
    (stamp now : string) (self : System) (entity_id : string) (limit : Z)
  : Py.result (list MatchResult) :=
  match Py.get (entities self) entity_id with
  | None => Py.Ok []
  | Some entity =>
      matches <-
        Py.mapM (generate_match_recommendations stamp now entity)
          (map snd (regions self)) ;;
      let matches := Py.sort_reverse match_score matches in
      Py.Ok (Py.slice_to matches limit)
  end.

(** [_initialize_sample_data]; [now] is [datetime.now().isoformat()]. *)
Definition sample_regions (now : string) : list (string * RegionalProfile) :=
  [ ("TX-AUS",
      {| region_id := "TX-AUS"; name := "Austin Metro"; state := "Texas";
         country := "USA"; population := 2500000; gdp_per_capita := 75000;
         unemployment_rate := 3.2; growth_rate := 8.5;
         infrastructure_score := 0.92; talent_availability := 0.88;
         cost_of_living := 0.75; tax_incentives := 0.85;
         regulatory_ease := 0.78; market_access := 0.90;
         political_stability := 0.95; development_tier := PREMIUM;
         project_opportunities := [TECHNOLOGY; SMART_CITY; EDUCATION];
         current_projects := ["Tech Hub Expansion"; "Smart Transportation"];
         partner_matches := []; last_updated := now |});
    ("NC-RAL",
      {| region_id := "NC-RAL"; name := "Raleigh-Durham";
         state := "North Carolina"; country := "USA";
         population := 1800000; gdp_per_capita := 68000;
         unemployment_rate := 3.8; growth_rate := 7.2;
         infrastructure_score := 0.85; talent_availability := 0.82;
         cost_of_living := 0.68; tax_incentives := 0.80;
         regulatory_ease := 0.75; market_access := 0.85;
         political_stability := 0.90; development_tier := ESTABLISHED;
         project_opportunities := [TECHNOLOGY; HEALTHCARE; EDUCATION];
         current_projects := ["Research Triangle Expansion"];
         partner_matches := []; last_updated := now |});
    ("TN-NAS",
      {| region_id := "TN-NAS"; name := "Nashville Metro";
         state := "Tennessee"; country := "USA";
         population := 2100000; gdp_per_capita := 62000;
         unemployment_rate := 4.1; growth_rate := 6.8;
         infrastructure_score := 0.78; talent_availability := 0.75;
         cost_of_living := 0.65; tax_incentives := 0.90;
         regulatory_ease := 0.85; market_access := 0.80;
         political_stability := 0.88; development_tier := GROWING;
         project_opportunities := [MANUFACTURING; LOGISTICS; HEALTHCARE];
         current_projects := ["Music Industry Hub"];
         partner_matches := []; last_updated := now |}) ].

Definition sample_entities (now : string) : list (string * EntityProfile) :=
  [ ("GOV-TX",
      {| entity_id := "GOV-TX";
         entity_name := "Texas Economic Development Corporation";
         entity_type := GOVERNMENT;
         description :=
           "State agency focused on economic development and business attraction";
         capabilities :=
           ["Tax Incentives"; "Infrastructure Development";
            "Workforce Training"];
         investment_capacity := 500000000;
         preferred_regions := ["TX-AUS"; "TX-HOU"; "TX-DAL"];
         project_interests := [TECHNOLOGY; MANUFACTURING; INFRASTRUCTURE];
         success_history := ["Tesla Gigafactory"; "Samsung Semiconductor"];
         contact_info :=
           [ ("email", "contact@texasedc.org");
             ("phone", "+1-512-555-0123");
             ("website", "www.texasedc.org") ];
         matching_score := 0.0; entity_last_updated := now |});
    ("COMP-TECH",
      {| entity_id := "COMP-TECH"; entity_name := "InnovateTech Solutions";
         entity_type := COMPANY;
         description :=
           "Technology company specializing in AI and automation";
         capabilities := ["AI Development"; "Automation"; "Data Analytics"];
         investment_capacity := 25000000;
         preferred_regions := ["TX-AUS"; "NC-RAL"; "CA-SF"];
         project_interests := [TECHNOLOGY; SMART_CITY; EDUCATION];
         success_history :=
           ["Smart City Implementation"; "AI Education Platform"];
         contact_info :=
           [ ("email", "partnerships@innovatetech.com");
             ("phone", "+1-415-555-0456");
             ("website", "www.innovatetech.com") ];
         matching_score := 0.0; entity_last_updated := now |});
    ("INV-GROWTH",
      {| entity_id := "INV-GROWTH"; entity_name := "Regional Growth Capital";
         entity_type := INVESTOR;
         description :=
           "Investment firm focused on regional development projects";
         capabilities :=
           ["Project Financing"; "Strategic Planning"; "Market Analysis"];
         investment_capacity := 100000000;
         preferred_regions := ["TN-NAS"; "NC-RAL"; "GA-ATL"];
         project_interests := [INFRASTRUCTURE; RENEWABLE_ENERGY; LOGISTICS];
         success_history := ["Solar Farm Development"; "Port Expansion"];
         contact_info :=
           [ ("email", "investments@regionalgrowth.com");
             ("phone", "+1-404-555-0789");
             ("website", "www.regionalgrowth.com") ];
         matching_score := 0.0; entity_last_updated := now |}) ].

(** [__init__]. *)
Definition init (now : string) : System :=
  {| regions := sample_regions now; entities := sample_entities now |}.










End RevolutionaryRegionalSystem.

(* ================================================================== *)
(** * BWGA_NEXUS_COMPLETE.py *)
(* ================================================================== *)

Module BwgaNexusComplete.

(** The fourteen numbers read from the form. *)
Record Metrics : Type := {
  infra : Q;
  talent : Q;
  cost : Q;
  market : Q;
  risk : Q;
  growth : Q;
  regulatory : Q;
  political : Q;
  digital : Q;
  supply_chain : Q;
  innovation : Q;
  sustainability : Q;
  geo_risk : Q;
  volatility : Q
}.

(** The values assigned in the [except] branch. *)
Definition fallback : Metrics :=
  {| infra := 0.7; talent := 0.7; cost := 0.7; market := 0.7; risk := 0.7;
     growth := 0.7; regulatory := 0.7; political := 0.7; digital := 0.7;
     supply_chain := 0.7; innovation := 0.7; sustainability := 0.7;
     geo_risk := 0.3; volatility := 0.4 |}.

Record Result : Type := {
  score : Q;
  tier : string;
  roi : Q;
  risk_level : string;
  timestamp : string;
  components : list (string * Q)
}.

(** The part of [advanced_investment_algorithm] after the [try] block;
    [now] is the formatted clock reading. *)
Definition analyse (now : string) (m : Metrics) : Result :=
  let score :=
    (infra m * 0.12 +
     talent m * 0.10 +
     (1 - cost m) * 0.15 +
     market m * 0.12 +
     regulatory m * 0.08 +
     political m * 0.07 +
     growth m * 0.10 * 10 +
     (1 - risk m) * 0.08 +
     digital m * 0.06 +
     sustainability m * 0.05 +
     innovation m * 0.04 +
     supply_chain m * 0.03 -
     geo_risk m * 0.05 -
     volatility m * 0.05) * 100 in
  let tier :=
    if score >=? 85 then "Tier 1 - Premium Investment"
    else if score >=? 70 then "Tier 2 - Strategic Investment"
    else "Tier 3 - Emerging Opportunity" in
  let roi := Py.round (8 + (score - 70) * 0.3) 2 in
  let risk_level :=
    if score >=? 85 then "Low"
    else if score >=? 70 then "Medium" else "High" in
  let components :=
    [ ("Infrastructure", infra m);
      ("Talent Availability", talent m);
      ("Cost Efficiency", 1 - cost m);
      ("Market Access", market m);
      ("Regulatory Ease", regulatory m);
      ("Political Stability", political m);
      ("Growth Rate", growth m);
      ("Risk Factor", 1 - risk m);
      ("Digital Infrastructure", digital m);
      ("Sustainability", sustainability m);
      ("Innovation", innovation m);
      ("Supply Chain Efficiency", supply_chain m);
      ("Geopolitical Risk", 1 - geo_risk m);
      ("Market Volatility", 1 - volatility m) ] in
  {| score := Py.round score 2;
     tier := tier;
     roi := roi;
     risk_level := risk_level;
     timestamp := now;
     components := components |}.

(** [float] is Python's conversion of a form text to a number, on the
    texts that it rejects or reads as a finite number: [None] stands for
    the exception it raises on a text it cannot read.  A text such as
    "nan", "inf" or "1e400", for which [float()] returns a NaN or an
    infinity without raising, has no counterpart here (a float is a
    rational), so nothing below speaks about a form with such a text. *)
Section Form.

Variable float : string -> option Q.

(** [float(data.get(key, default))]: the default is already a number. *)
Definition field (data : list (string * string)) (key : string) (default : Q)
  : option Q :=
  match Py.get data key with
  | Some text => float text
  | None => Some default
  end.

(** The [try] block: the fourteen conversions in order, [None] as soon
    as one of them raises. *)
Definition read_metrics (data : list (string * string)) : option Metrics :=
  match field data "infrastructure_score" 0.7 with None => None | Some infra =>
  match field data "talent_availability" 0.7 with None => None | Some talent =>
  match field data "cost_of_living" 0.5 with None => None | Some cost =>
  match field data "market_access" 0.7 with None => None | Some market =>
  match field data "risk_factor" 0.5 with None => None | Some risk =>
  match field data "growth_rate" 0.05 with None => None | Some growth =>
  match field data "regulatory_ease" 0.7 with None => None | Some regulatory =>
  match field data "political_stability" 0.7 with None => None | Some political =>
  match field data "digital_infrastructure" 0.7 with None => None | Some digital =>
  match field data "supply_chain_efficiency" 0.7 with None => None | Some supply_chain =>
  match field data "innovation_index" 0.7 with None => None | Some innovation =>
  match field data "sustainability_score" 0.7 with None => None | Some sustainability =>
  match field data "geopolitical_risk" 0.3 with None => None | Some geo_risk =>
  match field data "market_volatility" 0.4 with None => None | Some volatility =>
  Some {| infra := infra; talent := talent; cost := cost; market := market;
          risk := risk; growth := growth; regulatory := regulatory;
          political := political; digital := digital;
          supply_chain := supply_chain; innovation := innovation;
          sustainability := sustainability; geo_risk := geo_risk;
          volatility := volatility |}
  end end end end end end end end end end end end end end.

Definition advanced_investment_algorithm
    (now : string) (data : list (string * string)) : Result :=
  match read_metrics data with
  | Some m => analyse now m
  | None => analyse now fallback
  end.

End Form.

End BwgaNexusComplete.

(* ================================================================== *)
(** * real_time_data.py: the two text helpers *)
(* ================================================================== *)

Module RealTimeData.

Definition positive_words : list string :=
  ["positive"; "growth"; "increase"; "profit"; "success"; "up"; "gain";
   "bullish"].

Definition negative_words : list string :=
  ["negative"; "decline"; "decrease"; "loss"; "failure"; "down"; "bearish";
   "crash"].

(** [sum(1 for word in words if word in text)]. *)
Definition count_present (words : list string) (text : string) : Z :=
  Z.of_nat (length (filter (fun word => Py.str_in word text) words)).

Definition _analyze_sentiment (text : string) : string :=
  let text_lower := Py.lower text in
  let positive_count := count_present positive_words text_lower in
  let negative_count := count_present negative_words text_lower in
  if (positive_count >? negative_count)%Z then "positive"
  else if (negative_count >? positive_count)%Z then "negative"
  else "neutral".

(** [article] is a dict of strings. *)
Definition _calculate_relevance
    (article : list (string * string)) (keyword : string) : Q :=
  let title :=
    Py.lower (match Py.get article "title" with Some t => t | None => "" end) in
  let description :=
    Py.lower
      (match Py.get article "description" with Some d => d | None => "" end) in
  let keyword_lower := Py.lower keyword in
  let title_score := (Py.count title keyword_lower * 2)%Z in
  let desc_score := Py.count description keyword_lower in
  Py.min 1.0 (inject_Z (title_score + desc_score) / 10).

End RealTimeData.

(* ================================================================== *)
(** * Vocabulary of the stated properties *)
(* ================================================================== *)

(** The four risk levels in increasing severity. *)
Definition RiskLevel_rank (l : RiskLevel) : nat :=
  match l with
  | LOW => 0
  | MEDIUM => 1
  | HIGH => 2
  | CRITICAL => 3
  end.

Definition RiskLevel_max (a b : RiskLevel) : RiskLevel :=
  if (RiskLevel_rank a <? RiskLevel_rank b)%nat then b else a.

(** The highest level of a list, [LOW] for the empty list. *)
Definition max_severity (levels : list RiskLevel) : RiskLevel :=
  fold_right RiskLevel_max LOW levels.

(** The level of the last element of a list, [LOW] for the empty list. *)
Definition last_severity (levels : list RiskLevel) : RiskLevel :=
  last levels LOW.

(** The [component_scores] dict with its twelve keys in declaration
    order. *)
Definition scores12 (s1 s2 s3 s4 s5 s6 s7 s8 s9 s10 s11 s12 : Q)
  : list (string * Q) :=
  [ ("infrastructure", s1); ("talent", s2); ("cost_efficiency", s3);
    ("market_access", s4); ("regulatory", s5); ("political_stability", s6);
    ("growth_potential", s7); ("risk_factors", s8);
    ("digital_readiness", s9); ("sustainability", s10);
    ("innovation", s11); ("supply_chain", s12) ].

(** Every score of a dict lies in [[0,100]]. *)
Definition scores_in_range (scores : list (string * Q)) : Prop :=
  Forall (fun kv => 0 <= snd kv /\ snd kv <= 100) scores.

(** The tier classification in the words of the specification: lower
    edges inclusive, and a residual tier below 55 that is not Tier 3. *)
Definition tier_as_specified (classify : Q -> InvestmentTier) (s : Q) : Prop :=
  (85 <= s -> classify s = TIER_1) /\
  (70 <= s -> s < 85 -> classify s = TIER_2) /\
  (55 <= s -> s < 70 -> classify s = TIER_3) /\
  (s < 55 -> classify s <> TIER_3).

(** A list is in non-increasing order of [key]. *)
Definition sorted_desc {A : Type} (key : A -> Q) (l : list A) : Prop :=
  Sorted (fun x y => key y <= key x) l.

(** The elements of [l] whose key equals [v], in the order of [l]. *)
Definition with_key {A : Type} (key : A -> Q) (v : Q) (l : list A) : list A :=
  filter (fun x => Qeq_bool (key x) v) l.

(** Ties are broken by the original order: for every key value, the
    elements of [result] with that key are the first ones of [original]
    with that key, in the same order. *)
Definition ties_in_order {A : Type} (key : A -> Q) (original result : list A)
  : Prop :=
  forall v, exists j, with_key key v result = firstn j (with_key key v original).


(** [xs] can be obtained from [ys] by dropping elements. *)
Fixpoint subseq (xs ys : list string) : bool :=
  match xs, ys with
  | [], _ => true
  | _ :: _, [] => false
  | x :: xs', y :: ys' =>
      if String.eqb x y then subseq xs' ys' else subseq xs ys'
  end.

(** The five canned recommendations of the enhanced engine, in the order
    of its checks. *)
Definition canned_recommendations : list string :=
  [ "Consider infrastructure development partnerships";
    "Implement talent development programs";
    "Leverage cost advantages for competitive pricing";
    "Invest in digital infrastructure development";
    "Develop sustainability initiatives" ].

(** A regional profile on the scales the sample data uses: indicators in
    [[0,1]], growth and unemployment as percentages in [[0,10]]. *)
Definition on_scale (r : RevolutionaryRegionalSystem.RegionalProfile) : Prop :=
  unit_interval (RevolutionaryRegionalSystem.infrastructure_score r) /\
  unit_interval (RevolutionaryRegionalSystem.talent_availability r) /\
  unit_interval (RevolutionaryRegionalSystem.cost_of_living r) /\
  unit_interval (RevolutionaryRegionalSystem.regulatory_ease r) /\
  unit_interval (RevolutionaryRegionalSystem.political_stability r) /\
  (0 <= RevolutionaryRegionalSystem.growth_rate r /\
   RevolutionaryRegionalSystem.growth_rate r <= 10) /\
  (0 <= RevolutionaryRegionalSystem.unemployment_rate r /\
   RevolutionaryRegionalSystem.unemployment_rate r <= 10).

(** The fourteen form values of [BWGA_NEXUS_COMPLETE.py] lie in [[0,1]]. *)
Definition form_in_unit (m : BwgaNexusComplete.Metrics) : Prop :=
  unit_interval (BwgaNexusComplete.infra m) /\
  unit_interval (BwgaNexusComplete.talent m) /\
  unit_interval (BwgaNexusComplete.cost m) /\
  unit_interval (BwgaNexusComplete.market m) /\
  unit_interval (BwgaNexusComplete.risk m) /\
  unit_interval (BwgaNexusComplete.growth m) /\
  unit_interval (BwgaNexusComplete.regulatory m) /\
  unit_interval (BwgaNexusComplete.political m) /\
  unit_interval (BwgaNexusComplete.digital m) /\
  unit_interval (BwgaNexusComplete.supply_chain m) /\
  unit_interval (BwgaNexusComplete.innovation m) /\
  unit_interval (BwgaNexusComplete.sustainability m) /\
  unit_interval (BwgaNexusComplete.geo_risk m) /\
  unit_interval (BwgaNexusComplete.volatility m).

(** The fourteen keys that [advanced_investment_algorithm] reads from the
    form, in the order of its conversions. *)
Definition form_keys : list string :=
  [ "infrastructure_score"; "talent_availability"; "cost_of_living";
    "market_access"; "risk_factor"; "growth_rate"; "regulatory_ease";
    "political_stability"; "digital_infrastructure";
    "supply_chain_efficiency"; "innovation_index"; "sustainability_score";
    "geopolitical_risk"; "market_volatility" ].

Module RiskChecks.

(** The checks of [investment_algorithm.py] that a region triggers, in
    evaluation order. *)
Definition advanced_triggered (r : RegionalMetrics)
  : list InvestmentAlgorithm.Check :=
  filter (fun c => InvestmentAlgorithm.triggers c r)
    InvestmentAlgorithm.checks.

(** The checks of [enhanced_investment_algorithm.py] that a region
    triggers, in evaluation order. *)
Definition enhanced_triggered (r : RegionalMetrics)
  : list EnhancedInvestmentAlgorithm.Check :=
  filter (fun c => EnhancedInvestmentAlgorithm.triggers c r)
    EnhancedInvestmentAlgorithm.checks.

(** [sentinel] when no factor was recorded. *)
Definition or_sentinel (sentinel : string) (factors : list string)
  : list string :=
  match factors with
  | [] => [sentinel]
  | _ :: _ => factors
  end.

End RiskChecks.

Module Inputs.

(** The Austin sample with a political stability of 0.5 and a market
    access of 0.4. *)
Definition unstable_region : RegionalMetrics :=
  {| city := "Austin"; country := "USA"; region := "Texas";
     population := 950000; gdp_per_capita := 65000;
     infrastructure_score := 0.85; talent_availability := 0.80;
     cost_of_living := 0.65; tax_rate := 0.25; regulatory_ease := 0.75;
     market_access := 0.40; political_stability := 0.50;
     growth_rate := 0.08; inflation_rate := 0.03;
     currency_stability := 0.95; digital_infrastructure := 0.90;
     supply_chain_efficiency := 0.75; innovation_index := 0.85;
     sustainability_score := 0.70; geopolitical_risk := 0.20;
     market_volatility := 0.35 |}.

(** The company of the [__main__] block of [investment_algorithm.py]. *)
Definition electronics_company : InvestmentAlgorithm.CompanyProfile :=
  {| InvestmentAlgorithm.company_type := "manufacturing";
     InvestmentAlgorithm.investment_size := "large";
     InvestmentAlgorithm.preferred_region := "asia-pacific";
     InvestmentAlgorithm.industry_focus := "electronics";
     InvestmentAlgorithm.risk_tolerance := "medium";
     InvestmentAlgorithm.timeline := "long-term";
     InvestmentAlgorithm.technology_requirements :=
       ["automation"; "supply_chain"];
     InvestmentAlgorithm.supply_chain_needs := ["components"; "logistics"];
     InvestmentAlgorithm.sustainability_goals :=
       ["carbon reduction"; "water conservation"];
     InvestmentAlgorithm.digital_transformation_needs :=
       ["data integration"; "AI adoption"];
     InvestmentAlgorithm.market_expansion_targets :=
       ["global market"; "new product line"];
     InvestmentAlgorithm.competitive_advantages :=
       ["cost efficiency"; "supply chain agility"] |}.

(** A region with every indicator at its best value. *)
Definition ideal_region : RegionalMetrics :=
  {| city := "Austin"; country := "USA"; region := "Texas";
     population := 10000000; gdp_per_capita := 65000;
     infrastructure_score := 1; talent_availability := 1;
     cost_of_living := 0; tax_rate := 0; regulatory_ease := 1;
     market_access := 1; political_stability := 1;
     growth_rate := 1; inflation_rate := 0;
     currency_stability := 1; digital_infrastructure := 1;
     supply_chain_efficiency := 1; innovation_index := 1;
     sustainability_score := 1; geopolitical_risk := 0;
     market_volatility := 0 |}.

(** A strong region whose growth rate is left open. *)
Definition strong_region (growth : Q) : RegionalMetrics :=
  {| city := "Ho Chi Minh City"; country := "Vietnam";
     region := "asia-pacific";
     population := 2000000; gdp_per_capita := 30000;
     infrastructure_score := 0.9; talent_availability := 0.8;
     cost_of_living := 0.2; tax_rate := 0.1; regulatory_ease := 0.9;
     market_access := 0.9; political_stability := 0.9;
     growth_rate := growth; inflation_rate := 0.03;
     currency_stability := 0.9; digital_infrastructure := 0.8;
     supply_chain_efficiency := 0.9; innovation_index := 0.9;
     sustainability_score := 0.9; geopolitical_risk := 0.1;
     market_volatility := 0.3 |}.

(** A medium-sized retail company, for each of the two engines. *)
Definition retail_company : EnhancedInvestmentAlgorithm.CompanyProfile :=
  {| EnhancedInvestmentAlgorithm.company_type := "services";
     EnhancedInvestmentAlgorithm.investment_size := "medium";
     EnhancedInvestmentAlgorithm.preferred_region := "asia-pacific";
     EnhancedInvestmentAlgorithm.industry_focus := "retail";
     EnhancedInvestmentAlgorithm.risk_tolerance := "medium";
     EnhancedInvestmentAlgorithm.timeline := "3-5 years";
     EnhancedInvestmentAlgorithm.technology_requirements := [];
     EnhancedInvestmentAlgorithm.supply_chain_needs := [];
     EnhancedInvestmentAlgorithm.sustainability_goals := None;
     EnhancedInvestmentAlgorithm.digital_transformation_needs := None;
     EnhancedInvestmentAlgorithm.market_expansion_targets := None |}.

Definition retail_company_advanced : InvestmentAlgorithm.CompanyProfile :=
  {| InvestmentAlgorithm.company_type := "services";
     InvestmentAlgorithm.investment_size := "medium";
     InvestmentAlgorithm.preferred_region := "asia-pacific";
     InvestmentAlgorithm.industry_focus := "retail";
     InvestmentAlgorithm.risk_tolerance := "medium";
     InvestmentAlgorithm.timeline := "3-5 years";
     InvestmentAlgorithm.technology_requirements := [];
     InvestmentAlgorithm.supply_chain_needs := [];
     InvestmentAlgorithm.sustainability_goals := [];
     InvestmentAlgorithm.digital_transformation_needs := [];
     InvestmentAlgorithm.market_expansion_targets := [];
     InvestmentAlgorithm.competitive_advantages := [] |}.

(** The Austin region of [_initialize_sample_data]. *)
Definition tx_aus : RevolutionaryRegionalSystem.RegionalProfile :=
  {| RevolutionaryRegionalSystem.region_id := "TX-AUS";
     RevolutionaryRegionalSystem.name := "Austin Metro";
     RevolutionaryRegionalSystem.state := "Texas";
     RevolutionaryRegionalSystem.country := "USA";
     RevolutionaryRegionalSystem.population := 2500000;
     RevolutionaryRegionalSystem.gdp_per_capita := 75000;
     RevolutionaryRegionalSystem.unemployment_rate := 3.2;
     RevolutionaryRegionalSystem.growth_rate := 8.5;
     RevolutionaryRegionalSystem.infrastructure_score := 0.92;
     RevolutionaryRegionalSystem.talent_availability := 0.88;
     RevolutionaryRegionalSystem.cost_of_living := 0.75;
     RevolutionaryRegionalSystem.tax_incentives := 0.85;
     RevolutionaryRegionalSystem.regulatory_ease := 0.78;
     RevolutionaryRegionalSystem.market_access := 0.90;
     RevolutionaryRegionalSystem.political_stability := 0.95;
     RevolutionaryRegionalSystem.development_tier :=
       RevolutionaryRegionalSystem.PREMIUM;
     RevolutionaryRegionalSystem.project_opportunities :=
       [ RevolutionaryRegionalSystem.TECHNOLOGY;
         RevolutionaryRegionalSystem.SMART_CITY;
         RevolutionaryRegionalSystem.EDUCATION ];
     RevolutionaryRegionalSystem.current_projects :=
       ["Tech Hub Expansion"; "Smart Transportation"];
     RevolutionaryRegionalSystem.partner_matches := [];
     RevolutionaryRegionalSystem.last_updated := "" |}.

(** A company whose industry, risk tolerance and investment size are
    outside the values the code names, for each of the two engines. *)
Definition odd_company : EnhancedInvestmentAlgorithm.CompanyProfile :=
  {| EnhancedInvestmentAlgorithm.company_type := "services";
     EnhancedInvestmentAlgorithm.investment_size := "huge";
     EnhancedInvestmentAlgorithm.preferred_region := "asia-pacific";
     EnhancedInvestmentAlgorithm.industry_focus := "electronics";
     EnhancedInvestmentAlgorithm.risk_tolerance := "moderate";
     EnhancedInvestmentAlgorithm.timeline := "3-5 years";
     EnhancedInvestmentAlgorithm.technology_requirements := [];
     EnhancedInvestmentAlgorithm.supply_chain_needs := [];
     EnhancedInvestmentAlgorithm.sustainability_goals := None;
     EnhancedInvestmentAlgorithm.digital_transformation_needs := None;
     EnhancedInvestmentAlgorithm.market_expansion_targets := None |}.

Definition odd_company_advanced : InvestmentAlgorithm.CompanyProfile :=
  {| InvestmentAlgorithm.company_type := "services";
     InvestmentAlgorithm.investment_size := "huge";
     InvestmentAlgorithm.preferred_region := "asia-pacific";
     InvestmentAlgorithm.industry_focus := "electronics";
     InvestmentAlgorithm.risk_tolerance := "moderate";
     InvestmentAlgorithm.timeline := "3-5 years";
     InvestmentAlgorithm.technology_requirements := [];
     InvestmentAlgorithm.supply_chain_needs := [];
     InvestmentAlgorithm.sustainability_goals := [];
     InvestmentAlgorithm.digital_transformation_needs := [];
     InvestmentAlgorithm.market_expansion_targets := [];
     InvestmentAlgorithm.competitive_advantages := [] |}.

(** The entity "COMP-TECH" of [_initialize_sample_data]. *)
Definition comp_tech : RevolutionaryRegionalSystem.EntityProfile :=
  {| RevolutionaryRegionalSystem.entity_id := "COMP-TECH";
     RevolutionaryRegionalSystem.entity_name := "InnovateTech Solutions";
     RevolutionaryRegionalSystem.entity_type :=
       RevolutionaryRegionalSystem.COMPANY;
     RevolutionaryRegionalSystem.description :=
       "Technology company specializing in AI and automation";
     RevolutionaryRegionalSystem.capabilities :=
       ["AI Development"; "Automation"; "Data Analytics"];
     RevolutionaryRegionalSystem.investment_capacity := 25000000;
     RevolutionaryRegionalSystem.preferred_regions :=
       ["TX-AUS"; "NC-RAL"; "CA-SF"];
     RevolutionaryRegionalSystem.project_interests :=
       [ RevolutionaryRegionalSystem.TECHNOLOGY;
         RevolutionaryRegionalSystem.SMART_CITY;
         RevolutionaryRegionalSystem.EDUCATION ];
     RevolutionaryRegionalSystem.success_history :=
       ["Smart City Implementation"; "AI Education Platform"];
     RevolutionaryRegionalSystem.contact_info :=
       [ ("email", "partnerships@innovatetech.com");
         ("phone", "+1-415-555-0456");
         ("website", "www.innovatetech.com") ];
     RevolutionaryRegionalSystem.matching_score := 0.0;
     RevolutionaryRegionalSystem.entity_last_updated := "" |}.

(** The Austin region with a growth rate of 25 percent. *)
Definition boom_region : RevolutionaryRegionalSystem.RegionalProfile :=
  {| RevolutionaryRegionalSystem.region_id := "TX-AUS";
     RevolutionaryRegionalSystem.name := "Austin Metro";
     RevolutionaryRegionalSystem.state := "Texas";
     RevolutionaryRegionalSystem.country := "USA";
     RevolutionaryRegionalSystem.population := 2500000;
     RevolutionaryRegionalSystem.gdp_per_capita := 75000;
     RevolutionaryRegionalSystem.unemployment_rate := 3.2;
     RevolutionaryRegionalSystem.growth_rate := 25;
     RevolutionaryRegionalSystem.infrastructure_score := 0.92;
     RevolutionaryRegionalSystem.talent_availability := 0.88;
     RevolutionaryRegionalSystem.cost_of_living := 0.75;
     RevolutionaryRegionalSystem.tax_incentives := 0.85;
     RevolutionaryRegionalSystem.regulatory_ease := 0.78;
     RevolutionaryRegionalSystem.market_access := 0.90;
     RevolutionaryRegionalSystem.political_stability := 0.95;
     RevolutionaryRegionalSystem.development_tier :=
       RevolutionaryRegionalSystem.PREMIUM;
     RevolutionaryRegionalSystem.project_opportunities :=
       [ RevolutionaryRegionalSystem.TECHNOLOGY;
         RevolutionaryRegionalSystem.SMART_CITY;
         RevolutionaryRegionalSystem.EDUCATION ];
     RevolutionaryRegionalSystem.current_projects :=
       ["Tech Hub Expansion"; "Smart Transportation"];
     RevolutionaryRegionalSystem.partner_matches := [];
     RevolutionaryRegionalSystem.last_updated := "" |}.

(** An entity that states no preferred region and no project interest. *)
Definition newcomer : RevolutionaryRegionalSystem.EntityProfile :=
  {| RevolutionaryRegionalSystem.entity_id := "COMP-NEW";
     RevolutionaryRegionalSystem.entity_name := "Newcomer";
     RevolutionaryRegionalSystem.entity_type :=
       RevolutionaryRegionalSystem.COMPANY;
     RevolutionaryRegionalSystem.description := "";
     RevolutionaryRegionalSystem.capabilities := [];
     RevolutionaryRegionalSystem.investment_capacity := 1000000;
     RevolutionaryRegionalSystem.preferred_regions := [];
     RevolutionaryRegionalSystem.project_interests := [];
     RevolutionaryRegionalSystem.success_history := [];
     RevolutionaryRegionalSystem.contact_info := [];
     RevolutionaryRegionalSystem.matching_score := 0.0;
     RevolutionaryRegionalSystem.entity_last_updated := "" |}.

(** A region in distress, by its unemployment rate, growth rate,
    infrastructure, talent, cost of living, political stability and
    regulatory ease. *)
Definition distressed_region
    (unemployment growth infrastructure talent cost stability regulatory : Q)
  : RevolutionaryRegionalSystem.RegionalProfile :=
  {| RevolutionaryRegionalSystem.region_id := "XX-CRS";
     RevolutionaryRegionalSystem.name := "Crisis Valley";
     RevolutionaryRegionalSystem.state := "";
     RevolutionaryRegionalSystem.country := "";
     RevolutionaryRegionalSystem.population := 500000;
     RevolutionaryRegionalSystem.gdp_per_capita := 9000;
     RevolutionaryRegionalSystem.unemployment_rate := unemployment;
     RevolutionaryRegionalSystem.growth_rate := growth;
     RevolutionaryRegionalSystem.infrastructure_score := infrastructure;
     RevolutionaryRegionalSystem.talent_availability := talent;
     RevolutionaryRegionalSystem.cost_of_living := cost;
     RevolutionaryRegionalSystem.tax_incentives := 0.5;
     RevolutionaryRegionalSystem.regulatory_ease := regulatory;
     RevolutionaryRegionalSystem.market_access := 0.5;
     RevolutionaryRegionalSystem.political_stability := stability;
     RevolutionaryRegionalSystem.development_tier :=
       RevolutionaryRegionalSystem.EMERGING;
     RevolutionaryRegionalSystem.project_opportunities :=
       [RevolutionaryRegionalSystem.HEALTHCARE];
     RevolutionaryRegionalSystem.current_projects := [];
     RevolutionaryRegionalSystem.partner_matches := [];
     RevolutionaryRegionalSystem.last_updated := "" |}.

(** Unemployment 30.8 percent, every other indicator at its worst. *)
Definition stalled_region : RevolutionaryRegionalSystem.RegionalProfile :=
  distressed_region 30.8 0 0 0 1 0 0.

(** Unemployment 30 percent and a growth rate of -30 percent. *)
Definition crisis_region : RevolutionaryRegionalSystem.RegionalProfile :=
  distressed_region 30 (-30) 0.52 0.5 0.5 0.3 0.4.

(** A registry with the newcomer and one region. *)
Definition registry_of (region : RevolutionaryRegionalSystem.RegionalProfile)
  : RevolutionaryRegionalSystem.System :=
  {| RevolutionaryRegionalSystem.regions :=
       [(RevolutionaryRegionalSystem.region_id region, region)];
     RevolutionaryRegionalSystem.entities := [("COMP-NEW", newcomer)] |}.

(** The seeded registries with every region removed. *)
Definition regional_without_regions : RevolutionaryRegionalSystem.System :=
  {| RevolutionaryRegionalSystem.regions := [];
     RevolutionaryRegionalSystem.entities :=
       RevolutionaryRegionalSystem.sample_entities "" |}.

Definition system_without_regions : RevolutionarySystem.System :=
  {| RevolutionarySystem.regions := [];
     RevolutionarySystem.entities :=
       RevolutionarySystem.entities RevolutionarySystem.init |}.


(** The defaults of the fourteen [data.get] calls of
    [advanced_investment_algorithm]: the metrics of an empty form. *)
Definition form_defaults : BwgaNexusComplete.Metrics :=
  {| BwgaNexusComplete.infra := 0.7;
     BwgaNexusComplete.talent := 0.7;
     BwgaNexusComplete.cost := 0.5;
     BwgaNexusComplete.market := 0.7;
     BwgaNexusComplete.risk := 0.5;
     BwgaNexusComplete.growth := 0.05;
     BwgaNexusComplete.regulatory := 0.7;
     BwgaNexusComplete.political := 0.7;
     BwgaNexusComplete.digital := 0.7;
     BwgaNexusComplete.supply_chain := 0.7;
     BwgaNexusComplete.innovation := 0.7;
     BwgaNexusComplete.sustainability := 0.7;
     BwgaNexusComplete.geo_risk := 0.3;
     BwgaNexusComplete.volatility := 0.4 |}.

(** A form reader that knows three decimal texts and rejects every other
    text, and a form whose growth rate is not a number. *)
Definition reads_listed (text : string) : option Q :=
  Py.get [("0.9", 0.9); ("0.5", 0.5); ("0.05", 0.05)] text.

Definition form_with_bad_growth : list (string * string) :=
  [("infrastructure_score", "0.9"); ("growth_rate", "fast")].

End Inputs.

(* ================================================================== *)
(** * Facts about the Python primitives *)
(* ================================================================== *)

Section PyFacts.

Lemma ltb_true (a b : Q) : Py.ltb a b = true <-> a < b.
Proof.
  unfold Py.ltb. rewrite negb_true_iff.
  split; intro H.
  - apply Qnot_le_lt. intro Hle. apply Qle_bool_iff in Hle. congruence.
  - destruct (Qle_bool b a) eqn:E; [|reflexivity].
    apply Qle_bool_iff in E. lra.
Qed.

Lemma ltb_false (a b : Q) : Py.ltb a b = false <-> b <= a.
Proof.
  unfold Py.ltb. rewrite negb_false_iff. apply Qle_bool_iff.
Qed.

Lemma Qle_bool_false (a b : Q) : Qle_bool a b = false <-> b < a.
Proof.
  rewrite <- ltb_true. unfold Py.ltb.
  destruct (Qle_bool a b); simpl; intuition congruence.
Qed.

Lemma Qeq_bool_false (a b : Q) : Qeq_bool a b = false <-> ~ a == b.
Proof.
  split.
  - intros H E. apply Qeq_bool_iff in E. congruence.
  - intro H. destruct (Qeq_bool a b) eqn:E; [|reflexivity].
    apply Qeq_bool_iff in E. contradiction.
Qed.

End PyFacts.

Section MinMaxFacts.

Lemma max_cases (a b : Q) :
  (a < b /\ Py.max a b = b) \/ (b <= a /\ Py.max a b = a).
Proof.
  unfold Py.max, Py.gtb.
  destruct (Py.ltb a b) eqn:E; [left | right]; split; try reflexivity.
  - apply ltb_true, E.
  - apply ltb_false, E.
Qed.

Lemma min_cases (a b : Q) :
  (b < a /\ Py.min a b = b) \/ (a <= b /\ Py.min a b = a).
Proof.
  unfold Py.min.
  destruct (Py.ltb b a) eqn:E; [left | right]; split; try reflexivity.
  - apply ltb_true, E.
  - apply ltb_false, E.
Qed.

End MinMaxFacts.

(** Splits on every float comparison and every [max]/[min] of the goal
    and records the outcome as an inequality. *)
Ltac cmp_step :=
  match goal with
  | |- context [if Py.ltb ?a ?b then _ else _] =>
      let H := fresh "Hcmp" in
      destruct (Py.ltb a b) eqn:H;
      [apply ltb_true in H | apply ltb_false in H]
  | |- context [if Qle_bool ?a ?b then _ else _] =>
      let H := fresh "Hcmp" in
      destruct (Qle_bool a b) eqn:H;
      [apply Qle_bool_iff in H | apply Qle_bool_false in H]
  end.

Ltac minmax_step :=
  match goal with
  | |- context [Py.min ?a ?b] =>
      let H := fresh "Hmin" in
      let E := fresh "Emin" in
      destruct (min_cases a b) as [[H E] | [H E]]; rewrite E in *; clear E
  | |- context [Py.max ?a ?b] =>
      let H := fresh "Hmax" in
      let E := fresh "Emax" in
      destruct (max_cases a b) as [[H E] | [H E]]; rewrite E in *; clear E
  end.

Ltac cmp_cases :=
  unfold Py.gtb, Py.geb, Py.leb in *;
  repeat cmp_step;
  repeat minmax_step.

Section ClampFacts.

(** [max(0, min(100, x))]. *)
Lemma clamp_bounds (x : Q) :
  0 <= Py.max 0 (Py.min 100 x) /\ Py.max 0 (Py.min 100 x) <= 100.
Proof. cmp_cases; lra. Qed.

Lemma clamp_mono (x y : Q) :
  x <= y -> Py.max 0 (Py.min 100 x) <= Py.max 0 (Py.min 100 y).
Proof. intro H. cmp_cases; lra. Qed.

Lemma clamp_id (x : Q) :
  0 <= x -> x <= 100 -> Py.max 0 (Py.min 100 x) == x.
Proof. intros H0 H1. cmp_cases; lra. Qed.

Lemma min_one_le (x : Q) : Py.min 1.0 x <= 1.
Proof. cmp_cases; lra. Qed.

End ClampFacts.

Section RoundFacts.

Lemma round_half_even_floor (q : Q) :
  (Qfloor q <= Py.round_half_even q <= Qfloor q + 1)%Z.
Proof.
  unfold Py.round_half_even.
  destruct (Qcompare _ _); [destruct (Z.even _)| |]; lia.
Qed.

Lemma round_half_even_mono (x y : Q) :
  x <= y -> (Py.round_half_even x <= Py.round_half_even y)%Z.
Proof.
  intro Hxy.
  pose proof (Qfloor_resp_le _ _ Hxy) as Hf.
  destruct (Z.eq_dec (Qfloor x) (Qfloor y)) as [E|N].
  - unfold Py.round_half_even. rewrite <- E.
    destruct (Qcompare_spec (x - inject_Z (Qfloor x)) (1 # 2));
      destruct (Qcompare_spec (y - inject_Z (Qfloor x)) (1 # 2));
      try destruct (Z.even (Qfloor x)); try lia; lra.
  - pose proof (round_half_even_floor x).
    pose proof (round_half_even_floor y). lia.
Qed.

Lemma round_half_even_Z (z : Z) : Py.round_half_even (inject_Z z) = z.
Proof.
  unfold Py.round_half_even. rewrite Qfloor_Z.
  destruct (Qcompare_spec (inject_Z z - inject_Z z) (1 # 2)); try lra.
  reflexivity.
Qed.

Lemma round_half_even_comp (x y : Q) :
  x == y -> Py.round_half_even x = Py.round_half_even y.
Proof.
  intro E. apply Z.le_antisymm; apply round_half_even_mono; lra.
Qed.

(** The rounded value is within one half of the argument. *)
Lemma round_half_even_near (q : Q) :
  q - (1 # 2) <= inject_Z (Py.round_half_even q) /\
  inject_Z (Py.round_half_even q) <= q + (1 # 2).
Proof.
  unfold Py.round_half_even.
  pose proof (Qfloor_le q) as Hl. pose proof (Qlt_floor q) as Hu.
  rewrite inject_Z_plus in Hu. change (inject_Z 1) with 1 in Hu.
  destruct (Qcompare_spec (q - inject_Z (Qfloor q)) (1 # 2));
    try destruct (Z.even (Qfloor q));
    rewrite ?inject_Z_plus; change (inject_Z 1) with 1; split; lra.
Qed.

Lemma pow10_pos (n : nat) : 0 < inject_Z (10 ^ Z.of_nat n).
Proof.
  change 0 with (inject_Z 0). rewrite <- Zlt_Qlt.
  apply Z.pow_pos_nonneg; lia.
Qed.

Lemma round_mono (n : nat) (x y : Q) :
  x <= y -> Py.round x n <= Py.round y n.
Proof.
  intro H. unfold Py.round.
  pose proof (pow10_pos n) as Hp.
  set (p := inject_Z (10 ^ Z.of_nat n)) in *.
  apply Qmult_le_compat_r.
  - rewrite <- Zle_Qle. apply round_half_even_mono.
    apply Qmult_le_compat_r; lra.
  - apply Qlt_le_weak, Qinv_lt_0_compat, Hp.
Qed.

(** A value with at most [n] decimals is left unchanged. *)
Lemma round_exact (n : nat) (z : Z) :
  Py.round (inject_Z z / inject_Z (10 ^ Z.of_nat n)) n
  == inject_Z z / inject_Z (10 ^ Z.of_nat n).
Proof.
  unfold Py.round.
  pose proof (pow10_pos n) as Hp.
  set (p := inject_Z (10 ^ Z.of_nat n)) in *.
  rewrite (round_half_even_comp _ (inject_Z z)).
  - rewrite round_half_even_Z. reflexivity.
  - field. lra.
Qed.

Lemma round_Z (n : nat) (z : Z) : Py.round (inject_Z z) n == inject_Z z.
Proof.
  pose proof (pow10_pos n) as Hp.
  assert (E : inject_Z z
              == inject_Z (z * 10 ^ Z.of_nat n) / inject_Z (10 ^ Z.of_nat n)).
  { rewrite inject_Z_mult. field. lra. }
  unfold Py.round at 1.
  rewrite (round_half_even_comp _ (inject_Z (z * 10 ^ Z.of_nat n))).
  - rewrite round_half_even_Z. symmetry. exact E.
  - rewrite inject_Z_mult. reflexivity.
Qed.

Lemma round_bounds (n : nat) (a b : Z) (x : Q) :
  inject_Z a <= x -> x <= inject_Z b ->
  inject_Z a <= Py.round x n /\ Py.round x n <= inject_Z b.
Proof.
  intros Ha Hb. split.
  - rewrite <- (round_Z n a). apply round_mono, Ha.
  - rewrite <- (round_Z n b). apply round_mono, Hb.
Qed.

(** [round(x, n)] is within half a unit of the last kept decimal. *)
Lemma round_near (n : nat) (x : Q) :
  x - (1 # 2) / inject_Z (10 ^ Z.of_nat n) <= Py.round x n /\
  Py.round x n <= x + (1 # 2) / inject_Z (10 ^ Z.of_nat n).
Proof.
  unfold Py.round.
  pose proof (pow10_pos n) as Hp.
  set (p := inject_Z (10 ^ Z.of_nat n)) in *.
  destruct (round_half_even_near (x * p)) as [Hl Hu].
  set (k := inject_Z (Py.round_half_even (x * p))) in *.
  assert (Hi : 0 < / p) by (apply Qinv_lt_0_compat, Hp).
  split.
  - apply Qle_shift_div_l; [exact Hp|].
    assert (E : (x - (1 # 2) / p) * p == x * p - (1 # 2)) by (field; lra).
    rewrite E. exact Hl.
  - apply Qle_shift_div_r; [exact Hp|].
    assert (E : (x + (1 # 2) / p) * p == x * p + (1 # 2)) by (field; lra).
    rewrite E. exact Hu.
Qed.

End RoundFacts.

(* ================================================================== *)
(** * Risk assessment *)
(* ================================================================== *)

Section RiskAssessment.

Lemma RiskLevel_max_LOW_r (l : RiskLevel) : RiskLevel_max l LOW = l.
Proof. destruct l; reflexivity. Qed.

(** The straight-line body of [investment_algorithm.py] computes the
    factors of the triggered checks and the level of the last one. *)
Lemma advanced_risk_state_last (r : RegionalMetrics) :
  InvestmentAlgorithm.risk_state r =
  (RiskChecks.or_sentinel "Minimal risk factors identified"
     (map InvestmentAlgorithm.factor (RiskChecks.advanced_triggered r)),
   last_severity
     (map InvestmentAlgorithm.severity (RiskChecks.advanced_triggered r))).
Proof.
  unfold InvestmentAlgorithm.risk_state, RiskChecks.advanced_triggered,
    InvestmentAlgorithm.checks.
  cbn [filter InvestmentAlgorithm.triggers].
  destruct (currency_stability r <? 0.5);
    destruct (political_stability r <? 0.6);
    destruct (regulatory_ease r <? 0.4);
    destruct (market_access r <? 0.5);
    destruct (inflation_rate r >? 0.08); reflexivity.
Qed.

(** The straight-line body of [enhanced_investment_algorithm.py] does
    the same with its own four checks. *)
Lemma enhanced_risk_state_last (r : RegionalMetrics) :
  EnhancedInvestmentAlgorithm.risk_state r =
  (RiskChecks.or_sentinel "Low risk environment"
     (map EnhancedInvestmentAlgorithm.factor
        (RiskChecks.enhanced_triggered r)),
   last_severity
     (map EnhancedInvestmentAlgorithm.severity
        (RiskChecks.enhanced_triggered r))).
Proof.
  unfold EnhancedInvestmentAlgorithm.risk_state,
    RiskChecks.enhanced_triggered, EnhancedInvestmentAlgorithm.checks.
  cbn [filter EnhancedInvestmentAlgorithm.triggers].
  destruct (inflation_rate r >? 0.1);
    destruct (currency_stability r <? 0.5);
    destruct (political_stability r <? 0.6);
    destruct (geopolitical_risk r >? 0.6); reflexivity.
Qed.

(** In the enhanced file the severities never decrease along the
    checks, so the last triggered check carries the maximum. *)
Lemma enhanced_last_is_max (r : RegionalMetrics) :
  last_severity
    (map EnhancedInvestmentAlgorithm.severity
       (RiskChecks.enhanced_triggered r))
  = max_severity
      (map EnhancedInvestmentAlgorithm.severity
         (RiskChecks.enhanced_triggered r)).
Proof.
  unfold RiskChecks.enhanced_triggered, EnhancedInvestmentAlgorithm.checks.
  cbn [filter EnhancedInvestmentAlgorithm.triggers].
  destruct (inflation_rate r >? 0.1);
    destruct (currency_stability r <? 0.5);
    destruct (political_stability r <? 0.6);
    destruct (geopolitical_risk r >? 0.6); reflexivity.
Qed.

(** The enhanced engine reports the maximum severity of the triggered
    checks, and the sentinel with [LOW] when none triggers. *)
Lemma enhanced_risk_level_is_max
    (r : RegionalMetrics) (c : EnhancedInvestmentAlgorithm.CompanyProfile) :
  let a := EnhancedInvestmentAlgorithm._generate_risk_assessment r c in
  EnhancedInvestmentAlgorithm.risk_level a
  = RiskLevel_value
      (max_severity
         (map EnhancedInvestmentAlgorithm.severity
            (RiskChecks.enhanced_triggered r)))
  /\ EnhancedInvestmentAlgorithm.risk_factors a
     = RiskChecks.or_sentinel "Low risk environment"
         (map EnhancedInvestmentAlgorithm.factor
            (RiskChecks.enhanced_triggered r)).
Proof.
  unfold EnhancedInvestmentAlgorithm._generate_risk_assessment.
  rewrite enhanced_risk_state_last, enhanced_last_is_max.
  split; reflexivity.
Qed.

(** When no check triggers, both engines report the single sentinel
    factor and the level [LOW]. *)
Lemma advanced_no_check_sentinel
    (r : RegionalMetrics) (c : InvestmentAlgorithm.CompanyProfile) :
  RiskChecks.advanced_triggered r = [] ->
  let a := InvestmentAlgorithm._generate_risk_assessment r c in
  InvestmentAlgorithm.risk_factors a = ["Minimal risk factors identified"]
  /\ InvestmentAlgorithm.risk_level a = RiskLevel_value LOW.
Proof.
  intro H. unfold InvestmentAlgorithm._generate_risk_assessment.
  rewrite advanced_risk_state_last, H. split; reflexivity.
Qed.

Lemma enhanced_no_check_sentinel
    (r : RegionalMetrics) (c : EnhancedInvestmentAlgorithm.CompanyProfile) :
  RiskChecks.enhanced_triggered r = [] ->
  let a := EnhancedInvestmentAlgorithm._generate_risk_assessment r c in
  EnhancedInvestmentAlgorithm.risk_factors a = ["Low risk environment"]
  /\ EnhancedInvestmentAlgorithm.risk_level a = RiskLevel_value LOW.
Proof.
  intro H. unfold EnhancedInvestmentAlgorithm._generate_risk_assessment.
  rewrite enhanced_risk_state_last, H. split; reflexivity.
Qed.

(** C1.  The overall risk level is claimed to be the maximum severity
    among the triggered checks.  In [investment_algorithm.py] a region
    with political stability 0.5 and market access 0.4 triggers the
    political check (High) and then the market-access check (Medium):
    the two factors are reported, the maximum severity of the triggered
    checks is High, and the reported level is Medium, the level of the
    check evaluated last. *)
Theorem C1_risk_level_of_last_check :
  let a :=
    InvestmentAlgorithm._generate_risk_assessment
      Inputs.unstable_region Inputs.electronics_company in
  valid_metrics Inputs.unstable_region
  /\ InvestmentAlgorithm.risk_factors a
     = ["Political instability risk"; "Limited market access risk"]
  /\ map InvestmentAlgorithm.severity
       (RiskChecks.advanced_triggered Inputs.unstable_region)
     = [HIGH; MEDIUM]
  /\ max_severity
       (map InvestmentAlgorithm.severity
          (RiskChecks.advanced_triggered Inputs.unstable_region))
     = HIGH
  /\ InvestmentAlgorithm.risk_level a = RiskLevel_value MEDIUM.
Proof.
  split.
  - unfold valid_metrics, unit_interval; cbn; repeat split; lra.
  - repeat split; vm_compute; reflexivity.
Qed.

End RiskAssessment.

(** Folds a literal dict of twelve scores into [scores12]. *)
Ltac fold_scores12 :=
  match goal with
  | |- context [[(_, ?s1); (_, ?s2); (_, ?s3); (_, ?s4); (_, ?s5); (_, ?s6);
                 (_, ?s7); (_, ?s8); (_, ?s9); (_, ?s10); (_, ?s11);
                 (_, ?s12)]] =>
      change [("infrastructure", s1); ("talent", s2); ("cost_efficiency", s3);
              ("market_access", s4); ("regulatory", s5);
              ("political_stability", s6); ("growth_potential", s7);
              ("risk_factors", s8); ("digital_readiness", s9);
              ("sustainability", s10); ("innovation", s11);
              ("supply_chain", s12)]
        with (scores12 s1 s2 s3 s4 s5 s6 s7 s8 s9 s10 s11 s12)
  end.

(* ================================================================== *)
(** * Component scores and the composite score *)
(* ================================================================== *)

Section Scoring.

Lemma weighted_sum_12 (s1 s2 s3 s4 s5 s6 s7 s8 s9 s10 s11 s12 : Q) :
  weighted_sum (scores12 s1 s2 s3 s4 s5 s6 s7 s8 s9 s10 s11 s12)
  = Py.Ok (0 + s1 * 0.12 + s2 * 0.10 + s3 * 0.15 + s4 * 0.12 + s5 * 0.08
           + s6 * 0.07 + s7 * 0.10 + s8 * 0.08 + s9 * 0.06 + s10 * 0.05
           + s11 * 0.04 + s12 * 0.03).
Proof. reflexivity. Qed.

Lemma round_0_100 (n : nat) (x : Q) :
  0 <= x -> x <= 100 -> 0 <= Py.round x n /\ Py.round x n <= 100.
Proof. intros H0 H1. apply (round_bounds n 0 100 x); assumption. Qed.

Lemma round_scores_in_range (scores : list (string * Q)) :
  scores_in_range scores -> scores_in_range (round_scores scores).
Proof.
  unfold scores_in_range, round_scores. intro H.
  apply Forall_map. eapply Forall_impl; [|exact H].
  intros [k v] [H0 H1]. cbn in *. apply round_0_100; assumption.
Qed.

Lemma get_in_range (scores : list (string * Q)) (k : string) (v : Q) :
  scores_in_range scores -> Py.get scores k = Some v -> v <= 100.
Proof.
  unfold scores_in_range. induction 1 as [|[k' v'] l [_ Hv] _ IH]; cbn.
  - discriminate.
  - destruct (k =? k'); [|exact IH].
    intro E. injection E as <-. exact Hv.
Qed.

(** ** investment_algorithm.py: the multiplier is applied before the
    clamp *)

Lemma advanced_component_scores_in_range
    (r : RegionalMetrics) (c : InvestmentAlgorithm.CompanyProfile) :
  scores_in_range (InvestmentAlgorithm.component_scores r c).
Proof.
  unfold scores_in_range, InvestmentAlgorithm.component_scores.
  repeat (apply Forall_cons; [cbn [snd]|]); try apply Forall_nil;
    try apply clamp_bounds; vm_compute; split; discriminate.
Qed.

Lemma advanced_composite_in_range
    (r : RegionalMetrics) (c : InvestmentAlgorithm.CompanyProfile) :
  exists s,
    weighted_sum (InvestmentAlgorithm.component_scores r c) = Py.Ok s
    /\ 0 <= s /\ s <= 100.
Proof.
  pose proof (advanced_component_scores_in_range r c) as H.
  unfold InvestmentAlgorithm.component_scores in *. cbv zeta in *.
  fold_scores12. rewrite weighted_sum_12.
  eexists; split; [reflexivity|].
  unfold scores12, scores_in_range in H.
  repeat match goal with
         | H : Forall _ (_ :: _) |- _ =>
             let H1 := fresh in
             let H2 := fresh in
             apply Forall_cons_iff in H; destruct H as [H1 H2];
             cbn [snd] in H1
         end.
  lra.
Qed.

(** [calculate_investment_score] of [investment_algorithm.py] computes
    the component scores, their weighted sum, the tier and the three
    reports, and then calls a method that its class does not define: no
    input gets a result. *)
Lemma advanced_calculate_raises
    (Insights : Type) (now : string)
    (r : RegionalMetrics) (c : InvestmentAlgorithm.CompanyProfile) :
  InvestmentAlgorithm.calculate_investment_score Insights now r c
  = Py.Raise (Py.AttributeError "_generate_recommendations").
Proof.
  destruct (advanced_composite_in_range r c) as (s & Hs & _).
  unfold InvestmentAlgorithm.calculate_investment_score.
  cbv zeta. rewrite Hs. reflexivity.
Qed.

(** For every input the twelve component scores of
    [investment_algorithm.py] and its composite score lie in [[0,100]],
    also after the rounding to two decimals of the [return]
    expression. *)
Lemma advanced_result_in_range
    (r : RegionalMetrics) (c : InvestmentAlgorithm.CompanyProfile) :
  exists s,
    weighted_sum (InvestmentAlgorithm.component_scores r c) = Py.Ok s
    /\ scores_in_range
         (round_scores (InvestmentAlgorithm.component_scores r c))
    /\ 0 <= Py.round s 2
    /\ Py.round s 2 <= 100.
Proof.
  destruct (advanced_composite_in_range r c) as (s & Hs & H0 & H1).
  exists s. split; [exact Hs|]. split.
  - apply round_scores_in_range, advanced_component_scores_in_range.
  - apply round_0_100; assumption.
Qed.

(** ** enhanced_investment_algorithm.py: the multiplier is applied after
    the clamp *)

Lemma enhanced_base_scores_in_range
    (r : RegionalMetrics) (c : EnhancedInvestmentAlgorithm.CompanyProfile) :
  scores_in_range (EnhancedInvestmentAlgorithm.base_component_scores r c).
Proof.
  unfold scores_in_range, EnhancedInvestmentAlgorithm.base_component_scores.
  repeat (apply Forall_cons; [cbn [snd]|]); try apply Forall_nil;
    apply clamp_bounds.
Qed.

(** The five outcomes of the industry adjustment block; which one
    applies depends on the company alone. *)
Lemma enhanced_adjust_cases
    (c : EnhancedInvestmentAlgorithm.CompanyProfile) :
  (forall s1 s2 s3 s4 s5 s6 s7 s8 s9 s10 s11 s12,
      EnhancedInvestmentAlgorithm.apply_industry_adjustments c
        (scores12 s1 s2 s3 s4 s5 s6 s7 s8 s9 s10 s11 s12)
      = scores12 s1 s2 s3 s4 s5 s6 s7 s8 s9 s10 s11 s12)
  \/ (forall s1 s2 s3 s4 s5 s6 s7 s8 s9 s10 s11 s12,
         EnhancedInvestmentAlgorithm.apply_industry_adjustments c
           (scores12 s1 s2 s3 s4 s5 s6 s7 s8 s9 s10 s11 s12)
         = scores12 s1 (s2 * 1.3) (s3 * 0.9) s4 s5 s6 s7 s8 (s9 * 1.4) s10
             (s11 * 1.5) s12)
  \/ (forall s1 s2 s3 s4 s5 s6 s7 s8 s9 s10 s11 s12,
         EnhancedInvestmentAlgorithm.apply_industry_adjustments c
           (scores12 s1 s2 s3 s4 s5 s6 s7 s8 s9 s10 s11 s12)
         = scores12 (s1 * 1.2) (s2 * 0.9) (s3 * 1.1) s4 s5 s6 s7 s8 s9 s10
             s11 (s12 * 1.3))
  \/ (forall s1 s2 s3 s4 s5 s6 s7 s8 s9 s10 s11 s12,
         EnhancedInvestmentAlgorithm.apply_industry_adjustments c
           (scores12 s1 s2 s3 s4 s5 s6 s7 s8 s9 s10 s11 s12)
         = scores12 (s1 * 1.4) s2 (s3 * 1.1) (s4 * 1.3) s5 s6 s7 s8 s9 s10
             s11 (s12 * 1.2))
  \/ (forall s1 s2 s3 s4 s5 s6 s7 s8 s9 s10 s11 s12,
         EnhancedInvestmentAlgorithm.apply_industry_adjustments c
           (scores12 s1 s2 s3 s4 s5 s6 s7 s8 s9 s10 s11 s12)
         = scores12 s1 (s2 * 1.1) s3 (s4 * 1.1) (s5 * 1.3) (s6 * 1.2) s7 s8
             s9 s10 s11 s12).
Proof.
  unfold EnhancedInvestmentAlgorithm.apply_industry_adjustments.
  generalize (Py.lower (EnhancedInvestmentAlgorithm.industry_focus c)).
  intro k.
  unfold EnhancedInvestmentAlgorithm.industry_multipliers, Py.get.
  destruct (k =? "technology").
  { right; left; reflexivity. }
  destruct (k =? "manufacturing").
  { right; right; left; reflexivity. }
  destruct (k =? "logistics").
  { right; right; right; left; reflexivity. }
  destruct (k =? "finance").
  { right; right; right; right; reflexivity. }
  left; reflexivity.
Qed.

Lemma enhanced_break_even_ok
    (roi : Q) (c : EnhancedInvestmentAlgorithm.CompanyProfile) :
  exists t,
    EnhancedInvestmentAlgorithm._calculate_break_even_time roi c = Py.Ok t.
Proof.
  unfold EnhancedInvestmentAlgorithm._calculate_break_even_time, Py.leb.
  destruct (Qle_bool roi 0) eqn:H; [eexists; reflexivity|].
  apply Qle_bool_false in H. unfold Py.truediv.
  destruct (Qeq_bool (roi / 100) 0) eqn:E0.
  - apply Qeq_bool_iff in E0. exfalso.
    assert (X : roi == roi / 100 * 100) by field.
    rewrite E0 in X. lra.
  - eexists; reflexivity.
Qed.

Lemma enhanced_scores_ok
    (r : RegionalMetrics) (c : EnhancedInvestmentAlgorithm.CompanyProfile) :
  exists s recs,
    weighted_sum (EnhancedInvestmentAlgorithm.component_scores r c)
    = Py.Ok s
    /\ EnhancedInvestmentAlgorithm._generate_recommendations
         (EnhancedInvestmentAlgorithm.component_scores r c) c
       = Py.Ok recs.
Proof.
  unfold EnhancedInvestmentAlgorithm.component_scores,
    EnhancedInvestmentAlgorithm.base_component_scores.
  fold_scores12.
  destruct (enhanced_adjust_cases c) as [H | [H | [H | [H | H]]]];
    rewrite H; rewrite weighted_sum_12; do 2 eexists; split; reflexivity.
Qed.

(** The enhanced engine returns a result for every input; its scores
    are the rounded values of the adjusted dict and its tier is taken
    from the sum before rounding. *)
Lemma enhanced_calculate_inv
    (now : string)
    (r : RegionalMetrics) (c : EnhancedInvestmentAlgorithm.CompanyProfile) :
  exists s res,
    weighted_sum (EnhancedInvestmentAlgorithm.component_scores r c)
    = Py.Ok s
    /\ EnhancedInvestmentAlgorithm.calculate_investment_score now r c
       = Py.Ok res
    /\ EnhancedInvestmentAlgorithm.composite_score res = Py.round s 2
    /\ EnhancedInvestmentAlgorithm.investment_tier res
       = InvestmentTier_value (_determine_investment_tier s)
    /\ EnhancedInvestmentAlgorithm.result_component_scores res
       = round_scores (EnhancedInvestmentAlgorithm.component_scores r c).
Proof.
  destruct (enhanced_scores_ok r c) as (s & recs & Hs & Hrecs).
  destruct (enhanced_break_even_ok
              (EnhancedInvestmentAlgorithm.adjusted_roi s c) c) as [t Ht].
  exists s.
  unfold EnhancedInvestmentAlgorithm.calculate_investment_score,
    EnhancedInvestmentAlgorithm._calculate_roi_projection.
  cbv zeta. rewrite Hs. cbn [Py.bind]. rewrite Ht. cbn [Py.bind].
  rewrite Hrecs. cbn [Py.bind].
  eexists. split; [reflexivity|]. split; [reflexivity|]. repeat split.
Qed.

Lemma sample_regional_data_valid :
  valid_metrics EnhancedInvestmentAlgorithm.sample_regional_data.
Proof. unfold valid_metrics, unit_interval; cbn; repeat split; lra. Qed.

Lemma ideal_region_valid : valid_metrics Inputs.ideal_region.
Proof. unfold valid_metrics, unit_interval; cbn; repeat split; lra. Qed.

(** On a region with every indicator at its best value and the sample
    technology company, the composite score of the enhanced engine is
    105.9. *)
Lemma enhanced_composite_above_100 (now : string) :
  exists res,
    EnhancedInvestmentAlgorithm.calculate_investment_score now
      Inputs.ideal_region EnhancedInvestmentAlgorithm.sample_company_profile
    = Py.Ok res
    /\ EnhancedInvestmentAlgorithm.composite_score res == 105.9.
Proof. eexists. split; [reflexivity|]. vm_compute. reflexivity. Qed.

(** C2.  Every component score and the composite score are claimed to
    lie in [[0,100]] for valid inputs.  On the sample data of
    [enhanced_investment_algorithm.py], whose indicators all lie in
    [[0,1]], the enhanced engine returns the component scores
    talent = 124.8, digital_readiness = 140 and innovation = 150: the
    industry multiplier is applied after the clamp of each component. *)
Theorem C2_enhanced_components_above_100 (now : string) :
  valid_metrics EnhancedInvestmentAlgorithm.sample_regional_data
  /\ exists res,
       EnhancedInvestmentAlgorithm.calculate_investment_score now
         EnhancedInvestmentAlgorithm.sample_regional_data
         EnhancedInvestmentAlgorithm.sample_company_profile
       = Py.Ok res
       /\ (exists v,
             Py.get (EnhancedInvestmentAlgorithm.result_component_scores res)
               "talent" = Some v /\ v == 124.8 /\ 100 < v)
       /\ (exists v,
             Py.get (EnhancedInvestmentAlgorithm.result_component_scores res)
               "digital_readiness" = Some v /\ v == 140 /\ 100 < v)
       /\ (exists v,
             Py.get (EnhancedInvestmentAlgorithm.result_component_scores res)
               "innovation" = Some v /\ v == 150 /\ 100 < v)
       /\ ~ scores_in_range
             (EnhancedInvestmentAlgorithm.result_component_scores res).
Proof.
  split; [exact sample_regional_data_valid|].
  eexists. split; [reflexivity|].
  split; [|split; [|split]].
  - eexists. split; [vm_compute; reflexivity|]. split; vm_compute; reflexivity.
  - eexists. split; [vm_compute; reflexivity|]. split; vm_compute; reflexivity.
  - eexists. split; [vm_compute; reflexivity|]. split; vm_compute; reflexivity.
  - intro H.
    pose proof (get_in_range _ "innovation" _ H eq_refl) as Hle.
    vm_compute in Hle. apply Hle. reflexivity.
Qed.

End Scoring.

(* ================================================================== *)
(** * Tier classification *)
(* ================================================================== *)

Section Tiers.

Lemma Qfloor_between (z : Z) (q : Q) :
  inject_Z z <= q -> q < inject_Z (z + 1) -> Qfloor q = z.
Proof.
  intros Hl Hu.
  pose proof (Qfloor_resp_le _ _ Hl) as H1. rewrite Qfloor_Z in H1.
  pose proof (Qfloor_le q) as H2.
  assert (H3 : (Qfloor q < z + 1)%Z) by (rewrite Zlt_Qlt; lra).
  lia.
Qed.

(** Every score of [[84.995, 85)] is reported as 85.0 and classified as
    Tier 2. *)
Lemma borderline_score (s : Q) :
  84.995 <= s -> s < 85 ->
  Py.round s 2 == 85 /\ _determine_investment_tier s = TIER_2.
Proof.
  intros Hl Hu. split.
  - unfold Py.round. change (inject_Z (10 ^ Z.of_nat 2)) with 100.
    assert (Hf : Qfloor (s * 100) = 8499%Z).
    { apply Qfloor_between.
      - change (inject_Z 8499) with 8499. lra.
      - change (inject_Z (8499 + 1)) with 8500. lra. }
    assert (Hr : Py.round_half_even (s * 100) = 8500%Z).
    { unfold Py.round_half_even. rewrite Hf.
      change (inject_Z 8499) with 8499.
      destruct (Qcompare_spec (s * 100 - 8499) (1 # 2)); try reflexivity.
      lra. }
    rewrite Hr. reflexivity.
  - unfold _determine_investment_tier, tier_thresholds. cmp_cases;
      try reflexivity; lra.
Qed.

(** The classifier shared by the two scoring engines has three tiers:
    everything below 70 is Tier 3. *)
Lemma investment_tier_thresholds (s : Q) :
  (85 <= s -> _determine_investment_tier s = TIER_1) /\
  (70 <= s -> s < 85 -> _determine_investment_tier s = TIER_2) /\
  (s < 70 -> _determine_investment_tier s = TIER_3).
Proof.
  unfold _determine_investment_tier, tier_thresholds.
  repeat split; intros; cmp_cases; try reflexivity; lra.
Qed.

(** The regional classifier has four tiers, on the scale of its own
    score. *)
Lemma development_tier_thresholds
    (region : RevolutionaryRegionalSystem.RegionalProfile) :
  let s := RevolutionaryRegionalSystem.development_score region in
  let t := RevolutionaryRegionalSystem.calculate_development_tier region in
  (0.85 <= s -> t = RevolutionaryRegionalSystem.PREMIUM) /\
  (0.70 <= s -> s < 0.85 -> t = RevolutionaryRegionalSystem.ESTABLISHED) /\
  (0.55 <= s -> s < 0.70 -> t = RevolutionaryRegionalSystem.GROWING) /\
  (s < 0.55 -> t = RevolutionaryRegionalSystem.EMERGING).
Proof.
  cbv zeta. unfold RevolutionaryRegionalSystem.calculate_development_tier.
  generalize (RevolutionaryRegionalSystem.development_score region).
  intro s. repeat split; intros; cmp_cases; try reflexivity; lra.
Qed.

(** C3, as stated, fails: a composite score of 50 is below 55 and is
    classified as Tier 3, not as a residual tier distinct from it. *)
Lemma C3_no_residual_tier :
  ~ tier_as_specified _determine_investment_tier 50.
Proof.
  intros (_ & _ & _ & H). apply H.
  - lra.
  - reflexivity.
Qed.

(** C3, amended.  The investment classifier maps a composite score of
    at least 85 to Tier 1, a score in [[70, 85)] to Tier 2 and every
    score below 70 to Tier 3 (so 85.00 is Tier 1, 84.99 and 70.00 are
    Tier 2, 69.99 is Tier 3); it has no tier below Tier 3.  The
    regional-development classifier has four tiers with the lower
    edges 0.85, 0.70 and 0.55 on its own score, and its residual tier
    Emerging differs from Growing. *)
Theorem C3_tier_thresholds
    (s : Q) (region : RevolutionaryRegionalSystem.RegionalProfile) :
  ((85 <= s -> _determine_investment_tier s = TIER_1) /\
   (70 <= s -> s < 85 -> _determine_investment_tier s = TIER_2) /\
   (s < 70 -> _determine_investment_tier s = TIER_3))
  /\ (_determine_investment_tier 85.00 = TIER_1 /\
      _determine_investment_tier 84.99 = TIER_2 /\
      _determine_investment_tier 70.00 = TIER_2 /\
      _determine_investment_tier 69.99 = TIER_3)
  /\ (let d := RevolutionaryRegionalSystem.development_score region in
      let t := RevolutionaryRegionalSystem.calculate_development_tier region in
      (0.85 <= d -> t = RevolutionaryRegionalSystem.PREMIUM) /\
      (0.70 <= d -> d < 0.85 -> t = RevolutionaryRegionalSystem.ESTABLISHED) /\
      (0.55 <= d -> d < 0.70 -> t = RevolutionaryRegionalSystem.GROWING) /\
      (d < 0.55 -> t = RevolutionaryRegionalSystem.EMERGING))
  /\ RevolutionaryRegionalSystem.EMERGING
     <> RevolutionaryRegionalSystem.GROWING.
Proof.
  split; [apply investment_tier_thresholds|].
  split; [repeat split|].
  split; [apply development_tier_thresholds|discriminate].
Qed.

Lemma C3_tier_thresholds_witness :
  _determine_investment_tier 90 = TIER_1
  /\ _determine_investment_tier 75 = TIER_2
  /\ _determine_investment_tier 50 = TIER_3
  /\ RevolutionaryRegionalSystem.calculate_development_tier Inputs.tx_aus
     = RevolutionaryRegionalSystem.PREMIUM.
Proof.
  split; [|split; [|split]].
  - destruct (C3_tier_thresholds 90 Inputs.tx_aus) as ((H & _) & _).
    apply H. lra.
  - destruct (C3_tier_thresholds 75 Inputs.tx_aus) as ((_ & H & _) & _).
    apply H; lra.
  - destruct (C3_tier_thresholds 50 Inputs.tx_aus) as ((_ & _ & H) & _).
    apply H. lra.
  - destruct (C3_tier_thresholds 50 Inputs.tx_aus)
      as (_ & _ & (H & _) & _).
    apply H. vm_compute. discriminate.
Defined.

End Tiers.

(* ================================================================== *)
(** * Monotonicity in the infrastructure score *)
(* ================================================================== *)

Section Monotone.

Lemma enhanced_infrastructure_mono (r : RegionalMetrics) (a b : Q) :
  a <= b ->
  EnhancedInvestmentAlgorithm._calculate_infrastructure_score
    (with_infrastructure_score r a)
  <= EnhancedInvestmentAlgorithm._calculate_infrastructure_score
       (with_infrastructure_score r b).
Proof.
  intro H. unfold EnhancedInvestmentAlgorithm._calculate_infrastructure_score.
  cbn [with_infrastructure_score infrastructure_score].
  cmp_cases; lra.
Qed.

Lemma advanced_infrastructure_mono
    (r : RegionalMetrics) (t : InvestmentAlgorithm.IndustryType) (a b : Q) :
  a <= b ->
  InvestmentAlgorithm._calculate_infrastructure_score
    (with_infrastructure_score r a) t
  <= InvestmentAlgorithm._calculate_infrastructure_score
       (with_infrastructure_score r b) t.
Proof.
  intro H. unfold InvestmentAlgorithm._calculate_infrastructure_score.
  cbn [with_infrastructure_score infrastructure_score].
  destruct t;
    cbn [InvestmentAlgorithm._apply_industry_multiplier
           InvestmentAlgorithm.industry_multipliers
           Py.get String.eqb Ascii.eqb Bool.eqb];
    cmp_cases; lra.
Qed.

(** Only the first entry of the dict reads the infrastructure score. *)
Lemma enhanced_scores_with_infrastructure
    (r : RegionalMetrics) (c : EnhancedInvestmentAlgorithm.CompanyProfile)
    (x : Q) :
  EnhancedInvestmentAlgorithm.base_component_scores
    (with_infrastructure_score r x) c
  = scores12
      (EnhancedInvestmentAlgorithm._calculate_infrastructure_score
         (with_infrastructure_score r x))
      (EnhancedInvestmentAlgorithm._calculate_talent_score r c)
      (EnhancedInvestmentAlgorithm._calculate_cost_efficiency r c)
      (EnhancedInvestmentAlgorithm._calculate_market_access r)
      (EnhancedInvestmentAlgorithm._calculate_regulatory_score r)
      (EnhancedInvestmentAlgorithm._calculate_political_stability r)
      (EnhancedInvestmentAlgorithm._calculate_growth_potential r c)
      (EnhancedInvestmentAlgorithm._calculate_risk_factors r c)
      (EnhancedInvestmentAlgorithm._calculate_digital_readiness r c)
      (EnhancedInvestmentAlgorithm._calculate_sustainability_score r c)
      (EnhancedInvestmentAlgorithm._calculate_innovation_score r c)
      (EnhancedInvestmentAlgorithm._calculate_supply_chain_score r c).
Proof. reflexivity. Qed.

Lemma advanced_scores_with_infrastructure
    (r : RegionalMetrics) (c : InvestmentAlgorithm.CompanyProfile) (x : Q) :
  let t :=
    InvestmentAlgorithm._get_industry_type
      (InvestmentAlgorithm.industry_focus c) in
  InvestmentAlgorithm.component_scores (with_infrastructure_score r x) c
  = scores12
      (InvestmentAlgorithm._calculate_infrastructure_score
         (with_infrastructure_score r x) t)
      (InvestmentAlgorithm._calculate_talent_score r c t)
      (InvestmentAlgorithm._calculate_cost_efficiency r c t)
      (InvestmentAlgorithm._calculate_market_access r t)
      (InvestmentAlgorithm._calculate_regulatory_score r t)
      (InvestmentAlgorithm._calculate_political_stability r)
      (InvestmentAlgorithm._calculate_growth_potential r c)
      (InvestmentAlgorithm._calculate_risk_factors r c)
      (InvestmentAlgorithm._calculate_digital_readiness r c)
      (InvestmentAlgorithm._calculate_sustainability_score r c)
      (InvestmentAlgorithm._calculate_innovation_score r c)
      (InvestmentAlgorithm._calculate_supply_chain_score r c).
Proof. reflexivity. Qed.

(** The unrounded composite score never decreases when the
    infrastructure score grows. *)
Lemma enhanced_composite_mono
    (r : RegionalMetrics) (c : EnhancedInvestmentAlgorithm.CompanyProfile)
    (a b s t : Q) :
  a <= b ->
  weighted_sum
    (EnhancedInvestmentAlgorithm.component_scores
       (with_infrastructure_score r a) c) = Py.Ok s ->
  weighted_sum
    (EnhancedInvestmentAlgorithm.component_scores
       (with_infrastructure_score r b) c) = Py.Ok t ->
  s <= t.
Proof.
  intros Hab. pose proof (enhanced_infrastructure_mono r a b Hab) as Hm.
  unfold EnhancedInvestmentAlgorithm.component_scores.
  rewrite !enhanced_scores_with_infrastructure.
  destruct (enhanced_adjust_cases c) as [H | [H | [H | [H | H]]]];
    rewrite !H, !weighted_sum_12; intros Hs Ht;
    injection Hs as <-; injection Ht as <-; lra.
Qed.

Lemma advanced_composite_mono
    (r : RegionalMetrics) (c : InvestmentAlgorithm.CompanyProfile)
    (a b s t : Q) :
  a <= b ->
  weighted_sum
    (InvestmentAlgorithm.component_scores
       (with_infrastructure_score r a) c) = Py.Ok s ->
  weighted_sum
    (InvestmentAlgorithm.component_scores
       (with_infrastructure_score r b) c) = Py.Ok t ->
  s <= t.
Proof.
  intros Hab.
  pose proof (advanced_infrastructure_mono r
                (InvestmentAlgorithm._get_industry_type
                   (InvestmentAlgorithm.industry_focus c)) a b Hab) as Hm.
  rewrite !advanced_scores_with_infrastructure. cbv zeta.
  rewrite !weighted_sum_12; intros Hs Ht;
    injection Hs as <-; injection Ht as <-; lra.
Qed.

(** C7.  With every other field of the region and the whole company
    profile fixed, the enhanced engine returns a result for an
    infrastructure score of 0.5 and for one of 0.9, and the composite
    score reported for 0.9 is at least the one reported for 0.5.  The
    engine of [investment_algorithm.py] computes a composite score for
    both inputs and returns no result (it raises afterwards, on a call
    of a method that its class does not define): the composite score it
    computes for 0.9 is at least the one it computes for 0.5, also after
    the rounding of its [return] expression. *)
Theorem C7_infrastructure_never_decreases_composite
    (now : string) (r : RegionalMetrics)
    (ce : EnhancedInvestmentAlgorithm.CompanyProfile)
    (ca : InvestmentAlgorithm.CompanyProfile) :
  (exists lo hi,
      EnhancedInvestmentAlgorithm.calculate_investment_score now
        (with_infrastructure_score r 0.5) ce = Py.Ok lo
      /\ EnhancedInvestmentAlgorithm.calculate_investment_score now
           (with_infrastructure_score r 0.9) ce = Py.Ok hi
      /\ EnhancedInvestmentAlgorithm.composite_score lo
         <= EnhancedInvestmentAlgorithm.composite_score hi)
  /\ (exists s t,
         weighted_sum
           (InvestmentAlgorithm.component_scores
              (with_infrastructure_score r 0.5) ca) = Py.Ok s
         /\ weighted_sum
              (InvestmentAlgorithm.component_scores
                 (with_infrastructure_score r 0.9) ca) = Py.Ok t
         /\ s <= t
         /\ Py.round s 2 <= Py.round t 2).
Proof.
  split.
  - destruct (enhanced_calculate_inv now (with_infrastructure_score r 0.5) ce)
      as (s & lo & Hs & Hlo & Hclo & _).
    destruct (enhanced_calculate_inv now (with_infrastructure_score r 0.9) ce)
      as (t & hi & Ht & Hhi & Hchi & _).
    exists lo, hi. repeat split; try assumption.
    rewrite Hclo, Hchi. apply round_mono.
    apply (enhanced_composite_mono r ce 0.5 0.9 s t); try assumption. lra.
  - destruct (advanced_composite_in_range (with_infrastructure_score r 0.5)
                ca) as (s & Hs & _).
    destruct (advanced_composite_in_range (with_infrastructure_score r 0.9)
                ca) as (t & Ht & _).
    assert (Hst : s <= t).
    { apply (advanced_composite_mono r ca 0.5 0.9 s t); try assumption. lra. }
    exists s, t. repeat split; try assumption.
    apply round_mono, Hst.
Qed.

End Monotone.

(* ================================================================== *)
(** * The tier and the reported composite score *)
(* ================================================================== *)

Section TierAndRounding.

Lemma strong_region_valid (g : Q) :
  0 <= g -> g <= 1 -> valid_metrics (Inputs.strong_region g).
Proof.
  intros H0 H1. unfold valid_metrics, unit_interval; cbn.
  repeat split; lra.
Qed.

(** C10.  The tier is computed from the weighted sum before rounding
    while the reported composite score is that sum rounded to two
    decimals.  Every sum in [[84.995, 85)] is rounded to 85.0 and is
    Tier 2, whereas the rounded score 85.0 is itself a Tier 1 score.  The
    enhanced engine has a valid input (sum 84.996) whose result reports
    85.0 together with Tier 2.  [investment_algorithm.py] computes sum
    and tier in the same way and has such an input too; it returns no
    result (it raises afterwards, on a call of a method that its class
    does not define), so for it the statement is about the sum and the
    tier it computes and the rounding of its [return] expression. *)
Theorem C10_tier_from_unrounded_score (now : string) :
  (forall r c,
      exists s res,
        weighted_sum (EnhancedInvestmentAlgorithm.component_scores r c)
        = Py.Ok s
        /\ EnhancedInvestmentAlgorithm.calculate_investment_score now r c
           = Py.Ok res
        /\ EnhancedInvestmentAlgorithm.composite_score res = Py.round s 2
        /\ EnhancedInvestmentAlgorithm.investment_tier res
           = InvestmentTier_value (_determine_investment_tier s))
  /\ (forall s,
         84.995 <= s -> s < 85 ->
         Py.round s 2 == 85
         /\ _determine_investment_tier s = TIER_2
         /\ _determine_investment_tier (Py.round s 2) = TIER_1)
  /\ (exists s res,
         valid_metrics (Inputs.strong_region 0.0021)
         /\ weighted_sum
              (EnhancedInvestmentAlgorithm.component_scores
                 (Inputs.strong_region 0.0021) Inputs.retail_company)
            = Py.Ok s
         /\ s == 84.996
         /\ EnhancedInvestmentAlgorithm.calculate_investment_score now
              (Inputs.strong_region 0.0021) Inputs.retail_company
            = Py.Ok res
         /\ EnhancedInvestmentAlgorithm.composite_score res == 85
         /\ EnhancedInvestmentAlgorithm.investment_tier res
            = "Tier 2 - Strategic Investment"
         /\ InvestmentTier_value
              (_determine_investment_tier
                 (EnhancedInvestmentAlgorithm.composite_score res))
            = "Tier 1 - Premium Investment")
  /\ (exists s,
         valid_metrics (Inputs.strong_region 0.6621)
         /\ weighted_sum
              (InvestmentAlgorithm.component_scores
                 (Inputs.strong_region 0.6621)
                 Inputs.retail_company_advanced)
            = Py.Ok s
         /\ s == 84.996
         /\ Py.round s 2 == 85
         /\ _determine_investment_tier s = TIER_2
         /\ _determine_investment_tier (Py.round s 2) = TIER_1).
Proof.
  split; [|split; [|split]].
  - intros r c.
    destruct (enhanced_calculate_inv now r c)
      as (s & res & Hs & Hres & Hc & Ht & _).
    exists s, res. auto.
  - intros s Hlo Hhi.
    destruct (borderline_score s Hlo Hhi) as [Hr Ht].
    split; [exact Hr|]. split; [exact Ht|].
    apply (investment_tier_thresholds (Py.round s 2)). lra.
  - do 2 eexists. split; [apply strong_region_valid; lra|].
    split; [vm_compute; reflexivity|].
    split; [vm_compute; reflexivity|].
    split; [reflexivity|]. repeat split; vm_compute; reflexivity.
  - eexists. split; [apply strong_region_valid; lra|].
    split; [vm_compute; reflexivity|].
    repeat split; vm_compute; reflexivity.
Qed.

Lemma C10_tier_from_unrounded_score_witness :
  Py.round 84.996 2 == 85
  /\ _determine_investment_tier 84.996 = TIER_2
  /\ _determine_investment_tier (Py.round 84.996 2) = TIER_1.
Proof.
  destruct (C10_tier_from_unrounded_score "") as (_ & Hb & _).
  apply Hb; lra.
Defined.

End TierAndRounding.

(* ================================================================== *)
(** * Categorical values outside the named ones *)
(* ================================================================== *)

Section Categorical.

Lemma eqb_of_neq (s t : string) : s <> t -> (s =? t) = false.
Proof. apply String.eqb_neq. Qed.

(** An industry string outside [industry_mapping] is Manufacturing. *)
Lemma advanced_unknown_industry (industry_focus : string) :
  Py.contains InvestmentAlgorithm.industry_mapping (Py.lower industry_focus)
  = false ->
  InvestmentAlgorithm._get_industry_type industry_focus
  = InvestmentAlgorithm.MANUFACTURING.
Proof.
  unfold InvestmentAlgorithm._get_industry_type, Py.contains.
  destruct (Py.get _ _); [discriminate | reflexivity].
Qed.

(** The four industries without a table entry leave every component
    unchanged. *)
Lemma advanced_no_table_entry
    (t : InvestmentAlgorithm.IndustryType) (base_score : Q)
    (component : string) :
  In t [ InvestmentAlgorithm.HEALTHCARE; InvestmentAlgorithm.ENERGY;
         InvestmentAlgorithm.RETAIL; InvestmentAlgorithm.REAL_ESTATE ] ->
  InvestmentAlgorithm._apply_industry_multiplier base_score component t
  = base_score.
Proof.
  cbn [In]. intros [<- | [<- | [<- | [<- | []]]]]; reflexivity.
Qed.

(** An industry string outside the table of the enhanced engine leaves
    the twelve scores as they were computed. *)
Lemma enhanced_unknown_industry
    (r : RegionalMetrics) (c : EnhancedInvestmentAlgorithm.CompanyProfile) :
  Py.contains EnhancedInvestmentAlgorithm.industry_multipliers
    (Py.lower (EnhancedInvestmentAlgorithm.industry_focus c)) = false ->
  EnhancedInvestmentAlgorithm.component_scores r c
  = EnhancedInvestmentAlgorithm.base_component_scores r c.
Proof.
  unfold EnhancedInvestmentAlgorithm.component_scores,
    EnhancedInvestmentAlgorithm.apply_industry_adjustments, Py.contains.
  destruct (Py.get _ _); [discriminate | reflexivity].
Qed.

(** C8, as stated, fails: in [investment_algorithm.py] the industry
    "electronics" (the one of the file's own example) is in no lookup
    table, is mapped to Manufacturing, and multiplies the infrastructure
    component by 1.2: a base of 50 becomes 60, and the infrastructure
    score of a region with infrastructure 0.5 is 60 instead of the 50 of
    an industry without adjustment. *)
Lemma C8_unknown_industry_is_adjusted :
  Py.contains InvestmentAlgorithm.industry_mapping (Py.lower "electronics")
  = false
  /\ InvestmentAlgorithm._get_industry_type "electronics"
     = InvestmentAlgorithm.MANUFACTURING
  /\ InvestmentAlgorithm._apply_industry_multiplier 50 "infrastructure"
       (InvestmentAlgorithm._get_industry_type "electronics") == 60
  /\ ~ InvestmentAlgorithm._apply_industry_multiplier 50 "infrastructure"
         (InvestmentAlgorithm._get_industry_type "electronics") == 50
  /\ InvestmentAlgorithm._calculate_infrastructure_score
       (with_infrastructure_score Inputs.unstable_region 0.5)
       (InvestmentAlgorithm._get_industry_type "electronics") == 60
  /\ InvestmentAlgorithm._calculate_infrastructure_score
       (with_infrastructure_score Inputs.unstable_region 0.5)
       InvestmentAlgorithm.HEALTHCARE == 50.
Proof.
  repeat split; try (vm_compute; reflexivity).
  vm_compute. discriminate.
Qed.

(** C8, amended.  An industry string outside the mapping of
    [investment_algorithm.py] is treated as Manufacturing; an industry
    without a multiplier table entry (Healthcare, Energy, Retail, Real
    Estate) leaves every component unchanged; in the enhanced engine an
    industry string outside the multiplier table leaves the twelve
    scores unadjusted.  A risk tolerance other than low and high and an
    investment size other than large and small leave the risk and the
    cost-efficiency component as for "medium" in both engines, and the
    enhanced cost savings of an investment size outside its table are
    those of "medium".  The enhanced engine returns a result for every
    input. *)
Theorem C8_unknown_categorical_values
    (now : string) (r : RegionalMetrics)
    (ca ca' : InvestmentAlgorithm.CompanyProfile)
    (ce ce' : EnhancedInvestmentAlgorithm.CompanyProfile) :
  (Py.contains InvestmentAlgorithm.industry_mapping
     (Py.lower (InvestmentAlgorithm.industry_focus ca)) = false ->
   InvestmentAlgorithm._get_industry_type
     (InvestmentAlgorithm.industry_focus ca)
   = InvestmentAlgorithm.MANUFACTURING)
  /\ (forall t base_score component,
         In t [ InvestmentAlgorithm.HEALTHCARE; InvestmentAlgorithm.ENERGY;
                InvestmentAlgorithm.RETAIL; InvestmentAlgorithm.REAL_ESTATE ]
         -> InvestmentAlgorithm._apply_industry_multiplier
              base_score component t = base_score)
  /\ (Py.contains EnhancedInvestmentAlgorithm.industry_multipliers
        (Py.lower (EnhancedInvestmentAlgorithm.industry_focus ce)) = false ->
      EnhancedInvestmentAlgorithm.component_scores r ce
      = EnhancedInvestmentAlgorithm.base_component_scores r ce)
  /\ (InvestmentAlgorithm.risk_tolerance ca <> "low" ->
      InvestmentAlgorithm.risk_tolerance ca <> "high" ->
      InvestmentAlgorithm.risk_tolerance ca' = "medium" ->
      InvestmentAlgorithm._calculate_risk_factors r ca
      = InvestmentAlgorithm._calculate_risk_factors r ca')
  /\ (EnhancedInvestmentAlgorithm.risk_tolerance ce <> "low" ->
      EnhancedInvestmentAlgorithm.risk_tolerance ce <> "high" ->
      EnhancedInvestmentAlgorithm.risk_tolerance ce' = "medium" ->
      EnhancedInvestmentAlgorithm._calculate_risk_factors r ce
      = EnhancedInvestmentAlgorithm._calculate_risk_factors r ce')
  /\ (InvestmentAlgorithm.investment_size ca <> "large" ->
      InvestmentAlgorithm.investment_size ca <> "small" ->
      InvestmentAlgorithm.investment_size ca' = "medium" ->
      forall t,
        InvestmentAlgorithm._calculate_cost_efficiency r ca t
        = InvestmentAlgorithm._calculate_cost_efficiency r ca' t)
  /\ (EnhancedInvestmentAlgorithm.investment_size ce <> "large" ->
      EnhancedInvestmentAlgorithm.investment_size ce <> "small" ->
      EnhancedInvestmentAlgorithm.investment_size ce' = "medium" ->
      EnhancedInvestmentAlgorithm._calculate_cost_efficiency r ce
      = EnhancedInvestmentAlgorithm._calculate_cost_efficiency r ce')
  /\ (Py.contains EnhancedInvestmentAlgorithm.size_multipliers
        (EnhancedInvestmentAlgorithm.investment_size ce) = false ->
      EnhancedInvestmentAlgorithm.investment_size ce' = "medium" ->
      EnhancedInvestmentAlgorithm._calculate_cost_savings r ce
      = EnhancedInvestmentAlgorithm._calculate_cost_savings r ce')
  /\ (exists res,
         EnhancedInvestmentAlgorithm.calculate_investment_score now r ce
         = Py.Ok res).
Proof.
  split; [apply advanced_unknown_industry|].
  split; [intros; apply advanced_no_table_entry; assumption|].
  split; [apply enhanced_unknown_industry|].
  split; [|split; [|split; [|split; [|split]]]].
  - intros Hl Hh Hm. unfold InvestmentAlgorithm._calculate_risk_factors.
    rewrite Hm, (eqb_of_neq _ _ Hl), (eqb_of_neq _ _ Hh). reflexivity.
  - intros Hl Hh Hm.
    unfold EnhancedInvestmentAlgorithm._calculate_risk_factors.
    rewrite Hm, (eqb_of_neq _ _ Hl), (eqb_of_neq _ _ Hh). reflexivity.
  - intros Hl Hs Hm t. unfold InvestmentAlgorithm._calculate_cost_efficiency.
    rewrite Hm, (eqb_of_neq _ _ Hl), (eqb_of_neq _ _ Hs). reflexivity.
  - intros Hl Hs Hm.
    unfold EnhancedInvestmentAlgorithm._calculate_cost_efficiency.
    rewrite Hm, (eqb_of_neq _ _ Hl), (eqb_of_neq _ _ Hs). reflexivity.
  - intros Hu Hm.
    unfold EnhancedInvestmentAlgorithm._calculate_cost_savings.
    rewrite Hm. unfold Py.contains in Hu.
    destruct (Py.get EnhancedInvestmentAlgorithm.size_multipliers
                (EnhancedInvestmentAlgorithm.investment_size ce));
      [discriminate | reflexivity].
  - destruct (enhanced_calculate_inv now r ce) as (s & res & _ & Hres & _).
    exists res. exact Hres.
Qed.

Lemma C8_unknown_categorical_values_witness :
  InvestmentAlgorithm._get_industry_type "electronics"
  = InvestmentAlgorithm.MANUFACTURING
  /\ InvestmentAlgorithm._apply_industry_multiplier 50 "infrastructure"
       InvestmentAlgorithm.HEALTHCARE = 50
  /\ EnhancedInvestmentAlgorithm.component_scores
       Inputs.unstable_region Inputs.odd_company
     = EnhancedInvestmentAlgorithm.base_component_scores
         Inputs.unstable_region Inputs.odd_company
  /\ InvestmentAlgorithm._calculate_risk_factors
       Inputs.unstable_region Inputs.odd_company_advanced
     = InvestmentAlgorithm._calculate_risk_factors
         Inputs.unstable_region Inputs.retail_company_advanced
  /\ EnhancedInvestmentAlgorithm._calculate_risk_factors
       Inputs.unstable_region Inputs.odd_company
     = EnhancedInvestmentAlgorithm._calculate_risk_factors
         Inputs.unstable_region Inputs.retail_company
  /\ InvestmentAlgorithm._calculate_cost_efficiency
       Inputs.unstable_region Inputs.odd_company_advanced
       InvestmentAlgorithm.MANUFACTURING
     = InvestmentAlgorithm._calculate_cost_efficiency
         Inputs.unstable_region Inputs.retail_company_advanced
         InvestmentAlgorithm.MANUFACTURING
  /\ EnhancedInvestmentAlgorithm._calculate_cost_efficiency
       Inputs.unstable_region Inputs.odd_company
     = EnhancedInvestmentAlgorithm._calculate_cost_efficiency
         Inputs.unstable_region Inputs.retail_company
  /\ EnhancedInvestmentAlgorithm._calculate_cost_savings
       Inputs.unstable_region Inputs.odd_company
     = EnhancedInvestmentAlgorithm._calculate_cost_savings
         Inputs.unstable_region Inputs.retail_company.
Proof.
  destruct (C8_unknown_categorical_values "" Inputs.unstable_region
              Inputs.odd_company_advanced Inputs.retail_company_advanced
              Inputs.odd_company Inputs.retail_company)
    as (H1 & H2 & H3 & H4 & H5 & H6 & H7 & H8 & _).
  split; [apply H1; reflexivity|].
  split; [apply H2; cbn; auto|].
  split; [apply H3; reflexivity|].
  split; [apply H4; [discriminate | discriminate | reflexivity]|].
  split; [apply H5; [discriminate | discriminate | reflexivity]|].
  split; [apply H6; [discriminate | discriminate | reflexivity]|].
  split; [apply H7; [discriminate | discriminate | reflexivity]|].
  apply H8; reflexivity.
Defined.

End Categorical.

(* ================================================================== *)
(** * Break-even time *)
(* ================================================================== *)

Section BreakEven.

Lemma int_nonneg (x : Q) : 0 <= x -> (0 <= Py.int x)%Z.
Proof.
  unfold Py.int, Qle. cbn. intro H. apply Z.quot_pos; lia.
Qed.

Lemma int_ge_1 (x : Q) : 1 <= x -> (1 <= Py.int x)%Z.
Proof.
  unfold Py.int, Qle. cbn. intro H. apply Z.quot_le_lower_bound; lia.
Qed.

Lemma int_small (x : Q) : 0 <= x -> x < 1 -> Py.int x = 0%Z.
Proof.
  unfold Py.int, Qle, Qlt. cbn. intros H0 H1. apply Z.quot_small. lia.
Qed.

(** The enhanced engine guards its division: a ROI of at most 0 gives
    "N/A", a positive ROI gives a number of months that is never
    negative and is at least 1 up to a ROI of 1200 percent. *)
Lemma enhanced_break_even_guard
    (roi : Q) (c : EnhancedInvestmentAlgorithm.CompanyProfile) :
  (roi <= 0 ->
   EnhancedInvestmentAlgorithm._calculate_break_even_time roi c
   = Py.Ok "N/A")
  /\ (0 < roi ->
      exists months,
        EnhancedInvestmentAlgorithm._calculate_break_even_time roi c
        = Py.Ok (Py.str months ++ " months")
        /\ (0 <= months)%Z
        /\ (roi <= 1200 -> (1 <= months)%Z)).
Proof.
  unfold EnhancedInvestmentAlgorithm._calculate_break_even_time, Py.leb.
  split; intro H.
  - apply Qle_bool_iff in H. rewrite H. reflexivity.
  - assert (Hpos : 0 < roi / 100).
    { apply Qlt_shift_div_l; lra. }
    destruct (Qle_bool roi 0) eqn:E.
    + apply Qle_bool_iff in E. lra.
    + unfold Py.truediv.
      destruct (Qeq_bool (roi / 100) 0) eqn:E0.
      * apply Qeq_bool_iff in E0. lra.
      * cbn [Py.bind]. eexists. split; [reflexivity|]. split.
        -- apply int_nonneg. apply Qle_shift_div_l; lra.
        -- intro Hle. apply int_ge_1. apply Qle_shift_div_l; [exact Hpos|].
           assert (X : 1 * (roi / 100) == roi / 100) by ring.
           rewrite X. apply Qle_shift_div_r; lra.
Qed.

(** In the enhanced engine the projected ROI of a valid input stays
    below 1200 percent whenever the composite score does not exceed
    200, so its break-even time is "N/A" or at least one month. *)
Lemma enhanced_adjusted_roi_bound
    (s : Q) (c : EnhancedInvestmentAlgorithm.CompanyProfile) :
  0 <= s -> s <= 200 ->
  EnhancedInvestmentAlgorithm.adjusted_roi s c <= 1200.
Proof.
  intros H0 H1. unfold EnhancedInvestmentAlgorithm.adjusted_roi.
  assert (X : 8.0 * (s / 100) * 1.5 == s * (12 # 100)) by field.
  set (a := 8.0 * (s / 100) * 1.5) in *.
  destruct (_ =? "technology"); [|destruct (_ =? "manufacturing")];
    (destruct (_ =? "large"); [|destruct (_ =? "small")]); lra.
Qed.

(** C4.  Every ROI-based break-even computation is claimed to return
    "N/A" for a ROI of at most 0 and a positive time otherwise, without a
    division by zero.  The bucket function of [investment_algorithm.py]
    has no guard: a ROI of -5 or of 0 gives "5+ years".  In
    [revolutionary_regional_system.py] the division is unguarded: for an
    entity without preferences and a region whose match score rounds to
    0 the ROI is 0 and the division raises [ZeroDivisionError], also
    through [find_best_matches]; for a region whose match score is
    negative the ROI is negative and the break-even is -1156 months. *)
Theorem C4_break_even_without_guard
    (stamp now : string) (c : InvestmentAlgorithm.CompanyProfile) :
  InvestmentAlgorithm._calculate_break_even_time (-5) c = "5+ years"
  /\ InvestmentAlgorithm._calculate_break_even_time 0 c = "5+ years"
  /\ RevolutionaryRegionalSystem.calculate_match_score
       Inputs.newcomer Inputs.stalled_region == 0
  /\ RevolutionaryRegionalSystem.generate_match_recommendations stamp now
       Inputs.newcomer Inputs.stalled_region
     = Py.Raise Py.ZeroDivisionError
  /\ RevolutionaryRegionalSystem.find_best_matches stamp now
       (Inputs.registry_of Inputs.stalled_region) "COMP-NEW" 5
     = Py.Raise Py.ZeroDivisionError
  /\ (exists m,
         RevolutionaryRegionalSystem.generate_match_recommendations stamp now
           Inputs.newcomer Inputs.crisis_region = Py.Ok m
         /\ RevolutionaryRegionalSystem.projected_roi
              (RevolutionaryRegionalSystem.roi_projection m) < 0
         /\ RevolutionaryRegionalSystem.break_even_months
              (RevolutionaryRegionalSystem.roi_projection m) = (-1156)%Z).
Proof.
  split; [reflexivity|]. split; [reflexivity|].
  split; [vm_compute; reflexivity|].
  split; [reflexivity|]. split; [reflexivity|].
  eexists. split; [reflexivity|]. split; vm_compute; reflexivity.
Qed.

End BreakEven.

(* ================================================================== *)
(** * Sorting, truncation and the matching engines *)
(* ================================================================== *)

Section SortFacts.

Context {A : Type} (key : A -> Q).

Lemma insert_desc_perm (x : A) (l : list A) :
  Permutation (x :: l) (Py.insert_desc key x l).
Proof.
  induction l as [|y ys IH]; cbn.
  - reflexivity.
  - destruct (Py.gtb (key y) (key x)).
    + rewrite perm_swap. apply perm_skip, IH.
    + reflexivity.
Qed.

Lemma sort_reverse_perm (l : list A) : Permutation l (Py.sort_reverse key l).
Proof.
  induction l as [|x xs IH]; cbn.
  - reflexivity.
  - rewrite <- insert_desc_perm. apply perm_skip, IH.
Qed.

Lemma insert_desc_hd (x a : A) (l : list A) :
  key x <= key a ->
  HdRel (fun u v => key v <= key u) a l ->
  HdRel (fun u v => key v <= key u) a (Py.insert_desc key x l).
Proof.
  intros Hx Hl. destruct l as [|y ys]; cbn.
  - constructor. exact Hx.
  - destruct (Py.gtb (key y) (key x)); constructor.
    + inversion Hl; assumption.
    + exact Hx.
Qed.

Lemma insert_desc_sorted (x : A) (l : list A) :
  sorted_desc key l -> sorted_desc key (Py.insert_desc key x l).
Proof.
  unfold sorted_desc. induction 1 as [|y ys Hs IH Hhd]; cbn.
  - repeat constructor.
  - unfold Py.gtb. destruct (Py.ltb (key x) (key y)) eqn:E.
    + apply ltb_true in E. constructor; [exact IH|].
      apply insert_desc_hd; [lra | exact Hhd].
    + apply ltb_false in E. constructor.
      * constructor; assumption.
      * constructor. exact E.
Qed.

Lemma sort_reverse_sorted (l : list A) :
  sorted_desc key (Py.sort_reverse key l).
Proof.
  induction l as [|x xs IH]; cbn.
  - constructor.
  - apply insert_desc_sorted, IH.
Qed.

(** Stability: the sort keeps, for every key value, the elements with
    that key in their original order. *)
Lemma insert_desc_with_key (v : Q) (x : A) (l : list A) :
  with_key key v (Py.insert_desc key x l) = with_key key v (x :: l).
Proof.
  unfold with_key. induction l as [|y ys IH]; cbn.
  - reflexivity.
  - unfold Py.gtb. destruct (Py.ltb (key x) (key y)) eqn:E.
    + apply ltb_true in E. cbn. rewrite IH. cbn.
      destruct (Qeq_bool (key x) v) eqn:Ex; [|reflexivity].
      destruct (Qeq_bool (key y) v) eqn:Ey; [|reflexivity].
      apply Qeq_bool_iff in Ex. apply Qeq_bool_iff in Ey. lra.
    + reflexivity.
Qed.

Lemma sort_reverse_with_key (v : Q) (l : list A) :
  with_key key v (Py.sort_reverse key l) = with_key key v l.
Proof.
  induction l as [|x xs IH].
  - reflexivity.
  - change (Py.sort_reverse key (x :: xs))
      with (Py.insert_desc key x (Py.sort_reverse key xs)).
    rewrite insert_desc_with_key. unfold with_key in *. cbn [filter].
    rewrite IH. reflexivity.
Qed.

Lemma firstn_sorted (n : nat) (l : list A) :
  sorted_desc key l -> sorted_desc key (firstn n l).
Proof.
  unfold sorted_desc. intro H. revert n.
  induction H as [|y ys Hs IH Hhd]; intros [|n]; cbn; try constructor.
  - apply IH.
  - destruct Hhd as [|z zs Hz]; destruct n; cbn; constructor. exact Hz.
Qed.

Lemma firstn_with_key (v : Q) (n : nat) (l : list A) :
  exists j, with_key key v (firstn n l) = firstn j (with_key key v l).
Proof.
  unfold with_key. revert n. induction l as [|x xs IH]; intro n.
  - exists 0%nat. destruct n; reflexivity.
  - destruct n as [|n]; cbn.
    + exists 0%nat. reflexivity.
    + destruct (IH n) as [j Hj]. rewrite Hj.
      destruct (Qeq_bool (key x) v).
      * exists (S j). reflexivity.
      * exists j. reflexivity.
Qed.

Lemma slice_to_nonneg (n : Z) (l : list A) :
  (0 <= n)%Z -> Py.slice_to l n = firstn (Z.to_nat n) l.
Proof.
  intro H. unfold Py.slice_to.
  destruct (0 <=? n)%Z eqn:E; [reflexivity|]. lia.
Qed.

(** [xs[:n]] is a prefix of [xs] for every [n]. *)
Lemma slice_to_firstn (n : Z) (l : list A) :
  exists k, Py.slice_to l n = firstn k l.
Proof.
  unfold Py.slice_to. destruct (0 <=? n)%Z; eexists; reflexivity.
Qed.

Lemma slice_to_nil (n : Z) : Py.slice_to (@nil A) n = [].
Proof.
  unfold Py.slice_to. destruct (0 <=? n)%Z; cbn.
  - apply firstn_nil.
  - reflexivity.
Qed.

(** Sorting in reverse and cutting at a limit that is not negative. *)
Lemma sort_then_slice (limit : Z) (l : list A) :
  (0 <= limit)%Z ->
  let result := Py.slice_to (Py.sort_reverse key l) limit in
  sorted_desc key result
  /\ (Z.of_nat (length result) <= limit)%Z
  /\ ties_in_order key l result.
Proof.
  intro H. cbv zeta. rewrite slice_to_nonneg by exact H.
  split; [|split].
  - apply firstn_sorted, sort_reverse_sorted.
  - pose proof (firstn_le_length (Z.to_nat limit) (Py.sort_reverse key l)).
    lia.
  - intro v. destruct (firstn_with_key v (Z.to_nat limit)
                         (Py.sort_reverse key l)) as [j Hj].
    exists j. rewrite Hj, sort_reverse_with_key. reflexivity.
Qed.

End SortFacts.

Section Matching.

Lemma Forall_firstn_prefix {A : Type} (P : A -> Prop) (n : nat) (l : list A) :
  Forall P l -> Forall P (firstn n l).
Proof.
  intro H. revert n. induction H as [|x xs Hx _ IH]; intros [|n]; cbn;
    constructor; auto.
Qed.

(** ** revolutionary_system.py *)

(** [calculate_match] is capped at 1 from above. *)
Lemma calculate_match_le_one
    (self : RevolutionarySystem.System) (entity_id region_id : string) :
  RevolutionarySystem.calculate_match self entity_id region_id <= 1.
Proof.
  unfold RevolutionarySystem.calculate_match.
  destruct (Py.get (RevolutionarySystem.entities self) entity_id);
    [destruct (Py.get (RevolutionarySystem.regions self) region_id)|];
    try apply min_one_le; lra.
Qed.

(** An entity id outside the registry scores 0.0 with every region. *)
Lemma calculate_match_unknown_entity
    (self : RevolutionarySystem.System) (entity_id region_id : string) :
  Py.get (RevolutionarySystem.entities self) entity_id = None ->
  RevolutionarySystem.calculate_match self entity_id region_id = 0.0.
Proof.
  intro H. unfold RevolutionarySystem.calculate_match. rewrite H.
  reflexivity.
Qed.

Lemma collect_matches_unknown_entity
    (self : RevolutionarySystem.System) (entity_id : string)
    (rest : list (string * RevolutionarySystem.Region)) :
  Py.get (RevolutionarySystem.entities self) entity_id = None ->
  RevolutionarySystem.collect_matches self entity_id rest = [].
Proof.
  intro H. induction rest as [|[region_id region] rest IH]; cbn.
  - reflexivity.
  - rewrite (calculate_match_unknown_entity self entity_id region_id H).
    exact IH.
Qed.

(** Every match that [find_matches] reports has a score in [[0,1]]. *)
Lemma collect_matches_scores
    (self : RevolutionarySystem.System) (entity_id : string)
    (rest : list (string * RevolutionarySystem.Region)) :
  Forall (fun m => 0 <= RevolutionarySystem.match_score m
                   /\ RevolutionarySystem.match_score m <= 1)
    (RevolutionarySystem.collect_matches self entity_id rest).
Proof.
  induction rest as [|[region_id region] rest IH]; cbn.
  - constructor.
  - pose proof (calculate_match_le_one self entity_id region_id) as Hle.
    unfold Py.gtb at 1.
    destruct (Py.ltb 0.3
                (RevolutionarySystem.calculate_match self entity_id region_id))
      eqn:E; [|exact IH].
    apply ltb_true in E. constructor; [|exact IH].
    cbn [RevolutionarySystem.match_score].
    apply (round_bounds 3 0 1); [change (inject_Z 0) with 0; lra | exact Hle].
Qed.

Lemma find_matches_scores
    (self : RevolutionarySystem.System) (entity_id : string) (limit : Z) :
  Forall (fun m => 0 <= RevolutionarySystem.match_score m
                   /\ RevolutionarySystem.match_score m <= 1)
    (RevolutionarySystem.find_matches self entity_id limit).
Proof.
  unfold RevolutionarySystem.find_matches.
  destruct (slice_to_firstn limit
              (Py.sort_reverse RevolutionarySystem.match_score
                 (RevolutionarySystem.collect_matches self entity_id
                    (RevolutionarySystem.regions self)))) as [k ->].
  apply Forall_firstn_prefix.
  eapply Permutation_Forall; [apply sort_reverse_perm|].
  apply collect_matches_scores.
Qed.

(** ** revolutionary_regional_system.py *)

(** [calculate_match_score] has at most three decimals. *)
Lemma calculate_match_score_rounded
    (entity : RevolutionaryRegionalSystem.EntityProfile)
    (region : RevolutionaryRegionalSystem.RegionalProfile) :
  Py.round (RevolutionaryRegionalSystem.calculate_match_score entity region) 3
  == RevolutionaryRegionalSystem.calculate_match_score entity region.
Proof.
  unfold RevolutionaryRegionalSystem.calculate_match_score.
  unfold Py.round at 2 3. apply round_exact.
Qed.

(** C5.  The match score is claimed to lie in [[0,1]] for every entity
    and region.  [calculate_match_score] of
    [revolutionary_regional_system.py] rounds to three decimals but does
    not clamp: for the sample entity COMP-TECH and the Austin sample
    region with a growth rate of 25 the score is 1.026, and for an
    entity without preferences and a region with unemployment 30 and
    growth -30 it is -0.083. *)
Theorem C5_match_score_outside_unit_interval :
  RevolutionaryRegionalSystem.calculate_match_score
    Inputs.comp_tech Inputs.boom_region == 1.026
  /\ 1 < RevolutionaryRegionalSystem.calculate_match_score
           Inputs.comp_tech Inputs.boom_region
  /\ RevolutionaryRegionalSystem.calculate_match_score
       Inputs.newcomer Inputs.crisis_region == -0.083
  /\ RevolutionaryRegionalSystem.calculate_match_score
       Inputs.newcomer Inputs.crisis_region < 0.
Proof. repeat split; vm_compute; reflexivity. Qed.

(** C6, as stated, fails for a negative limit: on the seeded registry
    [find_matches("COMP-TECH", -1)] returns two matches, and 2 is not at
    most -1. *)
Lemma C6_negative_limit :
  length (RevolutionarySystem.find_matches RevolutionarySystem.init
            "COMP-TECH" (-1)) = 2%nat
  /\ ~ (Z.of_nat
          (length (RevolutionarySystem.find_matches RevolutionarySystem.init
                     "COMP-TECH" (-1))) <= -1)%Z.
Proof.
  split; [vm_compute; reflexivity|].
  vm_compute. intro H. apply H. reflexivity.
Qed.

(** C6, amended.  For every registry, entity id and limit that is not
    negative, the list returned by [find_matches] is in non-increasing
    order of [match_score], its length is at most the limit, and matches
    with equal scores keep the iteration order of the registry.  The
    same holds for every list that [find_best_matches] returns. *)
Theorem C6_find_matches_sorted_and_bounded
    (stamp now : string)
    (vsys : RevolutionarySystem.System)
    (rsys : RevolutionaryRegionalSystem.System)
    (entity_id : string) (limit : Z) :
  (0 <= limit)%Z ->
  (let result := RevolutionarySystem.find_matches vsys entity_id limit in
   sorted_desc RevolutionarySystem.match_score result
   /\ (Z.of_nat (length result) <= limit)%Z
   /\ ties_in_order RevolutionarySystem.match_score
        (RevolutionarySystem.collect_matches vsys entity_id
           (RevolutionarySystem.regions vsys))
        result)
  /\ (forall result,
         RevolutionaryRegionalSystem.find_best_matches stamp now rsys
           entity_id limit = Py.Ok result ->
         sorted_desc RevolutionaryRegionalSystem.match_score result
         /\ (Z.of_nat (length result) <= limit)%Z
         /\ (forall entity,
                Py.get (RevolutionaryRegionalSystem.entities rsys) entity_id
                = Some entity ->
                exists scored,
                  Py.mapM
                    (RevolutionaryRegionalSystem.generate_match_recommendations
                       stamp now entity)
                    (map snd (RevolutionaryRegionalSystem.regions rsys))
                  = Py.Ok scored
                  /\ ties_in_order RevolutionaryRegionalSystem.match_score
                       scored result)).
Proof.
  intro Hlimit. split.
  - apply sort_then_slice, Hlimit.
  - intros result. unfold RevolutionaryRegionalSystem.find_best_matches.
    destruct (Py.get (RevolutionaryRegionalSystem.entities rsys) entity_id)
      as [entity|].
    + destruct (Py.mapM _ _) as [scored|e] eqn:Hscored; cbn [Py.bind];
        [|discriminate].
      intro H. injection H as <-.
      destruct (sort_then_slice RevolutionaryRegionalSystem.match_score
                  limit scored Hlimit) as (Hs & Hl & Ht).
      split; [exact Hs|]. split; [exact Hl|].
      intros entity' E. injection E as <-.
      exists scored. split; [exact Hscored | exact Ht].
    + intro H. injection H as <-.
      split; [constructor|]. split; [cbn; lia|].
      intros entity' E. discriminate.
Qed.

Lemma C6_find_matches_sorted_and_bounded_witness :
  (sorted_desc RevolutionarySystem.match_score
     (RevolutionarySystem.find_matches RevolutionarySystem.init "GOV-TX" 2)
   /\ (Z.of_nat
         (length
            (RevolutionarySystem.find_matches RevolutionarySystem.init
               "GOV-TX" 2)) <= 2)%Z)
  /\ (exists result,
         RevolutionaryRegionalSystem.find_best_matches "" ""
           (RevolutionaryRegionalSystem.init "") "COMP-TECH" 2 = Py.Ok result
         /\ sorted_desc RevolutionaryRegionalSystem.match_score result
         /\ (Z.of_nat (length result) <= 2)%Z).
Proof.
  assert (H2 : (0 <= 2)%Z) by lia.
  destruct (C6_find_matches_sorted_and_bounded "" ""
              RevolutionarySystem.init (RevolutionaryRegionalSystem.init "")
              "GOV-TX" 2 H2) as ((Hs & Hl & _) & _).
  destruct (C6_find_matches_sorted_and_bounded "" ""
              RevolutionarySystem.init (RevolutionaryRegionalSystem.init "")
              "COMP-TECH" 2 H2) as (_ & Hr).
  split; [split; assumption|].
  eexists. split; [reflexivity|].
  destruct (Hr _ eq_refl) as (Hs' & Hl' & _). split; assumption.
Defined.

(** C9, as stated, fails: an entity id outside the registry gets the
    empty list, which is also what a registered entity gets from a
    registry without regions, or from the seeded registry with a limit
    of 0; the two outcomes cannot be told apart. *)
Lemma C9_unknown_id_indistinguishable :
  Py.get (RevolutionaryRegionalSystem.entities Inputs.regional_without_regions)
    "NO-SUCH" = None
  /\ Py.get
       (RevolutionaryRegionalSystem.entities Inputs.regional_without_regions)
       "COMP-TECH" <> None
  /\ RevolutionaryRegionalSystem.find_best_matches "" ""
       Inputs.regional_without_regions "NO-SUCH" 5
     = RevolutionaryRegionalSystem.find_best_matches "" ""
         Inputs.regional_without_regions "COMP-TECH" 5
  /\ RevolutionaryRegionalSystem.find_best_matches "" ""
       (RevolutionaryRegionalSystem.init "") "NO-SUCH" 0
     = RevolutionaryRegionalSystem.find_best_matches "" ""
         (RevolutionaryRegionalSystem.init "") "COMP-TECH" 0
  /\ Py.get (RevolutionarySystem.entities Inputs.system_without_regions)
       "NO-SUCH" = None
  /\ Py.get (RevolutionarySystem.entities Inputs.system_without_regions)
       "COMP-TECH" <> None
  /\ RevolutionarySystem.find_matches Inputs.system_without_regions
       "NO-SUCH" 3
     = RevolutionarySystem.find_matches Inputs.system_without_regions
         "COMP-TECH" 3.
Proof.
  repeat split; try reflexivity; vm_compute; discriminate.
Qed.

(** C9, amended.  For every entity id outside the registry,
    [find_best_matches] returns the empty list without raising, and
    [find_matches] returns the empty list, every [calculate_match] for
    that id being 0.0; the empty list is also a possible outcome of a
    successful search. *)
Theorem C9_unknown_entity_gives_empty_list
    (stamp now : string)
    (rsys : RevolutionaryRegionalSystem.System)
    (vsys : RevolutionarySystem.System)
    (entity_id : string) (limit : Z) :
  (Py.get (RevolutionaryRegionalSystem.entities rsys) entity_id = None ->
   RevolutionaryRegionalSystem.find_best_matches stamp now rsys entity_id
     limit = Py.Ok [])
  /\ (Py.get (RevolutionarySystem.entities vsys) entity_id = None ->
      RevolutionarySystem.find_matches vsys entity_id limit = []
      /\ forall region_id,
           RevolutionarySystem.calculate_match vsys entity_id region_id
           = 0.0).
Proof.
  split; intro H.
  - unfold RevolutionaryRegionalSystem.find_best_matches. rewrite H.
    reflexivity.
  - split.
    + unfold RevolutionarySystem.find_matches.
      rewrite (collect_matches_unknown_entity vsys entity_id _ H).
      apply slice_to_nil.
    + intro region_id. apply calculate_match_unknown_entity, H.
Qed.

Lemma C9_unknown_entity_gives_empty_list_witness :
  RevolutionaryRegionalSystem.find_best_matches "" ""
    (RevolutionaryRegionalSystem.init "") "NO-SUCH" 5 = Py.Ok []
  /\ RevolutionarySystem.find_matches RevolutionarySystem.init "NO-SUCH" 3
     = [].
Proof.
  destruct (C9_unknown_entity_gives_empty_list "" ""
              (RevolutionaryRegionalSystem.init "") RevolutionarySystem.init
              "NO-SUCH" 5) as (Hr & _).
  destruct (C9_unknown_entity_gives_empty_list "" ""
              (RevolutionaryRegionalSystem.init "") RevolutionarySystem.init
              "NO-SUCH" 3) as (_ & Hv).
  split.
  - apply Hr. reflexivity.
  - apply Hv. reflexivity.
Defined.

End Matching.

(* ================================================================== *)
(** * Further properties of the two scoring engines *)
(* ================================================================== *)

(** Splits a [Forall] over a dict literal into one hypothesis per
    entry. *)
Ltac split_scores H :=
  repeat match type of H with
         | Forall _ (_ :: _) =>
             let H1 := fresh "Hs" in
             apply Forall_cons_iff in H; destruct H as [H1 H];
             cbn [snd] in H1
         end.

Section CompositeScore.

Lemma int_lower (k : Z) (x : Q) :
  (0 <= k)%Z -> inject_Z k <= x -> (k <= Py.int x)%Z.
Proof.
  unfold Py.int, Qle. cbn. intros Hk H.
  apply Z.quot_le_lower_bound; lia.
Qed.

Lemma int_upper (k : Z) (x : Q) :
  0 <= x -> x < inject_Z k -> (Py.int x < k)%Z.
Proof.
  unfold Py.int, Qle, Qlt. cbn. intros H0 H.
  apply Z.quot_lt_upper_bound; lia.
Qed.

Lemma enhanced_risk_factors_floor
    (r : RegionalMetrics) (c : EnhancedInvestmentAlgorithm.CompanyProfile) :
  49.5 <= EnhancedInvestmentAlgorithm._calculate_risk_factors r c.
Proof.
  unfold EnhancedInvestmentAlgorithm._calculate_risk_factors.
  destruct (_ =? "low"); [|destruct (_ =? "high")]; cmp_cases; lra.
Qed.

Lemma advanced_risk_factors_floor
    (r : RegionalMetrics) (c : InvestmentAlgorithm.CompanyProfile) :
  32 <= InvestmentAlgorithm._calculate_risk_factors r c.
Proof.
  unfold InvestmentAlgorithm._calculate_risk_factors.
  destruct (_ =? "low"); [|destruct (_ =? "high")]; cmp_cases; lra.
Qed.

Lemma enhanced_composite_range
    (r : RegionalMetrics) (c : EnhancedInvestmentAlgorithm.CompanyProfile) :
  exists s,
    weighted_sum (EnhancedInvestmentAlgorithm.component_scores r c) = Py.Ok s
    /\ 3.96 <= s /\ s <= 110.5.
Proof.
  pose proof (enhanced_base_scores_in_range r c) as H.
  pose proof (enhanced_risk_factors_floor r c) as Hr.
  unfold EnhancedInvestmentAlgorithm.component_scores,
    EnhancedInvestmentAlgorithm.base_component_scores in *.
  fold_scores12.
  unfold scores_in_range in H. split_scores H.
  destruct (enhanced_adjust_cases c) as [E | [E | [E | [E | E]]]];
    rewrite E, weighted_sum_12; eexists; (split; [reflexivity|]); lra.
Qed.



Lemma weighted_sum_from_known (scores : list (string * Q)) :
  forallb (fun kv => Py.contains weights (fst kv)) scores = true ->
  forall acc, exists s, weighted_sum_from acc scores = Py.Ok s.
Proof.
  induction scores as [|[k v] rest IH]; intros H acc; cbn in *.
  - eexists; reflexivity.
  - apply andb_true_iff in H. destruct H as [Hk Hrest].
    unfold Py.contains in Hk. unfold Py.getitem.
    destruct (Py.get weights k); [|discriminate].
    cbn [Py.bind]. apply IH, Hrest.
Qed.

Lemma weighted_sum_from_unknown
    (pre post : list (string * Q)) (k : string) (v : Q) :
  forallb (fun kv => Py.contains weights (fst kv)) pre = true ->
  Py.contains weights k = false ->
  forall acc,
    weighted_sum_from acc (pre ++ (k, v) :: post) = Py.Raise (Py.KeyError k).
Proof.
  induction pre as [|[k' v'] rest IH]; intros H Hk acc.
  - cbn [app weighted_sum_from]. unfold Py.contains in Hk. unfold Py.getitem.
    destruct (Py.get weights k); [discriminate | reflexivity].
  - cbn [app weighted_sum_from]. cbn [forallb fst] in H.
    apply andb_true_iff in H. destruct H as [Hk' Hrest].
    unfold Py.contains in Hk'. unfold Py.getitem.
    destruct (Py.get weights k'); [|discriminate].
    cbn [Py.bind]. apply IH; assumption.
Qed.

(** X2.  The weighted sum looks every component up in the weight table
    ([self.weights[component]]): a dict all of whose keys are weighted
    components gives a number, and the first key that is not in the
    weight table raises [KeyError] with that key, whatever follows it. *)
Theorem X2_weighted_sum_key_error
    (pre post : list (string * Q)) (k : string) (v : Q) :
  forallb (fun kv => Py.contains weights (fst kv)) pre = true ->
  (exists s, weighted_sum pre = Py.Ok s)
  /\ (Py.contains weights k = false ->
      weighted_sum (pre ++ (k, v) :: post) = Py.Raise (Py.KeyError k)).
Proof.
  intro H. split.
  - apply weighted_sum_from_known, H.
  - intro Hk. apply weighted_sum_from_unknown; assumption.
Qed.

Lemma X2_weighted_sum_key_error_witness :
  (exists s, weighted_sum [("talent", 80); ("innovation", 60)] = Py.Ok s)
  /\ weighted_sum
       ([("talent", 80); ("innovation", 60)]
        ++ ("tax", 50) :: [("supply_chain", 70)])
     = Py.Raise (Py.KeyError "tax").
Proof.
  destruct (X2_weighted_sum_key_error
              [("talent", 80); ("innovation", 60)] [("supply_chain", 70)]
              "tax" 50 eq_refl) as [H1 H2].
  split; [exact H1 | apply H2; reflexivity].
Defined.

(** X3.  For every region and company the enhanced engine returns a
    result whose unrounded composite score lies between 3.96 and 110.5:
    the risk component never falls below 49.5, and the industry
    multipliers, applied after the clamp to 0-100, can lift the sum above
    100 by at most 10.5 (the logistics table). *)
Theorem X3_enhanced_composite_range
    (now : string) (r : RegionalMetrics)
    (c : EnhancedInvestmentAlgorithm.CompanyProfile) :
  exists s res,
    weighted_sum (EnhancedInvestmentAlgorithm.component_scores r c) = Py.Ok s
    /\ EnhancedInvestmentAlgorithm.calculate_investment_score now r c
       = Py.Ok res
    /\ EnhancedInvestmentAlgorithm.composite_score res = Py.round s 2
    /\ 3.96 <= s /\ s <= 110.5
    /\ 3.96 <= EnhancedInvestmentAlgorithm.composite_score res
    /\ EnhancedInvestmentAlgorithm.composite_score res <= 110.5.
Proof.
  destruct (enhanced_calculate_inv now r c) as (s & res & Hs & Hres & Hc & _).
  destruct (enhanced_composite_range r c) as (s' & Hs' & Hlo & Hhi).
  rewrite Hs in Hs'. injection Hs' as <-.
  exists s, res. repeat (split; [assumption|]).
  rewrite Hc. split.
  - assert (E : 3.96 == inject_Z 396 / inject_Z (10 ^ Z.of_nat 2))
      by reflexivity.
    rewrite E at 1. rewrite <- (round_exact 2 396).
    apply round_mono. rewrite <- E. exact Hlo.
  - assert (E : 110.5 == inject_Z 11050 / inject_Z (10 ^ Z.of_nat 2))
      by reflexivity.
    rewrite E at 1. rewrite <- (round_exact 2 11050).
    apply round_mono. rewrite <- E. exact Hhi.
Qed.

Lemma string_length_append (s t : string) :
  String.length (s ++ t) = (String.length s + String.length t)%nat.
Proof. induction s as [|a s IH]; cbn; [reflexivity | now rewrite IH]. Qed.

(** A positive ROI above [1200 / b] and of at most [1200 / a] breaks
    even after at least [a] and less than [b] months. *)
Lemma enhanced_break_even_between
    (roi : Q) (c : EnhancedInvestmentAlgorithm.CompanyProfile) (a b : Z) :
  0 < roi -> (0 <= a)%Z ->
  inject_Z a * roi <= 1200 -> 1200 < inject_Z b * roi ->
  exists months,
    EnhancedInvestmentAlgorithm._calculate_break_even_time roi c
    = Py.Ok (Py.str months ++ " months")
    /\ (a <= months < b)%Z.
Proof.
  intros Hroi Ha Hlo Hhi.
  unfold EnhancedInvestmentAlgorithm._calculate_break_even_time, Py.leb.
  assert (Hpos : 0 < roi / 100) by (apply Qlt_shift_div_l; lra).
  destruct (Qle_bool roi 0) eqn:E.
  { apply Qle_bool_iff in E. lra. }
  unfold Py.truediv.
  destruct (Qeq_bool (roi / 100) 0) eqn:E0.
  { apply Qeq_bool_iff in E0. lra. }
  cbn [Py.bind]. eexists. split; [reflexivity|]. split.
  - apply int_lower; [exact Ha|].
    apply Qle_shift_div_l; [exact Hpos|].
    assert (X : inject_Z a * (roi / 100) == inject_Z a * roi / 100)
      by (field).
    rewrite X. apply Qle_shift_div_r; lra.
  - apply int_upper.
    + apply Qle_shift_div_l; lra.
    + apply Qlt_shift_div_r; [exact Hpos|].
      assert (X : inject_Z b * (roi / 100) == inject_Z b * roi / 100)
        by (field).
      rewrite X. apply Qlt_shift_div_l; lra.
Qed.

Lemma enhanced_adjusted_roi_range
    (s : Q) (c : EnhancedInvestmentAlgorithm.CompanyProfile) :
  3.96 <= s -> s <= 110.5 ->
  0.42768 <= EnhancedInvestmentAlgorithm.adjusted_roi s c
  /\ EnhancedInvestmentAlgorithm.adjusted_roi s c <= 20.6856.
Proof.
  intros H0 H1. unfold EnhancedInvestmentAlgorithm.adjusted_roi.
  assert (X : 8.0 * (s / 100) * 1.5 == s * (12 # 100)) by field.
  set (a := 8.0 * (s / 100) * 1.5) in *.
  destruct (_ =? "technology"); [|destruct (_ =? "manufacturing")];
    (destruct (_ =? "large"); [|destruct (_ =? "small")]); lra.
Qed.

(** X4.  In the enhanced engine the "N/A" branch of the break-even
    computation is never taken from [calculate_investment_score]: the
    composite score is at least 3.96, so the adjusted ROI is positive, and
    every result reports its break-even time as a number of months
    between 58 and 2805. *)
Theorem X4_enhanced_break_even_in_months
    (now : string) (r : RegionalMetrics)
    (c : EnhancedInvestmentAlgorithm.CompanyProfile) :
  exists res months,
    EnhancedInvestmentAlgorithm.calculate_investment_score now r c
    = Py.Ok res
    /\ EnhancedInvestmentAlgorithm.break_even_months
         (EnhancedInvestmentAlgorithm.roi_projection res)
       = Py.str months ++ " months"
    /\ (58 <= months <= 2805)%Z
    /\ EnhancedInvestmentAlgorithm.break_even_months
         (EnhancedInvestmentAlgorithm.roi_projection res) <> "N/A".
Proof.
  destruct (enhanced_composite_range r c) as (s & Hs & Hlo & Hhi).
  destruct (enhanced_scores_ok r c) as (s' & recs & Hs' & Hrecs).
  rewrite Hs in Hs'. injection Hs' as <-.
  destruct (enhanced_adjusted_roi_range s c Hlo Hhi) as [Hrlo Hrhi].
  destruct (enhanced_break_even_between
              (EnhancedInvestmentAlgorithm.adjusted_roi s c) c 58 2806)
    as (months & Hm & Hrange).
  { lra. }
  { lia. }
  { change (inject_Z 58) with 58. lra. }
  { change (inject_Z 2806) with 2806. lra. }
  unfold EnhancedInvestmentAlgorithm.calculate_investment_score,
    EnhancedInvestmentAlgorithm._calculate_roi_projection.
  cbv zeta. rewrite Hs. cbn [Py.bind]. rewrite Hm. cbn [Py.bind].
  rewrite Hrecs. cbn [Py.bind].
  eexists. exists months. split; [reflexivity|].
  cbn [EnhancedInvestmentAlgorithm.roi_projection
         EnhancedInvestmentAlgorithm.break_even_months].
  split; [reflexivity|]. split; [lia|].
  intro Heq. apply (f_equal String.length) in Heq.
  rewrite string_length_append in Heq. cbn in Heq. lia.
Qed.

Lemma get_update {V : Type}
    (d : list (string * V)) (k k' : string) (f : V -> V) :
  Py.get (Py.update d k f) k'
  = if k' =? k then option_map f (Py.get d k') else Py.get d k'.
Proof.
  induction d as [|[k0 v] d IH]; cbn [Py.update Py.get].
  - destruct (k' =? k); reflexivity.
  - destruct (k =? k0) eqn:E0.
    + apply String.eqb_eq in E0. subst k0. cbn [Py.get].
      destruct (k' =? k); reflexivity.
    + cbn [Py.get]. destruct (k' =? k0) eqn:E1.
      * apply String.eqb_eq in E1. subst k0.
        rewrite String.eqb_sym in E0. rewrite E0. reflexivity.
      * exact IH.
Qed.

Lemma update_keys {V : Type}
    (d : list (string * V)) (k : string) (f : V -> V) :
  map fst (Py.update d k f) = map fst d.
Proof.
  induction d as [|[k0 v] d IH]; cbn [Py.update map]; [reflexivity|].
  destruct (k =? k0); cbn [map fst]; [reflexivity | now rewrite IH].
Qed.

Lemma get_absent {V : Type} (d : list (string * V)) (k : string) :
  ~ In k (map fst d) -> Py.get d k = None.
Proof.
  induction d as [|[k0 v] d IH]; cbn [map fst In Py.get]; intro H.
  - reflexivity.
  - destruct (k =? k0) eqn:E.
    + apply String.eqb_eq in E. subst. exfalso. apply H. now left.
    + apply IH. intro Hin. apply H. now right.
Qed.

Lemma apply_multipliers_keys (table scores : list (string * Q)) :
  map fst (EnhancedInvestmentAlgorithm.apply_multipliers table scores)
  = map fst scores.
Proof.
  unfold EnhancedInvestmentAlgorithm.apply_multipliers.
  revert scores. induction table as [|[c m] t IH]; intro scores.
  - reflexivity.
  - cbn [fold_left fst snd]. rewrite IH.
    destruct (Py.contains scores c); [apply update_keys | reflexivity].
Qed.

(** X5.  The industry adjustment loop ([component_scores[component] *=
    multiplier] for every entry of the industry's table) keeps the keys
    of the dict and their order, and, for a table without repeated
    components, multiplies exactly the scores of the components that the
    table names, each one once, by its multiplier. *)
Theorem X5_apply_multipliers_lookup
    (table scores : list (string * Q)) (k : string) :
  map fst (EnhancedInvestmentAlgorithm.apply_multipliers table scores)
  = map fst scores
  /\ (NoDup (map fst table) ->
      Py.get (EnhancedInvestmentAlgorithm.apply_multipliers table scores) k
      = match Py.get scores k with
        | None => None
        | Some v =>
            Some (match Py.get table k with
                  | Some m => v * m
                  | None => v
                  end)
        end).
Proof.
  split; [apply apply_multipliers_keys|].
  unfold EnhancedInvestmentAlgorithm.apply_multipliers.
  revert scores. induction table as [|[c m] t IH]; intros scores Hnd.
  - cbn. destruct (Py.get scores k); reflexivity.
  - cbn [fold_left fst snd].
    set (scores' := if Py.contains scores c
                    then Py.update scores c (fun v => v * m) else scores).
    cbn [map fst] in Hnd. inversion Hnd as [|c' t' Hnotin Hnd']; subst.
    rewrite (IH scores' Hnd'). cbn [Py.get].
    assert (Hs' : Py.get scores' k
                  = if k =? c then option_map (fun v => v * m)
                                     (Py.get scores k)
                    else Py.get scores k).
    { unfold scores', Py.contains.
      destruct (Py.get scores c) eqn:Ec.
      - apply get_update.
      - destruct (k =? c) eqn:E; [|reflexivity].
        apply String.eqb_eq in E. subst. rewrite Ec. reflexivity. }
    rewrite Hs'. destruct (k =? c) eqn:E.
    + apply String.eqb_eq in E. subst k.
      rewrite (get_absent t c Hnotin).
      destruct (Py.get scores c); reflexivity.
    + reflexivity.
Qed.

Lemma X5_apply_multipliers_lookup_witness :
  Py.get
    (EnhancedInvestmentAlgorithm.apply_multipliers
       [("talent", 1.3); ("innovation", 1.5)]
       [("infrastructure", 80); ("talent", 70); ("innovation", 60)])
    "innovation"
  = Some (60 * 1.5).
Proof.
  destruct (X5_apply_multipliers_lookup
              [("talent", 1.3); ("innovation", 1.5)]
              [("infrastructure", 80); ("talent", 70); ("innovation", 60)]
              "innovation") as [_ H].
  apply H. repeat constructor; cbn; intuition discriminate.
Defined.

(** X6.  Every result of the enhanced engine carries exactly the twelve
    component scores, under the keys of the weight table and in its
    order: the industry adjustment neither adds nor drops nor moves a
    key. *)
Theorem X6_result_has_the_twelve_components
    (now : string) (r : RegionalMetrics)
    (c : EnhancedInvestmentAlgorithm.CompanyProfile) :
  exists res,
    EnhancedInvestmentAlgorithm.calculate_investment_score now r c
    = Py.Ok res
    /\ map fst (EnhancedInvestmentAlgorithm.result_component_scores res)
       = map fst weights.
Proof.
  destruct (enhanced_calculate_inv now r c)
    as (s & res & _ & Hres & _ & _ & Hscores).
  exists res. split; [exact Hres|]. rewrite Hscores.
  unfold round_scores. rewrite map_map. cbn [fst].
  unfold EnhancedInvestmentAlgorithm.component_scores,
    EnhancedInvestmentAlgorithm.apply_industry_adjustments.
  destruct (Py.get _ _) as [table|]; [|reflexivity].
  rewrite apply_multipliers_keys. reflexivity.
Qed.

(** X7.  In [investment_algorithm.py] four of the twelve components are
    placeholders that always score 50 and the risk component never falls
    below 32, so for every region and company the composite score that
    the engine computes (the weighted sum of its component scores) lies
    between 11.56 and 91. *)
Theorem X7_advanced_composite_range
    (r : RegionalMetrics) (c : InvestmentAlgorithm.CompanyProfile) :
  exists s,
    weighted_sum (InvestmentAlgorithm.component_scores r c) = Py.Ok s
    /\ 11.56 <= s /\ s <= 91.
Proof.
  pose proof (advanced_component_scores_in_range r c) as H.
  pose proof (advanced_risk_factors_floor r c) as Hr.
  unfold InvestmentAlgorithm.component_scores in *. cbv zeta in *.
  fold_scores12. rewrite weighted_sum_12.
  eexists. split; [reflexivity|].
  unfold scores_in_range, scores12 in H. split_scores H.
  unfold InvestmentAlgorithm._calculate_digital_readiness,
    InvestmentAlgorithm._calculate_sustainability_score,
    InvestmentAlgorithm._calculate_innovation_score,
    InvestmentAlgorithm._calculate_supply_chain_score in *.
  lra.
Qed.

(** X8.  The ROI projection of [investment_algorithm.py] never decreases
    when the composite score increases, for the same region and
    company. *)
Theorem X8_advanced_roi_monotone
    (r : RegionalMetrics) (c : InvestmentAlgorithm.CompanyProfile) (s t : Q) :
  s <= t ->
  InvestmentAlgorithm.projected_roi
    (InvestmentAlgorithm._calculate_roi_projection s r c)
  <= InvestmentAlgorithm.projected_roi
       (InvestmentAlgorithm._calculate_roi_projection t r c).
Proof.
  intro H. unfold InvestmentAlgorithm._calculate_roi_projection.
  cbn [InvestmentAlgorithm.projected_roi]. apply round_mono.
  destruct (_ =? "large"); [|destruct (_ =? "small")];
    destruct (_ =? "long-term"); cmp_cases; lra.
Qed.

Lemma X8_advanced_roi_monotone_witness :
  InvestmentAlgorithm.projected_roi
    (InvestmentAlgorithm._calculate_roi_projection 60
       Inputs.unstable_region Inputs.electronics_company)
  <= InvestmentAlgorithm.projected_roi
       (InvestmentAlgorithm._calculate_roi_projection 90
          Inputs.unstable_region Inputs.electronics_company).
Proof.
  apply X8_advanced_roi_monotone. vm_compute. discriminate.
Defined.

(** X9.  Tier and confidence level are read off the same composite score
    with different comparisons.  In [investment_algorithm.py] the tier
    uses [>=] and the confidence uses [>]: a score is Tier 1 without
    "Very High" confidence exactly when it equals 85, and Tier 2 without
    "High" confidence exactly when it equals 70.  In the enhanced engine
    "Very High" confidence implies Tier 1, and Tier 3 is reported exactly
    with a confidence of "Moderate" or "Low". *)
Theorem X9_tier_and_confidence (s : Q) :
  ((_determine_investment_tier s = TIER_1
    /\ InvestmentAlgorithm._calculate_confidence_level s
       <> "Very High (95%)") <-> s == 85)
  /\ ((_determine_investment_tier s = TIER_2
       /\ InvestmentAlgorithm._calculate_confidence_level s
          <> "High (85%)") <-> s == 70)
  /\ (EnhancedInvestmentAlgorithm._calculate_confidence_level s
      = "Very High (95%)" -> _determine_investment_tier s = TIER_1)
  /\ (_determine_investment_tier s = TIER_3
      <-> (EnhancedInvestmentAlgorithm._calculate_confidence_level s
           = "Moderate (65%)"
           \/ EnhancedInvestmentAlgorithm._calculate_confidence_level s
              = "Low (55%)")).
Proof.
  unfold _determine_investment_tier, tier_thresholds,
    InvestmentAlgorithm._calculate_confidence_level,
    EnhancedInvestmentAlgorithm._calculate_confidence_level.
  split; [|split; [|split]].
  - split.
    + intros [Ht Hc]. revert Ht Hc.
      cmp_cases; intros; try discriminate; try congruence; lra.
    + intro E. split; cmp_cases; try reflexivity; try discriminate; lra.
  - split.
    + intros [Ht Hc]. revert Ht Hc.
      cmp_cases; intros; try discriminate; try congruence; lra.
    + intro E. split; cmp_cases; try reflexivity; try discriminate; lra.
  - cmp_cases; intros; try discriminate; try reflexivity; lra.
  - split.
    + cmp_cases; intros; try discriminate; auto; lra.
    + cmp_cases; intros [Hc | Hc]; try discriminate; try reflexivity; lra.
Qed.

Lemma X9_tier_and_confidence_witness :
  (_determine_investment_tier 85 = TIER_1
   /\ InvestmentAlgorithm._calculate_confidence_level 85
      <> "Very High (95%)")
  /\ (_determine_investment_tier 70 = TIER_2
      /\ InvestmentAlgorithm._calculate_confidence_level 70 <> "High (85%)")
  /\ _determine_investment_tier 95 = TIER_1.
Proof.
  destruct (X9_tier_and_confidence 85) as [[_ H1] _].
  destruct (X9_tier_and_confidence 70) as [_ [[_ H2] _]].
  destruct (X9_tier_and_confidence 95) as [_ [_ [H3 _]]].
  split; [apply H1; reflexivity|].
  split; [apply H2; reflexivity|].
  apply H3. reflexivity.
Defined.

(** X10.  For a region whose indicators lie in [[0,1]] the cost savings
    of [investment_algorithm.py] are never negative: the savings
    percentage lies between 0 and 95, the annual savings between 0 and
    95000 (millions), and the five-year savings are at least the annual
    ones. *)
Theorem X10_advanced_cost_savings_bounds
    (r : RegionalMetrics) (c : InvestmentAlgorithm.CompanyProfile) :
  valid_metrics r ->
  let savings := InvestmentAlgorithm._calculate_cost_savings r c in
  0 <= InvestmentAlgorithm.savings_percentage savings
  /\ InvestmentAlgorithm.savings_percentage savings <= 95
  /\ 0 <= InvestmentAlgorithm.annual_savings_millions savings
  /\ InvestmentAlgorithm.annual_savings_millions savings <= 95000
  /\ InvestmentAlgorithm.annual_savings_millions savings
     <= InvestmentAlgorithm.five_year_savings savings.
Proof.
  unfold valid_metrics, unit_interval.
  intros (_ & [Ht0 Ht1] & [Hc0 Hc1] & [Hx0 Hx1] & _).
  unfold InvestmentAlgorithm._calculate_cost_savings.
  cbv zeta.
  cbn [InvestmentAlgorithm.savings_percentage
         InvestmentAlgorithm.annual_savings_millions
         InvestmentAlgorithm.five_year_savings].
  set (p := (1 - cost_of_living r) * 40 + tax_rate r * 25
            + (1 - talent_availability r) * 30).
  assert (Hp : 0 <= p /\ p <= 95) by (unfold p; lra).
  set (m := if _ =? "enterprise" then 1000
            else if _ =? "large" then 100
            else if _ =? "medium" then 10 else 1).
  assert (Hm : 0 <= p * m /\ p * m <= 95000).
  { unfold m. destruct (_ =? "enterprise");
      [|destruct (_ =? "large"); [|destruct (_ =? "medium")]]; lra. }
  split; [apply (round_bounds 1 0 95 p); apply Hp|].
  split; [apply (round_bounds 1 0 95 p); apply Hp|].
  split; [apply (round_bounds 1 0 95000 (p * m)); apply Hm|].
  split; [apply (round_bounds 1 0 95000 (p * m)); apply Hm|].
  apply round_mono. lra.
Qed.

Lemma X10_advanced_cost_savings_bounds_witness :
  let savings :=
    InvestmentAlgorithm._calculate_cost_savings
      EnhancedInvestmentAlgorithm.sample_regional_data
      Inputs.electronics_company in
  0 <= InvestmentAlgorithm.savings_percentage savings
  /\ InvestmentAlgorithm.savings_percentage savings <= 95
  /\ 0 <= InvestmentAlgorithm.annual_savings_millions savings
  /\ InvestmentAlgorithm.annual_savings_millions savings <= 95000
  /\ InvestmentAlgorithm.annual_savings_millions savings
     <= InvestmentAlgorithm.five_year_savings savings.
Proof.
  apply X10_advanced_cost_savings_bounds.
  unfold valid_metrics, unit_interval; cbn; repeat split; lra.
Defined.

(** X11.  For a region whose indicators lie in [[0,1]] the enhanced
    engine reports annual savings between 0 and 15,000,000 and its three
    percentages between 0 and 100, whatever the investment size. *)
Theorem X11_enhanced_cost_savings_bounds
    (r : RegionalMetrics) (c : EnhancedInvestmentAlgorithm.CompanyProfile) :
  valid_metrics r ->
  let savings := EnhancedInvestmentAlgorithm._calculate_cost_savings r c in
  0 <= EnhancedInvestmentAlgorithm.annual_savings savings
  /\ EnhancedInvestmentAlgorithm.annual_savings savings <= 15000000
  /\ 0 <= EnhancedInvestmentAlgorithm.cost_efficiency_score savings
  /\ EnhancedInvestmentAlgorithm.cost_efficiency_score savings <= 100
  /\ 0 <= EnhancedInvestmentAlgorithm.tax_advantage savings
  /\ EnhancedInvestmentAlgorithm.tax_advantage savings <= 100
  /\ 0 <= EnhancedInvestmentAlgorithm.operational_efficiency savings
  /\ EnhancedInvestmentAlgorithm.operational_efficiency savings <= 100.
Proof.
  unfold valid_metrics, unit_interval.
  intros ([Hi0 Hi1] & _ & [Hc0 Hc1] & [Hx0 Hx1] & _).
  unfold EnhancedInvestmentAlgorithm._calculate_cost_savings.
  cbv zeta.
  cbn [EnhancedInvestmentAlgorithm.annual_savings
         EnhancedInvestmentAlgorithm.cost_efficiency_score
         EnhancedInvestmentAlgorithm.tax_advantage
         EnhancedInvestmentAlgorithm.operational_efficiency].
  set (u := 1 - cost_of_living r). set (v := 1 - tax_rate r).
  assert (Hu : 0 <= u /\ u <= 1) by (unfold u; lra).
  assert (Hv : 0 <= v /\ v <= 1) by (unfold v; lra).
  assert (Huv : 0 <= u * v /\ u * v <= 1).
  { split; [apply Qmult_le_0_compat; lra|].
    assert (X : u * v <= 1 * v) by (apply Qmult_le_compat_r; lra). lra. }
  set (m := match Py.get EnhancedInvestmentAlgorithm.size_multipliers _ with
            | Some m => m
            | None => 1.0
            end).
  assert (Hm : m == 0.5 \/ m == 1 \/ m == 2 \/ m == 5).
  { unfold m, EnhancedInvestmentAlgorithm.size_multipliers, Py.get.
    destruct (_ =? "small"); [left; reflexivity|].
    destruct (_ =? "medium"); [right; left; reflexivity|].
    destruct (_ =? "large"); [right; right; left; reflexivity|].
    destruct (_ =? "enterprise");
      [right; right; right; reflexivity | right; left; reflexivity]. }
  assert (E : 1000000 * (u * 2) * (v * 1.5) * m == 3000000 * (u * v) * m)
    by ring.
  assert (Ht : 0 <= 1000000 * (u * 2) * (v * 1.5) * m
               /\ 1000000 * (u * 2) * (v * 1.5) * m <= 15000000).
  { rewrite E. set (w := u * v) in *.
    destruct Hm as [Hm | [Hm | [Hm | Hm]]]; rewrite Hm; lra. }
  split; [apply (round_bounds 0 0 15000000 _); apply Ht|].
  split; [apply (round_bounds 0 0 15000000 _); apply Ht|].
  split; [apply round_0_100; lra|].
  split; [apply round_0_100; lra|].
  split; [apply round_0_100; lra|].
  split; [apply round_0_100; lra|].
  split; [apply round_0_100; lra|].
  apply round_0_100; lra.
Qed.

Lemma X11_enhanced_cost_savings_bounds_witness :
  let savings :=
    EnhancedInvestmentAlgorithm._calculate_cost_savings
      EnhancedInvestmentAlgorithm.sample_regional_data
      EnhancedInvestmentAlgorithm.sample_company_profile in
  0 <= EnhancedInvestmentAlgorithm.annual_savings savings
  /\ EnhancedInvestmentAlgorithm.annual_savings savings <= 15000000
  /\ 0 <= EnhancedInvestmentAlgorithm.cost_efficiency_score savings
  /\ EnhancedInvestmentAlgorithm.cost_efficiency_score savings <= 100
  /\ 0 <= EnhancedInvestmentAlgorithm.tax_advantage savings
  /\ EnhancedInvestmentAlgorithm.tax_advantage savings <= 100
  /\ 0 <= EnhancedInvestmentAlgorithm.operational_efficiency savings
  /\ EnhancedInvestmentAlgorithm.operational_efficiency savings <= 100.
Proof.
  apply X11_enhanced_cost_savings_bounds.
  unfold valid_metrics, unit_interval; cbn; repeat split; lra.
Defined.

(** X29.  [calculate_investment_score] of [investment_algorithm.py]
    returns no result: for every region and company it computes the
    composite score (no component is missing from the weight table) and
    then raises [AttributeError] for [_generate_recommendations], the
    first of three methods that it calls and its class does not
    define. *)
Theorem X29_advanced_engine_raises
    (Insights : Type) (now : string)
    (r : RegionalMetrics) (c : InvestmentAlgorithm.CompanyProfile) :
  (exists s,
      weighted_sum (InvestmentAlgorithm.component_scores r c) = Py.Ok s)
  /\ InvestmentAlgorithm.calculate_investment_score Insights now r c
     = Py.Raise (Py.AttributeError "_generate_recommendations").
Proof.
  split.
  - destruct (advanced_composite_in_range r c) as (s & Hs & _).
    exists s. exact Hs.
  - apply advanced_calculate_raises.
Qed.

End CompositeScore.

(* ================================================================== *)
(** * Risk factors, mitigation strategies and recommendations *)
(* ================================================================== *)

Section RiskText.

Lemma prefix_append (a s : string) :
  String.prefix a s = true -> exists rest, s = a ++ rest.
Proof.
  revert s. induction a as [|x a IH]; intros s H.
  - exists s. reflexivity.
  - destruct s as [|y s]; cbn [String.prefix] in H; [discriminate|].
    destruct (ascii_dec x y) as [->|]; [|discriminate].
    destruct (IH s H) as [rest ->]. exists rest. reflexivity.
Qed.

Lemma str_in_cons (needle : string) (a : ascii) (hay : string) :
  Py.str_in needle (String a hay)
  = if String.prefix needle (String a hay) then true
    else Py.str_in needle hay.
Proof. reflexivity. Qed.

(** A string that contains "geopolitical" contains "political". *)
Lemma geopolitical_is_political (s : string) :
  Py.str_in "geopolitical" s = true -> Py.str_in "political" s = true.
Proof.
  induction s as [|a s IH]; [discriminate|].
  rewrite !str_in_cons.
  destruct (String.prefix "geopolitical" (String a s)) eqn:E.
  - intros _. apply prefix_append in E. destruct E as [rest E].
    cbn in E. injection E as -> ->. destruct rest; reflexivity.
  - intro H. rewrite (IH H).
    destruct (String.prefix "political" (String a s)); reflexivity.
Qed.

(** X12.  Both engines report one mitigation strategy for every
    threshold check that the region triggers, and none for the sentinel
    factor that stands for "no check triggered". *)
Theorem X12_one_strategy_per_triggered_check
    (r : RegionalMetrics)
    (ca : InvestmentAlgorithm.CompanyProfile)
    (ce : EnhancedInvestmentAlgorithm.CompanyProfile) :
  length (InvestmentAlgorithm.mitigation_strategies
            (InvestmentAlgorithm._generate_risk_assessment r ca))
  = length (RiskChecks.advanced_triggered r)
  /\ length (EnhancedInvestmentAlgorithm.mitigation_strategies
               (EnhancedInvestmentAlgorithm._generate_risk_assessment r ce))
     = length (RiskChecks.enhanced_triggered r).
Proof.
  split.
  - unfold InvestmentAlgorithm._generate_risk_assessment.
    rewrite advanced_risk_state_last.
    cbn [InvestmentAlgorithm.mitigation_strategies].
    unfold RiskChecks.advanced_triggered, InvestmentAlgorithm.checks.
    cbn [filter InvestmentAlgorithm.triggers]. unfold Py.gtb.
    repeat match goal with
           | |- context [Py.ltb ?a ?b] => destruct (Py.ltb a b)
           end; reflexivity.
  - unfold EnhancedInvestmentAlgorithm._generate_risk_assessment.
    rewrite enhanced_risk_state_last.
    cbn [EnhancedInvestmentAlgorithm.mitigation_strategies].
    unfold RiskChecks.enhanced_triggered, EnhancedInvestmentAlgorithm.checks.
    cbn [filter EnhancedInvestmentAlgorithm.triggers]. unfold Py.gtb.
    repeat match goal with
           | |- context [Py.ltb ?a ?b] => destruct (Py.ltb a b)
           end; reflexivity.
Qed.

(** X13.  The enhanced engine never suggests "Establish local
    partnerships": the branch for "geopolitical" comes after the branch
    for "political", and every factor that contains "geopolitical"
    contains "political".  The factor "Geopolitical risks" therefore gets
    the strategy of political instability. *)
Theorem X13_geopolitical_branch_is_dead (factors : list string) :
  ~ In "Establish local partnerships"
      (EnhancedInvestmentAlgorithm._generate_mitigation_strategies factors)
  /\ EnhancedInvestmentAlgorithm._generate_mitigation_strategies
       ("Geopolitical risks" :: factors)
     = "Diversify across multiple regions"
       :: EnhancedInvestmentAlgorithm._generate_mitigation_strategies factors.
Proof.
  split; [|reflexivity].
  induction factors as [|factor rest IH]; [intros []|].
  cbn [EnhancedInvestmentAlgorithm._generate_mitigation_strategies].
  destruct (Py.str_in "inflation" (Py.lower factor)).
  { intros [H | H]; [discriminate | exact (IH H)]. }
  destruct (Py.str_in "currency" (Py.lower factor)).
  { intros [H | H]; [discriminate | exact (IH H)]. }
  destruct (Py.str_in "political" (Py.lower factor)) eqn:Ep.
  { intros [H | H]; [discriminate | exact (IH H)]. }
  destruct (Py.str_in "geopolitical" (Py.lower factor)) eqn:Eg.
  { apply geopolitical_is_political in Eg. congruence. }
  exact IH.
Qed.

(** X14.  The recommendations of the enhanced engine read five
    components of the dict: they are returned exactly when all five keys
    are present, a missing "infrastructure" raises [KeyError] with that
    key before anything else is read, and the list returned is a
    selection of the five fixed sentences in their fixed order. *)
Theorem X14_enhanced_recommendations
    (scores : list (string * Q))
    (c : EnhancedInvestmentAlgorithm.CompanyProfile) :
  Py.is_ok (EnhancedInvestmentAlgorithm._generate_recommendations scores c)
  = forallb (Py.contains scores)
      [ "infrastructure"; "talent"; "cost_efficiency"; "digital_readiness";
        "sustainability" ]
  /\ (Py.contains scores "infrastructure" = false ->
      EnhancedInvestmentAlgorithm._generate_recommendations scores c
      = Py.Raise (Py.KeyError "infrastructure"))
  /\ (forall recs,
         EnhancedInvestmentAlgorithm._generate_recommendations scores c
         = Py.Ok recs ->
         subseq recs canned_recommendations = true).
Proof.
  unfold EnhancedInvestmentAlgorithm._generate_recommendations,
    Py.getitem, Py.contains.
  cbn [forallb].
  destruct (Py.get scores "infrastructure") as [s1|];
    [|repeat split; intros; discriminate].
  destruct (Py.get scores "talent") as [s2|];
    [|repeat split; intros; discriminate].
  destruct (Py.get scores "cost_efficiency") as [s3|];
    [|repeat split; intros; discriminate].
  destruct (Py.get scores "digital_readiness") as [s4|];
    [|repeat split; intros; discriminate].
  destruct (Py.get scores "sustainability") as [s5|];
    [|repeat split; intros; discriminate].
  cbn [Py.bind Py.is_ok andb].
  split; [reflexivity|]. split; [discriminate|].
  intros recs H. injection H as <-. unfold Py.gtb.
  destruct (Py.ltb s1 70), (Py.ltb s2 70), (Py.ltb 80 s3),
    (Py.ltb s4 60), (Py.ltb s5 60); reflexivity.
Qed.

Lemma X14_enhanced_recommendations_witness :
  EnhancedInvestmentAlgorithm._generate_recommendations
    [("talent", 80)] Inputs.retail_company
  = Py.Raise (Py.KeyError "infrastructure")
  /\ subseq
       [ "Implement talent development programs";
         "Develop sustainability initiatives" ]
       canned_recommendations = true.
Proof.
  split.
  - destruct (X14_enhanced_recommendations
                [("talent", 80)] Inputs.retail_company) as (_ & H & _).
    apply H. reflexivity.
  - destruct (X14_enhanced_recommendations
                (scores12 80 60 70 80 80 80 80 80 80 50 80 80)
                Inputs.retail_company) as (_ & _ & H).
    apply H. reflexivity.
Defined.

(** X15.  The risk level of the enhanced engine in closed form: the
    geopolitical check decides first, then the currency and the
    political check, then the inflation check; the level is "Low Risk"
    only when no check triggers. *)
Theorem X15_enhanced_risk_level_by_priority
    (r : RegionalMetrics) (c : EnhancedInvestmentAlgorithm.CompanyProfile) :
  EnhancedInvestmentAlgorithm.risk_level
    (EnhancedInvestmentAlgorithm._generate_risk_assessment r c)
  = if geopolitical_risk r >? 0.6 then "Critical Risk"
    else if (currency_stability r <? 0.5) || (political_stability r <? 0.6)
    then "High Risk"
    else if inflation_rate r >? 0.1 then "Medium Risk"
    else "Low Risk".
Proof.
  unfold EnhancedInvestmentAlgorithm._generate_risk_assessment,
    EnhancedInvestmentAlgorithm.risk_state, Py.gtb.
  destruct (Py.ltb 0.1 (inflation_rate r)),
    (Py.ltb (currency_stability r) 0.5),
    (Py.ltb (political_stability r) 0.6),
    (Py.ltb 0.6 (geopolitical_risk r)); reflexivity.
Qed.

End RiskText.

(* ================================================================== *)
(** * Further properties of the matching of [revolutionary_system.py] *)
(* ================================================================== *)

Section MatchingRegistry.

Lemma get_some_in {V : Type} (d : list (string * V)) (k : string) (v : V) :
  Py.get d k = Some v -> In (k, v) d.
Proof.
  induction d as [|[k0 v0] d IH]; cbn [Py.get]; [discriminate|].
  destruct (k =? k0) eqn:E.
  - apply String.eqb_eq in E. subst. intro H. injection H as ->. now left.
  - intro H. right. apply IH, H.
Qed.

Lemma Qdiv_nonneg (a b : Q) : 0 <= a -> 0 < b -> 0 <= a / b.
Proof. intros Ha Hb. apply Qle_shift_div_l; lra. Qed.

Lemma inject_Z_max_pos (n : nat) : 0 < inject_Z (Z.max (Z.of_nat n) 1).
Proof. change 0 with (inject_Z 0). rewrite <- Zlt_Qlt. lia. Qed.

Lemma inject_Z_nat_nonneg (n : nat) : 0 <= inject_Z (Z.of_nat n).
Proof. change 0 with (inject_Z 0). rewrite <- Zle_Qle. lia. Qed.

Lemma tier_multiplier_range (t : RevolutionarySystem.DevelopmentTier) :
  0.8 <= RevolutionarySystem.tier_multiplier t
  /\ RevolutionarySystem.tier_multiplier t <= 1.2.
Proof. destruct t; cbn; lra. Qed.

(** The score of a registered pair, before the cap. *)
Lemma calculate_match_registered
    (self : RevolutionarySystem.System) (entity_id region_id : string)
    (entity : RevolutionarySystem.Entity)
    (region : RevolutionarySystem.Region) :
  Py.get (RevolutionarySystem.entities self) entity_id = Some entity ->
  Py.get (RevolutionarySystem.regions self) region_id = Some region ->
  exists base,
    0 <= base
    /\ RevolutionarySystem.calculate_match self entity_id region_id
       = Py.min 1.0
           ((base + RevolutionarySystem.growth_rate region / 10)
            * RevolutionarySystem.tier_multiplier
                (RevolutionarySystem.tier region)).
Proof.
  intros He Hr. unfold RevolutionarySystem.calculate_match.
  rewrite He, Hr. eexists. split; [|reflexivity].
  apply Qdiv_nonneg; [|apply inject_Z_max_pos].
  unfold RevolutionarySystem.common_count. apply inject_Z_nat_nonneg.
Qed.

Lemma collect_matches_fields
    (self : RevolutionarySystem.System) (entity_id : string)
    (rest : list (string * RevolutionarySystem.Region)) :
  Forall
    (fun m =>
       0.3 <= RevolutionarySystem.match_score m
       /\ RevolutionarySystem.match_score m <= 1
       /\ 7.5 <= RevolutionarySystem.roi_projection m
       /\ RevolutionarySystem.roi_projection m <= 25
       /\ ((RevolutionarySystem.risk_level m = "Low"
            /\ 0.7 <= RevolutionarySystem.match_score m)
           \/ (RevolutionarySystem.risk_level m = "Medium"
               /\ 0.5 <= RevolutionarySystem.match_score m
               /\ RevolutionarySystem.match_score m <= 0.7)
           \/ (RevolutionarySystem.risk_level m = "High"
               /\ RevolutionarySystem.match_score m <= 0.5)))
    (RevolutionarySystem.collect_matches self entity_id rest).
Proof.
  assert (R3 : Py.round 0.3 3 == 0.3) by (vm_compute; reflexivity).
  assert (R5 : Py.round 0.5 3 == 0.5) by (vm_compute; reflexivity).
  assert (R7 : Py.round 0.7 3 == 0.7) by (vm_compute; reflexivity).
  assert (R1 : Py.round 1 3 == 1) by (vm_compute; reflexivity).
  assert (R75 : Py.round 7.5 1 == 7.5) by (vm_compute; reflexivity).
  assert (R25 : Py.round 25 1 == 25) by (vm_compute; reflexivity).
  induction rest as [|[region_id region] rest IH]; cbn.
  - constructor.
  - pose proof (calculate_match_le_one self entity_id region_id) as Hle.
    set (score := RevolutionarySystem.calculate_match self entity_id
                    region_id) in *.
    unfold Py.gtb at 1.
    destruct (Py.ltb 0.3 score) eqn:E; [|exact IH].
    apply ltb_true in E. constructor; [|exact IH].
    cbn [RevolutionarySystem.match_score RevolutionarySystem.roi_projection
           RevolutionarySystem.risk_level].
    pose proof (round_mono 3 0.3 score) as M3.
    pose proof (round_mono 3 score 1 Hle) as M1.
    pose proof (round_mono 3 0.5 score) as M5l.
    pose proof (round_mono 3 score 0.5) as M5u.
    pose proof (round_mono 3 0.7 score) as M7l.
    pose proof (round_mono 3 score 0.7) as M7u.
    pose proof (round_mono 1 7.5 (score * 25)) as M75.
    pose proof (round_mono 1 (score * 25) 25) as M25.
    rewrite R3 in M3. rewrite R1 in M1. rewrite R5 in M5l, M5u.
    rewrite R7 in M7l, M7u. rewrite R75 in M75. rewrite R25 in M25.
    split; [apply M3; lra|]. split; [exact M1|].
    split; [apply M75; lra|]. split; [apply M25; lra|].
    unfold Py.gtb.
    destruct (Py.ltb 0.7 score) eqn:E7'.
    { apply ltb_true in E7'. left. split; [reflexivity | apply M7l; lra]. }
    apply ltb_false in E7'.
    destruct (Py.ltb 0.5 score) eqn:E5'.
    { apply ltb_true in E5'. right; left.
      split; [reflexivity|]. split; [apply M5l; lra | apply M7u; lra]. }
    apply ltb_false in E5'. right; right.
    split; [reflexivity | apply M5u; lra].
Qed.

(** X16.  Every match that [find_matches] returns is a meaningful one:
    its score lies between 0.3 and 1, its ROI projection between 7.5 and
    25, and its risk level agrees with the score it reports ("Low" from
    0.7 upwards, "Medium" between 0.5 and 0.7, "High" up to 0.5). *)
Theorem X16_find_matches_fields
    (self : RevolutionarySystem.System) (entity_id : string) (limit : Z) :
  Forall
    (fun m =>
       0.3 <= RevolutionarySystem.match_score m
       /\ RevolutionarySystem.match_score m <= 1
       /\ 7.5 <= RevolutionarySystem.roi_projection m
       /\ RevolutionarySystem.roi_projection m <= 25
       /\ ((RevolutionarySystem.risk_level m = "Low"
            /\ 0.7 <= RevolutionarySystem.match_score m)
           \/ (RevolutionarySystem.risk_level m = "Medium"
               /\ 0.5 <= RevolutionarySystem.match_score m
               /\ RevolutionarySystem.match_score m <= 0.7)
           \/ (RevolutionarySystem.risk_level m = "High"
               /\ RevolutionarySystem.match_score m <= 0.5)))
    (RevolutionarySystem.find_matches self entity_id limit).
Proof.
  unfold RevolutionarySystem.find_matches.
  destruct (slice_to_firstn limit
              (Py.sort_reverse RevolutionarySystem.match_score
                 (RevolutionarySystem.collect_matches self entity_id
                    (RevolutionarySystem.regions self)))) as [k ->].
  apply Forall_firstn_prefix.
  eapply Permutation_Forall; [apply sort_reverse_perm|].
  apply collect_matches_fields.
Qed.

Lemma collect_matches_length
    (self : RevolutionarySystem.System) (entity_id : string)
    (rest : list (string * RevolutionarySystem.Region)) :
  (length (RevolutionarySystem.collect_matches self entity_id rest)
   <= length rest)%nat.
Proof.
  induction rest as [|[region_id region] rest IH]; cbn; [lia|].
  destruct (_ >? _); cbn; lia.
Qed.

(** X17.  For a limit that is not negative [find_matches] returns as many
    matches as the limit allows: the smaller of the limit and the number
    of regions that pass the 0.3 filter.  With a limit of at least the
    number of regions no match is dropped: the result is a rearrangement
    of all the matches that pass the filter. *)
Theorem X17_find_matches_count
    (self : RevolutionarySystem.System) (entity_id : string) (limit : Z) :
  (0 <= limit)%Z ->
  let qualifying :=
    RevolutionarySystem.collect_matches self entity_id
      (RevolutionarySystem.regions self) in
  length (RevolutionarySystem.find_matches self entity_id limit)
  = Nat.min (Z.to_nat limit) (length qualifying)
  /\ ((Z.of_nat (length (RevolutionarySystem.regions self)) <= limit)%Z ->
      Permutation qualifying
        (RevolutionarySystem.find_matches self entity_id limit)).
Proof.
  intros Hlimit qualifying. unfold RevolutionarySystem.find_matches.
  fold qualifying. rewrite slice_to_nonneg by exact Hlimit.
  pose proof (Permutation_length
                (sort_reverse_perm RevolutionarySystem.match_score
                   qualifying)) as Hlen.
  split.
  - rewrite length_firstn, <- Hlen. reflexivity.
  - intro Hall.
    pose proof (collect_matches_length self entity_id
                  (RevolutionarySystem.regions self)) as Hq.
    fold qualifying in Hq.
    rewrite firstn_all2 by lia. apply sort_reverse_perm.
Qed.

Lemma X17_find_matches_count_witness :
  length (RevolutionarySystem.find_matches RevolutionarySystem.init
            "COMP-TECH" 2) = 2%nat
  /\ Permutation
       (RevolutionarySystem.collect_matches RevolutionarySystem.init
          "COMP-TECH"
          (RevolutionarySystem.regions RevolutionarySystem.init))
       (RevolutionarySystem.find_matches RevolutionarySystem.init
          "COMP-TECH" 3).
Proof.
  split.
  - destruct (X17_find_matches_count RevolutionarySystem.init "COMP-TECH" 2)
      as [H _]; [lia|].
    rewrite H. reflexivity.
  - destruct (X17_find_matches_count RevolutionarySystem.init "COMP-TECH" 3)
      as [_ H]; [lia|].
    apply H. cbn. lia.
Defined.

(** X18.  [calculate_match] returns 0.0 for a region id outside the
    registry.  For a registered entity and a registered region whose
    growth rate exceeds 3.75 the score exceeds 0.3 whatever the
    interests of the entity are, so the pair always passes the filter of
    [find_matches]; from a growth rate of 12.5 on the score is the cap
    1.0. *)
Theorem X18_growth_alone_qualifies
    (self : RevolutionarySystem.System) (entity_id region_id : string) :
  (Py.get (RevolutionarySystem.regions self) region_id = None ->
   RevolutionarySystem.calculate_match self entity_id region_id = 0.0)
  /\ (forall entity region,
         Py.get (RevolutionarySystem.entities self) entity_id = Some entity ->
         Py.get (RevolutionarySystem.regions self) region_id = Some region ->
         (0 <= RevolutionarySystem.growth_rate region ->
          0 <= RevolutionarySystem.calculate_match self entity_id region_id)
         /\ (3.75 < RevolutionarySystem.growth_rate region ->
             0.3 < RevolutionarySystem.calculate_match self entity_id
                     region_id)
         /\ (12.5 <= RevolutionarySystem.growth_rate region ->
             RevolutionarySystem.calculate_match self entity_id region_id
             == 1)).
Proof.
  split.
  - intro H. unfold RevolutionarySystem.calculate_match. rewrite H.
    destruct (Py.get (RevolutionarySystem.entities self) entity_id);
      reflexivity.
  - intros entity region He Hr.
    destruct (calculate_match_registered self entity_id region_id
                entity region He Hr) as (base & Hbase & ->).
    destruct (tier_multiplier_range (RevolutionarySystem.tier region))
      as [Hlo Hhi].
    set (m := RevolutionarySystem.tier_multiplier _) in *.
    set (g := RevolutionarySystem.growth_rate region) in *.
    assert (Hprod : forall x, 0 <= x -> x * 0.8 <= x * m).
    { intros x Hx. rewrite !(Qmult_comm x).
      apply Qmult_le_compat_r; lra. }
    assert (Eg : g / 10 == g * (1 # 10)) by (field).
    repeat split; intro Hg.
    + pose proof (Hprod (base + g / 10)) as Hp.
      cmp_cases; lra.
    + pose proof (Hprod (base + g / 10)) as Hp.
      cmp_cases; lra.
    + pose proof (Hprod (base + g / 10)) as Hp.
      cmp_cases; lra.
Qed.

Lemma X18_growth_alone_qualifies_witness :
  RevolutionarySystem.calculate_match RevolutionarySystem.init
    "INV-GROWTH" "XX-NONE" = 0.0
  /\ 0.3 < RevolutionarySystem.calculate_match RevolutionarySystem.init
             "INV-GROWTH" "TN-NAS".
Proof.
  split.
  - destruct (X18_growth_alone_qualifies RevolutionarySystem.init
                "INV-GROWTH" "XX-NONE") as [H _].
    apply H. reflexivity.
  - destruct (X18_growth_alone_qualifies RevolutionarySystem.init
                "INV-GROWTH" "TN-NAS") as [_ H].
    eapply H; [reflexivity | reflexivity |]. vm_compute. reflexivity.
Defined.

End MatchingRegistry.

(* ================================================================== *)
(** * Further properties of [revolutionary_regional_system.py] *)
(* ================================================================== *)

Section RegionalRegistry.

Lemma nodup_length_le {A : Type} (dec : forall x y : A, {x = y} + {x <> y})
    (l : list A) :
  (length (nodup dec l) <= length l)%nat.
Proof.
  induction l as [|a l IH]; cbn; [lia|].
  destruct (in_dec dec a l); cbn; lia.
Qed.

Lemma project_alignment_range
    (entity : RevolutionaryRegionalSystem.EntityProfile)
    (region : RevolutionaryRegionalSystem.RegionalProfile) :
  let alignment :=
    inject_Z
      (Z.of_nat
         (length (RevolutionaryRegionalSystem.common_projects entity region)))
    / inject_Z
        (Z.max
           (Z.of_nat
              (length (RevolutionaryRegionalSystem.project_interests entity)))
           1) in
  0 <= alignment /\ alignment <= 1.
Proof.
  cbv zeta.
  assert (Hlen : (length (RevolutionaryRegionalSystem.common_projects
                            entity region)
                  <= length (RevolutionaryRegionalSystem.project_interests
                               entity))%nat).
  { unfold RevolutionaryRegionalSystem.common_projects.
    etransitivity; [apply nodup_length_le | apply filter_length_le]. }
  set (a := length (RevolutionaryRegionalSystem.common_projects entity region))
    in *.
  set (n := length (RevolutionaryRegionalSystem.project_interests entity))
    in *.
  pose proof (inject_Z_max_pos n) as Hpos.
  split.
  - apply Qdiv_nonneg; [apply inject_Z_nat_nonneg | exact Hpos].
  - apply Qle_shift_div_r; [exact Hpos|].
    rewrite Qmult_1_l. rewrite <- Zle_Qle. lia.
Qed.

Lemma raw_match_score_on_scale
    (entity : RevolutionaryRegionalSystem.EntityProfile)
    (region : RevolutionaryRegionalSystem.RegionalProfile) :
  on_scale region ->
  0.125 <= RevolutionaryRegionalSystem.raw_match_score entity region
  /\ RevolutionaryRegionalSystem.raw_match_score entity region <= 1.
Proof.
  unfold on_scale, unit_interval.
  intros ([Hi0 Hi1] & [Ht0 Ht1] & [Hc0 Hc1] & [Hr0 Hr1] & [Hp0 Hp1]
          & [Hg0 Hg1] & [Hu0 Hu1]).
  destruct (project_alignment_range entity region) as [Ha0 Ha1].
  unfold RevolutionaryRegionalSystem.raw_match_score. cbv zeta.
  set (alignment := inject_Z _ / inject_Z _) in *.
  assert (Eg : RevolutionaryRegionalSystem.growth_rate region / 10
               == RevolutionaryRegionalSystem.growth_rate region * (1 # 10))
    by field.
  assert (Eu : RevolutionaryRegionalSystem.unemployment_rate region / 10
               == RevolutionaryRegionalSystem.unemployment_rate region
                  * (1 # 10))
    by field.
  destruct (Py.mem _ _); lra.
Qed.

Lemma match_score_on_scale
    (entity : RevolutionaryRegionalSystem.EntityProfile)
    (region : RevolutionaryRegionalSystem.RegionalProfile) :
  on_scale region ->
  0.125 <= RevolutionaryRegionalSystem.calculate_match_score entity region
  /\ RevolutionaryRegionalSystem.calculate_match_score entity region <= 1.
Proof.
  intro H. destruct (raw_match_score_on_scale entity region H) as [Hlo Hhi].
  unfold RevolutionaryRegionalSystem.calculate_match_score.
  assert (R : Py.round 0.125 3 == 0.125) by (vm_compute; reflexivity).
  assert (R1 : Py.round 1 3 == 1) by (vm_compute; reflexivity).
  split.
  - rewrite <- R. apply round_mono, Hlo.
  - rewrite <- R1. apply round_mono, Hhi.
Qed.

(** X19.  For a region on the scales of the sample data (indicators in
    [[0,1]], growth and unemployment between 0 and 10 percent) the match
    score of [calculate_match_score] lies between 0.125 and 1 for every
    entity: a region outside the preferred ones still earns half of the
    preference weight. *)
Theorem X19_match_score_on_scale
    (entity : RevolutionaryRegionalSystem.EntityProfile)
    (region : RevolutionaryRegionalSystem.RegionalProfile) :
  on_scale region ->
  0.125 <= RevolutionaryRegionalSystem.calculate_match_score entity region
  /\ RevolutionaryRegionalSystem.calculate_match_score entity region <= 1.
Proof. apply match_score_on_scale. Qed.

Lemma X19_match_score_on_scale_witness :
  0.125 <= RevolutionaryRegionalSystem.calculate_match_score
             Inputs.newcomer Inputs.tx_aus
  /\ RevolutionaryRegionalSystem.calculate_match_score
       Inputs.newcomer Inputs.tx_aus <= 1.
Proof.
  apply X19_match_score_on_scale.
  unfold on_scale, unit_interval; cbn; repeat split; lra.
Defined.

(** What [generate_match_recommendations] returns for a region on
    scale. *)
Lemma generate_match_on_scale
    (stamp now : string)
    (entity : RevolutionaryRegionalSystem.EntityProfile)
    (region : RevolutionaryRegionalSystem.RegionalProfile) :
  on_scale region ->
  exists m,
    RevolutionaryRegionalSystem.generate_match_recommendations stamp now
      entity region = Py.Ok m
    /\ 0.125 <= RevolutionaryRegionalSystem.match_score m
    /\ RevolutionaryRegionalSystem.match_score m <= 1
    /\ (96 <= RevolutionaryRegionalSystem.break_even_months
                (RevolutionaryRegionalSystem.roi_projection m) <= 768)%Z
    /\ 3.1 <= RevolutionaryRegionalSystem.projected_roi
                (RevolutionaryRegionalSystem.roi_projection m)
    /\ RevolutionaryRegionalSystem.projected_roi
         (RevolutionaryRegionalSystem.roi_projection m) <= 25.
Proof.
  intro H. destruct (match_score_on_scale entity region H) as [Hlo Hhi].
  unfold RevolutionaryRegionalSystem.generate_match_recommendations.
  cbv zeta.
  set (ms := RevolutionaryRegionalSystem.calculate_match_score entity region)
    in *.
  assert (Hpos : 0 < ms * 25 / 100) by (apply Qlt_shift_div_l; lra).
  unfold Py.truediv.
  destruct (Qeq_bool (ms * 25 / 100) 0) eqn:E0.
  { apply Qeq_bool_iff in E0. lra. }
  cbn [Py.bind]. eexists. split; [reflexivity|].
  cbn [RevolutionaryRegionalSystem.match_score
         RevolutionaryRegionalSystem.roi_projection
         RevolutionaryRegionalSystem.break_even_months
         RevolutionaryRegionalSystem.projected_roi].
  split; [exact Hlo|]. split; [exact Hhi|].
  assert (Ed : forall k, k * (ms * 25 / 100) == k * ms * (1 # 4))
    by (intro k; field).
  split; [split|].
  - apply int_lower; [lia|].
    apply Qle_shift_div_l; [exact Hpos|].
    rewrite Ed. change (inject_Z 96) with 96. lra.
  - assert (Hlt : (Py.int (24 / (ms * 25 / 100)) < 769)%Z); [|lia].
    apply int_upper.
    + apply Qle_shift_div_l; [exact Hpos | lra].
    + apply Qlt_shift_div_r; [exact Hpos|].
      rewrite Ed. change (inject_Z 769) with 769. lra.
  - assert (R : Py.round 3.1 1 == 3.1) by (vm_compute; reflexivity).
    assert (R25 : Py.round 25 1 == 25) by (vm_compute; reflexivity).
    split.
    + apply Qle_trans with (Py.round 3.1 1); [lra | apply round_mono; lra].
    + apply Qle_trans with (Py.round 25 1); [apply round_mono; lra | lra].
Qed.

Lemma mapM_ok {A B : Type} (f : A -> Py.result B) (P : B -> Prop)
    (xs : list A) :
  Forall (fun x => exists y, f x = Py.Ok y /\ P y) xs ->
  exists ys, Py.mapM f xs = Py.Ok ys /\ Forall P ys.
Proof.
  induction 1 as [|x xs (y & Hy & HP) _ (ys & Hys & HPs)]; cbn [Py.mapM].
  - exists []. split; [reflexivity | constructor].
  - rewrite Hy. cbn [Py.bind]. rewrite Hys. cbn [Py.bind].
    exists (y :: ys). split; [reflexivity | constructor; assumption].
Qed.

(** X20.  When every region of the registry is on the scales of the
    sample data, [find_best_matches] returns a list for every entity id
    and every limit (the division in the break-even computation never
    fails), and every match in it has a score between 0.125 and 1, a
    projected ROI between 3.1 and 25 and a break-even time between 96
    and 768 months. *)
Theorem X20_find_best_matches_on_scale
    (stamp now : string) (self : RevolutionaryRegionalSystem.System)
    (entity_id : string) (limit : Z) :
  Forall (fun kv => on_scale (snd kv))
    (RevolutionaryRegionalSystem.regions self) ->
  exists result,
    RevolutionaryRegionalSystem.find_best_matches stamp now self entity_id
      limit = Py.Ok result
    /\ Forall
         (fun m =>
            0.125 <= RevolutionaryRegionalSystem.match_score m
            /\ RevolutionaryRegionalSystem.match_score m <= 1
            /\ (96 <= RevolutionaryRegionalSystem.break_even_months
                        (RevolutionaryRegionalSystem.roi_projection m)
                <= 768)%Z
            /\ 3.1 <= RevolutionaryRegionalSystem.projected_roi
                        (RevolutionaryRegionalSystem.roi_projection m)
            /\ RevolutionaryRegionalSystem.projected_roi
                 (RevolutionaryRegionalSystem.roi_projection m) <= 25)
         result.
Proof.
  intro H. unfold RevolutionaryRegionalSystem.find_best_matches.
  destruct (Py.get (RevolutionaryRegionalSystem.entities self) entity_id)
    as [entity|]; [|exists []; split; [reflexivity | constructor]].
  destruct (mapM_ok
              (RevolutionaryRegionalSystem.generate_match_recommendations
                 stamp now entity)
              (fun m =>
                 0.125 <= RevolutionaryRegionalSystem.match_score m
                 /\ RevolutionaryRegionalSystem.match_score m <= 1
                 /\ (96 <= RevolutionaryRegionalSystem.break_even_months
                             (RevolutionaryRegionalSystem.roi_projection m)
                     <= 768)%Z
                 /\ 3.1 <= RevolutionaryRegionalSystem.projected_roi
                             (RevolutionaryRegionalSystem.roi_projection m)
                 /\ RevolutionaryRegionalSystem.projected_roi
                      (RevolutionaryRegionalSystem.roi_projection m) <= 25)
              (map snd (RevolutionaryRegionalSystem.regions self)))
    as (matches & Hm & HP).
  { apply Forall_map. eapply Forall_impl; [|exact H].
    intros [k region] Hon. apply generate_match_on_scale, Hon. }
  rewrite Hm. cbn [Py.bind]. eexists. split; [reflexivity|].
  destruct (slice_to_firstn limit
              (Py.sort_reverse RevolutionaryRegionalSystem.match_score
                 matches)) as [k ->].
  apply Forall_firstn_prefix.
  eapply Permutation_Forall; [apply sort_reverse_perm | exact HP].
Qed.

Lemma X20_find_best_matches_on_scale_witness :
  exists result,
    RevolutionaryRegionalSystem.find_best_matches "" ""
      (RevolutionaryRegionalSystem.init "") "INV-GROWTH" 5 = Py.Ok result
    /\ Forall
         (fun m =>
            0.125 <= RevolutionaryRegionalSystem.match_score m
            /\ RevolutionaryRegionalSystem.match_score m <= 1
            /\ (96 <= RevolutionaryRegionalSystem.break_even_months
                        (RevolutionaryRegionalSystem.roi_projection m)
                <= 768)%Z
            /\ 3.1 <= RevolutionaryRegionalSystem.projected_roi
                        (RevolutionaryRegionalSystem.roi_projection m)
            /\ RevolutionaryRegionalSystem.projected_roi
                 (RevolutionaryRegionalSystem.roi_projection m) <= 25)
         result.
Proof.
  apply X20_find_best_matches_on_scale.
  repeat (apply Forall_cons;
          [unfold on_scale, unit_interval; cbn; repeat split; lra|]).
  apply Forall_nil.
Defined.

(** X21.  The score behind the development tier takes the growth rate as
    it is stored, in percent, with weight 0.25: a region with a growth
    rate of at least 3.4 percent is a Premium region whatever its other
    indicators are (none negative, unemployment at most 10 percent).
    The three sample regions are all computed to be Premium, whereas the
    sample data declares the second one Established and the third one
    Growing. *)
Theorem X21_growth_decides_development_tier
    (now : string) (region : RevolutionaryRegionalSystem.RegionalProfile) :
  (3.4 <= RevolutionaryRegionalSystem.growth_rate region ->
   0 <= RevolutionaryRegionalSystem.infrastructure_score region ->
   0 <= RevolutionaryRegionalSystem.talent_availability region ->
   0 <= RevolutionaryRegionalSystem.gdp_per_capita region ->
   0 <= RevolutionaryRegionalSystem.political_stability region ->
   RevolutionaryRegionalSystem.unemployment_rate region <= 10 ->
   RevolutionaryRegionalSystem.calculate_development_tier region
   = RevolutionaryRegionalSystem.PREMIUM)
  /\ map (fun kv =>
            RevolutionaryRegionalSystem.calculate_development_tier (snd kv))
       (RevolutionaryRegionalSystem.sample_regions now)
     = [ RevolutionaryRegionalSystem.PREMIUM;
         RevolutionaryRegionalSystem.PREMIUM;
         RevolutionaryRegionalSystem.PREMIUM ]
  /\ map (fun kv => RevolutionaryRegionalSystem.development_tier (snd kv))
       (RevolutionaryRegionalSystem.sample_regions now)
     = [ RevolutionaryRegionalSystem.PREMIUM;
         RevolutionaryRegionalSystem.ESTABLISHED;
         RevolutionaryRegionalSystem.GROWING ].
Proof.
  split; [|split; reflexivity].
  intros Hg Hi Ht Hd Hp Hu.
  apply (development_tier_thresholds region).
  unfold RevolutionaryRegionalSystem.development_score.
  assert (Ed : RevolutionaryRegionalSystem.gdp_per_capita region / 100000
               == RevolutionaryRegionalSystem.gdp_per_capita region
                  * (1 # 100000)) by field.
  assert (Eu : RevolutionaryRegionalSystem.unemployment_rate region / 10
               == RevolutionaryRegionalSystem.unemployment_rate region
                  * (1 # 10)) by field.
  lra.
Qed.

Lemma X21_growth_decides_development_tier_witness :
  RevolutionaryRegionalSystem.calculate_development_tier
    (Inputs.distressed_region 10 3.4 0 0 1 0 0)
  = RevolutionaryRegionalSystem.PREMIUM.
Proof.
  destruct (X21_growth_decides_development_tier ""
              (Inputs.distressed_region 10 3.4 0 0 1 0 0)) as [H _].
  apply H; cbn; lra.
Defined.




End RegionalRegistry.

(* ================================================================== *)
(** * [BWGA_NEXUS_COMPLETE.py]: the form-based score *)
(* ================================================================== *)

Section FormScore.

Variable float : string -> option Q.

(** X23.  For any fourteen finite values (the fallback values among
    them) the scoring part of [advanced_investment_algorithm], after the
    [try] block, gives a consistent result: Tier 1 comes with risk level
    "Low", a reported score of at least 85 and a ROI of at least 12.5;
    Tier 2 with "Medium", a score between 70 and 85 and a ROI between 8
    and 12.5; Tier 3 with "High", a score of at most 70 and a ROI of at
    most 8. *)
Theorem X23_form_tier_risk_and_roi
    (now : string) (m : BwgaNexusComplete.Metrics) :
  let res := BwgaNexusComplete.analyse now m in
  (BwgaNexusComplete.tier res = "Tier 1 - Premium Investment"
   /\ BwgaNexusComplete.risk_level res = "Low"
   /\ 85 <= BwgaNexusComplete.score res
   /\ 12.5 <= BwgaNexusComplete.roi res)
  \/ (BwgaNexusComplete.tier res = "Tier 2 - Strategic Investment"
      /\ BwgaNexusComplete.risk_level res = "Medium"
      /\ 70 <= BwgaNexusComplete.score res
      /\ BwgaNexusComplete.score res <= 85
      /\ 8 <= BwgaNexusComplete.roi res
      /\ BwgaNexusComplete.roi res <= 12.5)
  \/ (BwgaNexusComplete.tier res = "Tier 3 - Emerging Opportunity"
      /\ BwgaNexusComplete.risk_level res = "High"
      /\ BwgaNexusComplete.score res <= 70
      /\ BwgaNexusComplete.roi res <= 8).
Proof.
  cbv zeta. unfold BwgaNexusComplete.analyse. cbv zeta.
  set (s := (_ - BwgaNexusComplete.volatility m * 0.05) * 100).
  cbn [BwgaNexusComplete.tier BwgaNexusComplete.risk_level
         BwgaNexusComplete.score BwgaNexusComplete.roi].
  assert (R85 : Py.round 85 2 == 85) by (vm_compute; reflexivity).
  assert (R70 : Py.round 70 2 == 70) by (vm_compute; reflexivity).
  assert (R8 : Py.round 8 2 == 8) by (vm_compute; reflexivity).
  assert (R125 : Py.round 12.5 2 == 12.5) by (vm_compute; reflexivity).
  pose proof (round_mono 2 85 s) as M85l.
  pose proof (round_mono 2 s 85) as M85u.
  pose proof (round_mono 2 70 s) as M70l.
  pose proof (round_mono 2 s 70) as M70u.
  pose proof (round_mono 2 8 (8 + (s - 70) * 0.3)) as M8l.
  pose proof (round_mono 2 (8 + (s - 70) * 0.3) 8) as M8u.
  pose proof (round_mono 2 12.5 (8 + (s - 70) * 0.3)) as M125l.
  pose proof (round_mono 2 (8 + (s - 70) * 0.3) 12.5) as M125u.
  unfold Py.geb.
  destruct (Qle_bool 85 s) eqn:E85.
  { apply Qle_bool_iff in E85. left.
    repeat split; try reflexivity; lra. }
  apply Qle_bool_false in E85.
  destruct (Qle_bool 70 s) eqn:E70.
  { apply Qle_bool_iff in E70. right; left.
    repeat split; try reflexivity; lra. }
  apply Qle_bool_false in E70. right; right.
  repeat split; try reflexivity; lra.
Qed.

(** X24.  For a form whose fourteen values are read as numbers in
    [[0,1]] the reported score lies between -10 and 190 and the ROI
    between -16 and 44: the growth rate enters with weight 1, not 0.1.
    With a growth rate of at most 0.1 the score stays at or below
    100. *)
Theorem X24_form_score_range
    (now : string) (data : list (string * string))
    (m : BwgaNexusComplete.Metrics) :
  BwgaNexusComplete.read_metrics float data = Some m ->
  form_in_unit m ->
  let res := BwgaNexusComplete.advanced_investment_algorithm float now data in
  -10 <= BwgaNexusComplete.score res
  /\ BwgaNexusComplete.score res <= 190
  /\ -16 <= BwgaNexusComplete.roi res
  /\ BwgaNexusComplete.roi res <= 44
  /\ (BwgaNexusComplete.growth m <= 0.1 ->
      BwgaNexusComplete.score res <= 100).
Proof.
  intros Hread Hunit. cbv zeta.
  unfold BwgaNexusComplete.advanced_investment_algorithm. rewrite Hread.
  unfold form_in_unit, unit_interval in Hunit.
  destruct Hunit as ([? ?] & [? ?] & [? ?] & [? ?] & [? ?] & [? ?] & [? ?]
                     & [? ?] & [? ?] & [? ?] & [? ?] & [? ?] & [? ?]
                     & [? ?]).
  unfold BwgaNexusComplete.analyse. cbv zeta.
  cbn [BwgaNexusComplete.score BwgaNexusComplete.roi].
  set (s := (_ - BwgaNexusComplete.volatility m * 0.05) * 100).
  assert (Hs : -10 <= s /\ s <= 190) by (unfold s; lra).
  assert (Rl : Py.round (-10) 2 == -10) by (vm_compute; reflexivity).
  assert (Ru : Py.round 190 2 == 190) by (vm_compute; reflexivity).
  assert (Rrl : Py.round (-16) 2 == -16) by (vm_compute; reflexivity).
  assert (Rru : Py.round 44 2 == 44) by (vm_compute; reflexivity).
  assert (Rc : Py.round 100 2 == 100) by (vm_compute; reflexivity).
  pose proof (round_mono 2 (-10) s) as M1.
  pose proof (round_mono 2 s 190) as M2.
  pose proof (round_mono 2 (-16) (8 + (s - 70) * 0.3)) as M3.
  pose proof (round_mono 2 (8 + (s - 70) * 0.3) 44) as M4.
  pose proof (round_mono 2 s 100) as M5.
  repeat split; try lra.
  intro Hg. assert (s <= 100) by (unfold s; lra). lra.
Qed.

(** X25.  When the text of any one of the fourteen form fields cannot be
    read as a number, all fourteen values are replaced by the fallback
    ones, including those that were readable.  The fallback sets the
    growth rate to 0.7, so the result is the best one: a score of 120.3,
    Tier 1, risk level "Low" and a ROI of 23.09.  An empty form, read
    with the defaults, scores 59.9 and is Tier 3. *)
Theorem X25_unreadable_field_gives_fallback
    (now : string) (data : list (string * string)) (key text : string) :
  (In key form_keys ->
   Py.get data key = Some text ->
   float text = None ->
   BwgaNexusComplete.advanced_investment_algorithm float now data
   = BwgaNexusComplete.analyse now BwgaNexusComplete.fallback)
  /\ (BwgaNexusComplete.score
        (BwgaNexusComplete.analyse now BwgaNexusComplete.fallback) == 120.3
      /\ BwgaNexusComplete.tier
           (BwgaNexusComplete.analyse now BwgaNexusComplete.fallback)
         = "Tier 1 - Premium Investment"
      /\ BwgaNexusComplete.risk_level
           (BwgaNexusComplete.analyse now BwgaNexusComplete.fallback)
         = "Low"
      /\ BwgaNexusComplete.roi
           (BwgaNexusComplete.analyse now BwgaNexusComplete.fallback)
         == 23.09)
  /\ (BwgaNexusComplete.read_metrics float [] = Some Inputs.form_defaults
      /\ BwgaNexusComplete.score
           (BwgaNexusComplete.advanced_investment_algorithm float now [])
         == 59.9
      /\ BwgaNexusComplete.tier
           (BwgaNexusComplete.advanced_investment_algorithm float now [])
         = "Tier 3 - Emerging Opportunity").
Proof.
  split; [|split].
  - intros Hin Hget Hnone.
    assert (Hf : forall default,
               BwgaNexusComplete.field float data key default = None).
    { intro default. unfold BwgaNexusComplete.field.
      rewrite Hget. exact Hnone. }
    unfold BwgaNexusComplete.advanced_investment_algorithm,
      BwgaNexusComplete.read_metrics.
    unfold form_keys in Hin. cbn [In] in Hin.
    repeat (destruct Hin as [<- | Hin];
            [repeat match goal with
                    | |- context [BwgaNexusComplete.field float data ?k ?d] =>
                        first [ rewrite (Hf d)
                              | destruct (BwgaNexusComplete.field float data
                                            k d) ]
                    end; reflexivity|]).
    destruct Hin.
  - repeat split; vm_compute; reflexivity.
  - repeat split; vm_compute; reflexivity.
Qed.

End FormScore.

Lemma X24_form_score_range_witness :
  let res :=
    BwgaNexusComplete.advanced_investment_algorithm Inputs.reads_listed
      "" [] in
  -10 <= BwgaNexusComplete.score res
  /\ BwgaNexusComplete.score res <= 190
  /\ -16 <= BwgaNexusComplete.roi res
  /\ BwgaNexusComplete.roi res <= 44
  /\ BwgaNexusComplete.score res <= 100.
Proof.
  destruct (X24_form_score_range Inputs.reads_listed "" []
              Inputs.form_defaults eq_refl)
    as (H1 & H2 & H3 & H4 & H5).
  { unfold form_in_unit, unit_interval; cbn; repeat split; lra. }
  repeat (split; [assumption|]). apply H5. cbn. lra.
Defined.

Lemma X25_unreadable_field_gives_fallback_witness :
  BwgaNexusComplete.advanced_investment_algorithm Inputs.reads_listed ""
    Inputs.form_with_bad_growth
  = BwgaNexusComplete.analyse "" BwgaNexusComplete.fallback.
Proof.
  destruct (X25_unreadable_field_gives_fallback Inputs.reads_listed ""
              Inputs.form_with_bad_growth "growth_rate" "fast") as [H _].
  apply H; [cbn; tauto | reflexivity | reflexivity].
Defined.

(* ================================================================== *)
(** * [real_time_data.py]: relevance and sentiment of a text *)
(* ================================================================== *)

Section TextHelpers.

Lemma lower_ascii_idem (c : ascii) :
  Py.lower_ascii (Py.lower_ascii c) = Py.lower_ascii c.
Proof.
  destruct c as [[] [] [] [] [] [] [] []]; vm_compute; reflexivity.
Qed.

Lemma lower_idem (s : string) : Py.lower (Py.lower s) = Py.lower s.
Proof.
  induction s as [|c s IH]; cbn [Py.lower]; [reflexivity|].
  now rewrite lower_ascii_idem, IH.
Qed.

Lemma lower_empty (s : string) : Py.lower s = "" <-> s = "".
Proof. destruct s; cbn; split; intro H; try reflexivity; discriminate. Qed.

Lemma count_nonneg (hay needle : string) : (0 <= Py.count hay needle)%Z.
Proof. unfold Py.count. destruct needle; lia. Qed.

Lemma count_from_absent (needle hay : string) :
  Py.str_in needle hay = false ->
  forall skip, Py.count_from needle hay skip = 0%nat.
Proof.
  induction hay as [|a hay IH]; intros H skip; [reflexivity|].
  rewrite str_in_cons in H.
  destruct (String.prefix needle (String a hay)) eqn:E; [discriminate|].
  cbn [Py.count_from]. rewrite E.
  destruct skip; apply IH, H.
Qed.

Lemma count_from_present (needle hay : string) :
  needle <> "" ->
  Py.str_in needle hay = true ->
  (1 <= Py.count_from needle hay 0)%nat.
Proof.
  intro Hne. induction hay as [|a hay IH]; intro H.
  - destruct needle; [contradiction | discriminate].
  - rewrite str_in_cons in H. cbn [Py.count_from].
    destruct (String.prefix needle (String a hay)); [lia | apply IH, H].
Qed.

(** [hay.count(needle)] is positive exactly when [needle in hay], for a
    needle that is not empty. *)
Lemma count_pos_iff (hay needle : string) :
  needle <> "" ->
  (0 < Py.count hay needle)%Z <-> Py.str_in needle hay = true.
Proof.
  intro Hne. unfold Py.count.
  destruct needle as [|c needle]; [contradiction|].
  split.
  - intro H. destruct (Py.str_in (String c needle) hay) eqn:E;
      [reflexivity|].
    rewrite (count_from_absent _ _ E) in H. lia.
  - intro H. pose proof (count_from_present _ _ Hne H). lia.
Qed.

(** X26.  The relevance of an article lies between 0 and 1 for every
    article and keyword.  For a keyword that is not empty it is positive
    exactly when the lower-cased keyword occurs in the lower-cased title
    or description.  The empty keyword occurs everywhere
    ([len + 1] times), so it makes every article relevant with at least
    0.3. *)
Theorem X26_relevance_range
    (article : list (string * string)) (keyword : string) :
  let title :=
    Py.lower (match Py.get article "title" with Some t => t | None => "" end)
  in
  let description :=
    Py.lower
      (match Py.get article "description" with Some d => d | None => "" end)
  in
  let relevance := RealTimeData._calculate_relevance article keyword in
  0 <= relevance /\ relevance <= 1
  /\ (keyword = "" -> 0.3 <= relevance)
  /\ (keyword <> "" ->
      (0 < relevance
       <-> Py.str_in (Py.lower keyword) title = true
           \/ Py.str_in (Py.lower keyword) description = true)).
Proof.
  cbv zeta. unfold RealTimeData._calculate_relevance. cbv zeta.
  set (title := Py.lower (match Py.get article "title" with
                          | Some t => t | None => "" end)).
  set (description := Py.lower (match Py.get article "description" with
                                | Some d => d | None => "" end)).
  pose proof (count_nonneg title (Py.lower keyword)) as Ht.
  pose proof (count_nonneg description (Py.lower keyword)) as Hd.
  set (n := (Py.count title (Py.lower keyword) * 2
             + Py.count description (Py.lower keyword))%Z).
  assert (Hn : (0 <= n)%Z) by (unfold n; lia).
  assert (Ex : inject_Z n / 10 == inject_Z n * (1 # 10)) by field.
  assert (Hq : 0 <= inject_Z n).
  { change 0 with (inject_Z 0). rewrite <- Zle_Qle. exact Hn. }
  split; [cmp_cases; lra|]. split; [cmp_cases; lra|]. split.
  - intros ->. cbn [Py.lower] in *. unfold Py.count in n.
    assert (H3 : (3 <= n)%Z) by (unfold n; lia).
    assert (Hq3 : 3 <= inject_Z n).
    { change 3 with (inject_Z 3). rewrite <- Zle_Qle. exact H3. }
    cmp_cases; lra.
  - intro Hne.
    assert (Hne' : Py.lower keyword <> "").
    { intro E. apply Hne. apply lower_empty, E. }
    rewrite <- !(count_pos_iff _ _ Hne').
    assert (Hpos : 0 < inject_Z n <-> (0 < n)%Z).
    { change 0 with (inject_Z 0). rewrite <- Zlt_Qlt. reflexivity. }
    split.
    + intro H. assert (Hx : 0 < inject_Z n) by (revert H; cmp_cases; lra).
      apply Hpos in Hx. unfold n in Hx. lia.
    + intro H. assert (Hx : (0 < n)%Z) by (unfold n; lia).
      apply Hpos in Hx. cmp_cases; lra.
Qed.

Lemma X26_relevance_range_witness :
  0.3 <= RealTimeData._calculate_relevance
           [("title", "Growth in Austin")] ""
  /\ 0 < RealTimeData._calculate_relevance
           [("title", "Growth in Austin")] "AUSTIN".
Proof.
  split.
  - destruct (X26_relevance_range [("title", "Growth in Austin")] "")
      as (_ & _ & H & _).
    apply H. reflexivity.
  - destruct (X26_relevance_range [("title", "Growth in Austin")] "AUSTIN")
      as (_ & _ & _ & H).
    apply H; [discriminate|]. left. reflexivity.
Defined.

(** X27.  The two text helpers and the industry lookup ignore the case of
    ASCII letters: lower-casing the text, the keyword or the industry
    beforehand does not change the result. *)
Theorem X27_ascii_case_is_ignored
    (text keyword industry : string) (article : list (string * string)) :
  RealTimeData._analyze_sentiment (Py.lower text)
  = RealTimeData._analyze_sentiment text
  /\ RealTimeData._calculate_relevance article (Py.lower keyword)
     = RealTimeData._calculate_relevance article keyword
  /\ InvestmentAlgorithm._get_industry_type (Py.lower industry)
     = InvestmentAlgorithm._get_industry_type industry.
Proof.
  unfold RealTimeData._analyze_sentiment, RealTimeData._calculate_relevance,
    InvestmentAlgorithm._get_industry_type.
  rewrite !lower_idem. repeat split.
Qed.

End TextHelpers.

(* ================================================================== *)
(** * The two engines on GDP per capita *)
(* ================================================================== *)

Section GdpPerCapita.

(** X28.  The two engines read GDP per capita in opposite directions.
    With everything else fixed and a growth rate that is not negative,
    the growth-potential component of the enhanced engine never
    decreases when GDP per capita increases (rich regions are scaled by
    1.1, poor ones by 0.9), whereas the one of [investment_algorithm.py]
    never increases (rich regions are scaled by 0.8, poor ones by
    1.3). *)
Theorem X28_gdp_per_capita_direction
    (r : RegionalMetrics)
    (ca : InvestmentAlgorithm.CompanyProfile)
    (ce : EnhancedInvestmentAlgorithm.CompanyProfile) (a b : Q) :
  a <= b -> 0 <= growth_rate r ->
  EnhancedInvestmentAlgorithm._calculate_growth_potential
    (with_gdp_per_capita r a) ce
  <= EnhancedInvestmentAlgorithm._calculate_growth_potential
       (with_gdp_per_capita r b) ce
  /\ InvestmentAlgorithm._calculate_growth_potential
       (with_gdp_per_capita r b) ca
     <= InvestmentAlgorithm._calculate_growth_potential
          (with_gdp_per_capita r a) ca.
Proof.
  intros Hab Hg. split.
  - unfold EnhancedInvestmentAlgorithm._calculate_growth_potential.
    cbn [with_gdp_per_capita gdp_per_capita growth_rate].
    apply clamp_mono.
    destruct (Py.mem _ _); cmp_cases; lra.
  - unfold InvestmentAlgorithm._calculate_growth_potential.
    cbn [with_gdp_per_capita gdp_per_capita growth_rate population].
    apply clamp_mono.
    destruct (population r >? 5000000)%Z; cmp_cases; lra.
Qed.

Lemma X28_gdp_per_capita_direction_witness :
  EnhancedInvestmentAlgorithm._calculate_growth_potential
    (with_gdp_per_capita Inputs.unstable_region 5000) Inputs.retail_company
  <= EnhancedInvestmentAlgorithm._calculate_growth_potential
       (with_gdp_per_capita Inputs.unstable_region 60000)
       Inputs.retail_company
  /\ InvestmentAlgorithm._calculate_growth_potential
       (with_gdp_per_capita Inputs.unstable_region 60000)
       Inputs.retail_company_advanced
     <= InvestmentAlgorithm._calculate_growth_potential
          (with_gdp_per_capita Inputs.unstable_region 5000)
          Inputs.retail_company_advanced.
Proof.
  apply X28_gdp_per_capita_direction; cbn; lra.
Defined.

End GdpPerCapita.
